(** * Roman-x-tools: a shallow embedding of the Firebase console core

    The development follows the TypeScript sources:
    - [firebaseService] : [cleanUrl], [buildEndpoint], [checkConnection],
      [readData], [writeData], [updateData], [deleteData];
    - [geminiService]   : the response handling of [generateDataWithAI];
    - [DataNode]        : default expansion, [handleSave], [handleAddChild];
    - [App]             : [notify], [fetchRootData], [handleExecuteAiPlan].

    JavaScript strings are sequences of UTF-16 code units, so a string is a
    [list N] here; [lit] turns an ASCII literal of the source into one.
    Numbers are IEEE binary64 values ([spec_float] with prec 53, emax 1024).
    The remote store and the network are a parameter ([Host]). *)

From Stdlib Require Import List NArith ZArith Bool String Ascii Lia.
From Stdlib Require Import Floats.SpecFloat.
Import ListNotations.

Set Implicit Arguments.
#[local] Set Warnings "-register-all,-abstract-large-number".

(* ===================================================================== *)
(** ** JavaScript strings *)
(* ===================================================================== *)

Module JS.

Local Open Scope N_scope.

(** A string is its list of UTF-16 code units. *)
Definition str := list N.

Definition lit (s : string) : str :=
  map N_of_ascii (list_ascii_of_string s).

Definition str_eqb (a b : str) : bool :=
  if list_eq_dec N.eq_dec a b then true else false.

(** [s.startsWith(p)] *)
Fixpoint startsWith (p s : str) : bool :=
  match p, s with
  | [], _ => true
  | _ :: _, [] => false
  | a :: p', b :: s' => (a =? b) && startsWith p' s'
  end.

(** [a || b] on two strings: [b] when [a] is empty. *)
Definition orElse (a b : str) : str :=
  match a with
  | [] => b
  | _ :: _ => a
  end.

(** [s.endsWith(p)] *)
Definition endsWith (p s : str) : bool := startsWith (rev p) (rev s).

(** The longest prefix whose units satisfy [f] is dropped. *)
Fixpoint dropWhile (f : N -> bool) (s : str) : str :=
  match s with
  | [] => []
  | c :: s' => if f c then dropWhile f s' else s
  end.

Definition dropWhileEnd (f : N -> bool) (s : str) : str :=
  rev (dropWhile f (rev s)).

(** WhiteSpace and LineTerminator of ECMA-262: what [trim] strips and what
    [Number] skips around a numeric literal. *)
Definition isWhiteSpace (c : N) : bool :=
  (c =? 9) || (c =? 10) || (c =? 11) || (c =? 12) || (c =? 13) ||
  (c =? 32) || (c =? 160) || (c =? 5760) ||
  ((8192 <=? c) && (c <=? 8202)) ||
  (c =? 8232) || (c =? 8233) || (c =? 8239) || (c =? 8287) ||
  (c =? 12288) || (c =? 65279).

(** [s.trim()] *)
Definition trim (s : str) : str :=
  dropWhileEnd isWhiteSpace (dropWhile isWhiteSpace s).

Definition isSlash (c : N) : bool := c =? 47.

(** [s.split('/')]: never the empty list; [''.split('/')] is [['']]. *)
Fixpoint split (sep : N) (s : str) : list str :=
  match s with
  | [] => [[]]
  | c :: s' =>
      if c =? sep then [] :: split sep s'
      else match split sep s' with
           | seg :: rest => (c :: seg) :: rest
           | [] => [[c]]
           end
  end.

(** [l.join(sep)] *)
Fixpoint join (sep : str) (l : list str) : str :=
  match l with
  | [] => []
  | x :: rest =>
      match rest with
      | [] => x
      | _ :: _ => x ++ sep ++ join sep rest
      end
  end.

(** Decimal digits of a natural number, as [String(n)] prints an integer;
    a number has no more decimal digits than binary ones, which is the
    fuel [decimal] gives. *)
Fixpoint decimal_pos (fuel : nat) (n : N) (acc : str) : str :=
  match fuel with
  | O => acc
  | S fuel' =>
      let acc' := (48 + n mod 10) :: acc in
      if n / 10 =? 0 then acc' else decimal_pos fuel' (n / 10) acc'
  end.

Definition decimal (n : N) : str := decimal_pos (S (N.to_nat (N.log2 n))) n [].

(** *** Errors and results *)

(** A thrown value: only [name] and [message] are ever inspected. *)
Record JSError := mkError { name : str; message : str }.

Definition Error (msg : str) : JSError := mkError (lit "Error") msg.

Inductive result (A : Type) : Type :=
| OK (a : A)
| Throw (e : JSError).
Arguments OK {A} a.
Arguments Throw {A} e.

Definition bind {A B} (r : result A) (k : A -> result B) : result B :=
  match r with
  | OK a => k a
  | Throw e => Throw e
  end.

(** *** encodeURIComponent *)

Definition isAlpha (c : N) : bool :=
  ((65 <=? c) && (c <=? 90)) || ((97 <=? c) && (c <=? 122)).
Definition isDigit (c : N) : bool := (48 <=? c) && (c <=? 57).

(** uriUnreserved: letters, digits and [- _ . ! ~ * ' ( )]. *)
Definition uriUnreserved (c : N) : bool :=
  isAlpha c || isDigit c ||
  (c =? 45) || (c =? 95) || (c =? 46) || (c =? 33) || (c =? 126) ||
  (c =? 42) || (c =? 39) || (c =? 40) || (c =? 41).

Definition isLeadSurrogate (c : N) : bool := (55296 <=? c) && (c <=? 56319).
Definition isTrailSurrogate (c : N) : bool := (56320 <=? c) && (c <=? 57343).

Definition hexDigit (n : N) : N := if n <? 10 then 48 + n else 55 + n.

(** One octet as [%XX], upper-case hexadecimal. *)
Definition pctOctet (b : N) : str := [37; hexDigit (b / 16); hexDigit (b mod 16)].

(** The UTF-8 octets of a code point. *)
Definition utf8 (cp : N) : list N :=
  if cp <? 128 then [cp]
  else if cp <? 2048 then [192 + cp / 64; 128 + cp mod 64]
  else if cp <? 65536 then
    [224 + cp / 4096; 128 + (cp / 64) mod 64; 128 + cp mod 64]
  else
    [240 + cp / 262144; 128 + (cp / 4096) mod 64;
     128 + (cp / 64) mod 64; 128 + cp mod 64].

Definition pctEncode (cp : N) : str := flat_map pctOctet (utf8 cp).

Definition URIError (msg : str) : JSError := mkError (lit "URIError") msg.

(** The engine's text for a malformed URI; the wording is the engine's. *)
Definition uriMalformed : str := lit "URI malformed".

(** [encodeURIComponent(s)]: unreserved units are kept, every other code
    point is written as the [%XX] of its UTF-8 octets; a surrogate without
    its partner throws a URIError. *)
Fixpoint encodeURIComponent (s : str) : result str :=
  match s with
  | [] => OK []
  | c :: rest =>
      if uriUnreserved c then
        bind (encodeURIComponent rest) (fun r => OK (c :: r))
      else if isLeadSurrogate c then
        match rest with
        | d :: rest' =>
            if isTrailSurrogate d then
              bind (encodeURIComponent rest')
                   (fun r => OK (pctEncode
                      ((c - 55296) * 1024 + (d - 56320) + 65536) ++ r))
            else Throw (URIError uriMalformed)
        | [] => Throw (URIError uriMalformed)
        end
      else if isTrailSurrogate c then Throw (URIError uriMalformed)
      else bind (encodeURIComponent rest) (fun r => OK (pctEncode c ++ r))
  end.

(** [l.map(f)] where [f] may throw: the first exception wins. *)
Fixpoint mapM {A B} (f : A -> result B) (l : list A) : result (list B) :=
  match l with
  | [] => OK []
  | x :: rest =>
      bind (f x) (fun y => bind (mapM f rest) (fun ys => OK (y :: ys)))
  end.

(** *** Numbers: [Number(s)] and [isNaN] *)

(** A Number value is a binary64 float. *)
Definition number := spec_float.

Definition isNaN (x : number) : bool :=
  match x with
  | S754_nan => true
  | _ => false
  end.

Definition isFinite (x : number) : bool :=
  match x with
  | S754_zero _ | S754_finite _ _ _ => true
  | _ => false
  end.

(** The Number value of the integer [m] (negated when [neg]). *)
Definition ofInteger (neg : bool) (m : Z) : number :=
  binary_normalize 53 1024 (cond_Zopp neg m) 0 neg.

(** The Number value of [m * 10^e] for [0 <= m], rounded to nearest, ties
    to even. *)
Definition ofDecimal (neg : bool) (m e : Z) : number :=
  if (m =? 0)%Z then S754_zero neg
  else if (0 <=? e)%Z then ofInteger neg (m * 10 ^ e)
  else
    let '(q, e', l) := SFdiv_core_binary 53 1024 m 0 (10 ^ (- e))%Z 0 in
    binary_round_aux 53 1024 neg q e' l.

(** The longest prefix of decimal digits, and what follows it. *)
Fixpoint spanDigits (s : str) : str * str :=
  match s with
  | [] => ([], [])
  | c :: r =>
      if isDigit c then let '(ds, rest) := spanDigits r in (c :: ds, rest)
      else ([], s)
  end.

Definition digitsValue (ds : str) : Z :=
  fold_left (fun acc d => (acc * 10 + Z.of_N (d - 48))%Z) ds 0%Z.

(** The value of a digit in base 16, 8 or 2. *)
Definition digitIn (base : N) (c : N) : option Z :=
  let v := if isDigit c then Some (c - 48)
           else if (97 <=? c) && (c <=? 102) then Some (c - 87)
           else if (65 <=? c) && (c <=? 70) then Some (c - 55)
           else None in
  match v with
  | Some d => if d <? base then Some (Z.of_N d) else None
  | None => None
  end.

(** All of [s] read as digits of [base]; [None] when a unit is not one. *)
Fixpoint radixValue (base : N) (acc : Z) (s : str) : option Z :=
  match s with
  | [] => Some acc
  | c :: r =>
      match digitIn base c with
      | Some d => radixValue base (acc * Z.of_N base + d)%Z r
      | None => None
      end
  end.

(** ExponentPart, or nothing, up to the end of the string. *)
Definition parseExponent (s : str) : option Z :=
  match s with
  | [] => Some 0%Z
  | c :: r =>
      if (c =? 101) || (c =? 69) then
        let '(neg, r') :=
          match r with
          | [] => (false, r)
          | sg :: r1 =>
              if sg =? 43 then (false, r1)
              else if sg =? 45 then (true, r1)
              else (false, r)
          end in
        let '(ds, rest) := spanDigits r' in
        match ds, rest with
        | _ :: _, [] => Some (cond_Zopp neg (digitsValue ds))
        | _, _ => None
        end
      else None
  end.

(** StrUnsignedDecimalLiteral other than [Infinity]: mantissa and decimal
    exponent. *)
Definition parseUnsignedDecimal (s : str) : option (Z * Z) :=
  let '(di, r1) := spanDigits s in
  let dotted :=
    match r1 with
    | [] => None
    | c :: r2 => if c =? 46 then Some r2 else None
    end in
  match dotted with
  | Some r2 =>
      let '(df, r3) := spanDigits r2 in
      match di, df with
      | [], [] => None
      | _, _ =>
          match parseExponent r3 with
          | Some e => Some (digitsValue (di ++ df), (e - Z.of_nat (List.length df))%Z)
          | None => None
          end
      end
  | None =>
      match di with
      | [] => None
      | _ :: _ =>
          match parseExponent r1 with
          | Some e => Some (digitsValue di, e)
          | None => None
          end
      end
  end.

(** StrDecimalLiteral: an optional sign, then [Infinity] or a decimal. *)
Definition parseStrDecimal (s : str) : number :=
  let '(neg, u) :=
    match s with
    | [] => (false, s)
    | sg :: r =>
        if sg =? 43 then (false, r)
        else if sg =? 45 then (true, r)
        else (false, s)
    end in
  if str_eqb u (lit "Infinity") then S754_infinity neg
  else match parseUnsignedDecimal u with
       | Some (m, e) => ofDecimal neg m e
       | None => S754_nan
       end.

(** NonDecimalIntegerLiteral: [0x], [0o] or [0b] and at least one digit. *)
Definition parseNonDecimal (s : str) : option number :=
  match s with
  | z :: p :: (_ :: _) as ds =>
      if z =? 48 then
        let base :=
          if (p =? 120) || (p =? 88) then Some 16
          else if (p =? 111) || (p =? 79) then Some 8
          else if (p =? 98) || (p =? 66) then Some 2
          else None in
        match base with
        | Some b =>
            match radixValue b 0%Z ds with
            | Some v => Some (ofInteger false v)
            | None => Some S754_nan
            end
        | None => None
        end
      else None
  | _ => None
  end.

(** [Number(s)] for a string [s] (StringToNumber): white space around the
    literal is skipped and the empty literal is [+0]. *)
Definition Number (s : str) : number :=
  match trim s with
  | [] => S754_zero false
  | t =>
      match parseNonDecimal t with
      | Some x => x
      | None => parseStrDecimal t
      end
  end.

(** *** Values *)

(** What a JavaScript variable of this program can hold: [undefined] and
    the values of JSON. An object is its properties in creation order
    (that an engine lists integer-like keys first is not modelled: no
    function below depends on the order of the properties). *)
Inductive value : Type :=
| Undefined
| Null
| Bool (b : bool)
| Num (x : number)
| Str (s : str)
| Arr (items : list value)
| Obj (props : list (str * value)).

(** [Array.isArray(v)] *)
Definition isArray (v : value) : bool :=
  match v with
  | Arr _ => true
  | _ => false
  end.

(** ToBoolean, as [a || b] and [!a] use it. *)
Definition truthy (v : value) : bool :=
  match v with
  | Undefined | Null => false
  | Bool b => b
  | Num x =>
      match x with
      | S754_zero _ | S754_nan => false
      | _ => true
      end
  | Str s =>
      match s with
      | [] => false
      | _ => true
      end
  | Arr _ | Obj _ => true
  end.

Fixpoint lookup (k : str) (props : list (str * value)) : option value :=
  match props with
  | [] => None
  | (k', v) :: rest => if str_eqb k k' then Some v else lookup k rest
  end.

(** Defining property [k]: an existing property keeps its place. *)
Fixpoint setProp (k : str) (v : value) (props : list (str * value))
  : list (str * value) :=
  match props with
  | [] => [(k, v)]
  | (k', v') :: rest =>
      if str_eqb k k' then (k, v) :: rest else (k', v') :: setProp k v rest
  end.

Definition TypeError (msg : str) : JSError := mkError (lit "TypeError") msg.
Definition SyntaxError (msg : str) : JSError := mkError (lit "SyntaxError") msg.

(** The text of the error for reading a property of [undefined] or
    [null], and for calling what is not a function. An engine words
    these in its own way and names the property read; only the kind of
    the error is used in what follows. *)
Definition cannotRead : str := lit "Cannot read properties of undefined".
Definition notAFunction : str := lit "is not a function".
Definition badJSON : str := lit "Unexpected token in JSON".

(** [v.k] for one of the property names this program reads ([message],
    [actions], [type], [path], [data]): none of them is found on a
    prototype, so only an object's own properties answer. *)
Definition getProp (v : value) (k : str) : result value :=
  match v with
  | Undefined | Null => Throw (TypeError cannotRead)
  | Obj props =>
      match lookup k props with
      | Some x => OK x
      | None => OK Undefined
      end
  | _ => OK Undefined
  end.

(** *** JSON.parse *)

Definition isJsonWs (c : N) : bool :=
  (c =? 9) || (c =? 10) || (c =? 13) || (c =? 32).

Definition skipWs (s : str) : str := dropWhile isJsonWs s.

Definition hex4 (a b c d : N) : option N :=
  match digitIn 16 a, digitIn 16 b, digitIn 16 c, digitIn 16 d with
  | Some x, Some y, Some z, Some w =>
      Some (Z.to_N (((x * 16 + y) * 16 + z) * 16 + w))
  | _, _, _, _ => None
  end.

Definition simpleEscape (c : N) : option N :=
  if c =? 34 then Some 34 else if c =? 92 then Some 92
  else if c =? 47 then Some 47 else if c =? 98 then Some 8
  else if c =? 102 then Some 12 else if c =? 110 then Some 10
  else if c =? 114 then Some 13 else if c =? 116 then Some 9
  else None.

(** A JSON string after its opening quote: its units and what follows the
    closing quote. *)
Fixpoint parseStringBody (s : str) : option (str * str) :=
  match s with
  | [] => None
  | c :: r =>
      if c =? 34 then Some ([], r)
      else if c =? 92 then
        match r with
        | [] => None
        | e :: r1 =>
            if e =? 117 then
              match r1 with
              | a :: b :: c' :: d :: r2 =>
                  match hex4 a b c' d with
                  | Some u =>
                      match parseStringBody r2 with
                      | Some (t, rest) => Some (u :: t, rest)
                      | None => None
                      end
                  | None => None
                  end
              | _ => None
              end
            else
              match simpleEscape e with
              | Some u =>
                  match parseStringBody r1 with
                  | Some (t, rest) => Some (u :: t, rest)
                  | None => None
                  end
              | None => None
              end
        end
      else if c <? 32 then None
      else
        match parseStringBody r with
        | Some (t, rest) => Some (c :: t, rest)
        | None => None
        end
  end.

(** A JSON number at the head of [s]: its value and what follows. *)
Definition parseJsonNumber (s : str) : option (number * str) :=
  let '(neg, u) :=
    match s with
    | [] => (false, s)
    | sg :: r => if sg =? 45 then (true, r) else (false, s)
    end in
  let '(di, r1) := spanDigits u in
  let intOk :=
    match di with
    | [] => false
    | d :: more =>
        match more with
        | [] => true
        | _ :: _ => negb (d =? 48)
        end
    end in
  if negb intOk then None
  else
    let frac :=
      match r1 with
      | [] => Some ([], r1)
      | c :: r2 =>
          if c =? 46 then
            let '(df, r3) := spanDigits r2 in
            match df with
            | [] => None
            | _ :: _ => Some (df, r3)
            end
          else Some ([], r1)
      end in
    match frac with
    | None => None
    | Some (df, r3) =>
        let m := digitsValue (di ++ df) in
        let shift := Z.of_nat (List.length df) in
        let plain := Some (ofDecimal neg m (- shift), r3) in
        match r3 with
        | [] => plain
        | c :: r4 =>
            if (c =? 101) || (c =? 69) then
              let '(eneg, r5) :=
                match r4 with
                | [] => (false, r4)
                | sg :: r' =>
                    if sg =? 43 then (false, r')
                    else if sg =? 45 then (true, r')
                    else (false, r4)
                end in
              let '(ds, r6) := spanDigits r5 in
              match ds with
              | [] => None
              | _ :: _ =>
                  Some (ofDecimal neg m
                          (cond_Zopp eneg (digitsValue ds) - shift), r6)
              end
            else plain
        end
    end.

(** [s] without the literal [w] at its head, when it starts with it. *)
Definition afterLiteral (w : str) (s : str) : option str :=
  if startsWith w s then Some (skipn (List.length w) s) else None.

(** One JSON value at the head of [s] (after white space) and what follows
    it. From one call of [parseValue] to the next the text gets shorter
    and at most two units of fuel are spent, so a fuel above twice the
    length of the text is never used up ([parse_fuel] below). *)
Fixpoint parseValue (fuel : nat) (s : str) {struct fuel}
  : option (value * str) :=
  match fuel with
  | O => None
  | S fuel' =>
      match skipWs s with
      | [] => None
      | c :: r =>
          if c =? 123 then
            match skipWs r with
            | [] => None
            | c2 :: r2 =>
                if c2 =? 125 then Some (Obj [], r2)
                else parseMembers fuel' [] r
            end
          else if c =? 91 then
            match skipWs r with
            | [] => None
            | c2 :: r2 =>
                if c2 =? 93 then Some (Arr [], r2)
                else parseElements fuel' [] r
            end
          else if c =? 34 then
            match parseStringBody r with
            | Some (t, rest) => Some (Str t, rest)
            | None => None
            end
          else
            match afterLiteral (lit "true") (c :: r) with
            | Some rest => Some (Bool true, rest)
            | None =>
            match afterLiteral (lit "false") (c :: r) with
            | Some rest => Some (Bool false, rest)
            | None =>
            match afterLiteral (lit "null") (c :: r) with
            | Some rest => Some (Null, rest)
            | None =>
            match parseJsonNumber (c :: r) with
            | Some (x, rest) => Some (Num x, rest)
            | None => None
            end end end end
      end
  end

with parseMembers (fuel : nat) (acc : list (str * value)) (s : str)
  {struct fuel} : option (value * str) :=
  match fuel with
  | O => None
  | S fuel' =>
      match skipWs s with
      | [] => None
      | q :: r =>
          if q =? 34 then
            match parseStringBody r with
            | None => None
            | Some (k, r1) =>
                match skipWs r1 with
                | [] => None
                | colon :: r2 =>
                    if colon =? 58 then
                      match parseValue fuel' r2 with
                      | None => None
                      | Some (v, r3) =>
                          match skipWs r3 with
                          | [] => None
                          | c3 :: r4 =>
                              if c3 =? 44 then
                                parseMembers fuel' (setProp k v acc) r4
                              else if c3 =? 125 then
                                Some (Obj (setProp k v acc), r4)
                              else None
                          end
                      end
                    else None
                end
            end
          else None
      end
  end

with parseElements (fuel : nat) (acc : list value) (s : str)
  {struct fuel} : option (value * str) :=
  match fuel with
  | O => None
  | S fuel' =>
      match parseValue fuel' s with
      | None => None
      | Some (v, r1) =>
          match skipWs r1 with
          | [] => None
          | c :: r2 =>
              if c =? 44 then parseElements fuel' (acc ++ [v]) r2
              else if c =? 93 then Some (Arr (acc ++ [v]), r2)
              else None
          end
      end
  end.

(** [JSON.parse(text)]: one value, white space around it, nothing else. *)
Definition JSON_parse (text : str) : result value :=
  match parseValue (2 * List.length text + 2) text with
  | Some (v, rest) =>
      match skipWs rest with
      | [] => OK v
      | _ :: _ => Throw (SyntaxError badJSON)
      end
  | None => Throw (SyntaxError badJSON)
  end.

(** *** JSON.stringify *)

(** What [JSON.stringify(v)] writes, as the value its text denotes
    ([None] where it returns [undefined]). A number that is not finite
    is written [null] and [-0] is written [0]; an [undefined] item of an
    array is written [null]; a property whose value is [undefined] is
    left out. The text itself (the digits of a number, the escapes of a
    string) is not modelled. *)
Fixpoint stringified (v : value) : option value :=
  match v with
  | Undefined => None
  | Null => Some Null
  | Bool b => Some (Bool b)
  | Num x =>
      Some (match x with
            | S754_zero _ => Num (S754_zero false)
            | S754_finite _ _ _ => Num x
            | _ => Null
            end)
  | Str s => Some (Str s)
  | Arr items =>
      Some (Arr ((fix each (l : list value) : list value :=
                    match l with
                    | [] => []
                    | x :: l' =>
                        match stringified x with
                        | Some y => y
                        | None => Null
                        end :: each l'
                    end) items))
  | Obj props =>
      Some (Obj ((fix each (l : list (str * value)) : list (str * value) :=
                    match l with
                    | [] => []
                    | (k, x) :: l' =>
                        match stringified x with
                        | Some y => (k, y) :: each l'
                        | None => each l'
                        end
                    end) props))
  end.

End JS.

(* ===================================================================== *)
(** ** services/firebaseService.ts, the pure part *)
(* ===================================================================== *)

Module firebaseService_url.
Import JS.
Local Open Scope N_scope.

(** [url.replace(/\/+$/, '')]: the match is the whole final run of slashes. *)
Definition stripTrailingSlashes (s : str) : str := dropWhileEnd isSlash s.

(** [url.replace(/\.json$/, '')]: one final [.json] is removed. *)
Definition stripJsonSuffix (s : str) : str :=
  if endsWith (lit ".json") s
  then firstn (List.length s - 5) s
  else s.

(** [/^[a-z0-9-]+$/i.test(url)]: without the [u] flag the [i] flag never
    lets a non-ASCII unit match an ASCII letter, so the class is exactly
    the ASCII letters, the digits and the hyphen. *)
Definition isProjectIdChar (c : N) : bool := isAlpha c || isDigit c || (c =? 45).

Definition isProjectId (s : str) : bool :=
  match s with
  | [] => false
  | _ :: _ => forallb isProjectIdChar s
  end.

Definition cleanUrl (input : str) : str :=
  let url := trim input in
  let url := stripTrailingSlashes url in
  let url := stripJsonSuffix url in
  if isProjectId url then lit "https://" ++ url ++ lit ".firebaseio.com"
  else if negb (startsWith (lit "http://") url) &&
          negb (startsWith (lit "https://") url)
       then lit "https://" ++ url
       else url.

(** [path.replace(/^\/+/, '')] *)
Definition stripLeadingSlashes (s : str) : str := dropWhile isSlash s.

(** The segments of a non-empty path, each through [encodeURIComponent]. *)
Definition encodeSegments (path : str) : result (list str) :=
  mapM encodeURIComponent (split 47 (stripLeadingSlashes path)).

Definition buildEndpoint (baseUrl path : str) : result str :=
  let cleanBase := cleanUrl baseUrl in
  match path with
  | [] => OK (cleanBase ++ lit "/.json")
  | _ :: _ =>
      bind (encodeSegments path) (fun segs =>
        OK (cleanBase ++ lit "/" ++ join (lit "/") segs ++ lit ".json"))
  end.

End firebaseService_url.

(* ===================================================================== *)
(** ** The host: network, remote store, text generator, clock *)
(* ===================================================================== *)

Module Net.
Import JS.
Local Open Scope N_scope.

Inductive Method := GET | PUT | PATCH | DELETE.

(** A [fetch] call. [body] is the data handed to [JSON.stringify] for the
    request body ([None] when the call has no body); what is written
    for it is [JS.stringified]. *)
Record Request := mkRequest {
  url : str;
  method : Method;
  body : option value
}.

(** The part of a response the program reads; [json] is what [res.json()]
    settles with. *)
Record Response := mkResponse {
  status : N;
  statusText : str;
  json : result value
}.

Inductive Outcome :=
| Resolved (res : Response)
| Rejected (e : JSError).

(** [res.ok] *)
Definition ok (res : Response) : bool :=
  (200 <=? status res) && (status res <=? 299).

(** What [generateDataWithAI] builds its request text from. *)
Record GenRequest := mkGenRequest {
  gen_prompt : str;
  gen_currentData : value;
  gen_rootKeys : list str;
  gen_basePath : str
}.

(** Everything outside the program. [fetch] answers a request and moves
    the world on; it rejects with an error named [AbortError] when the
    probe's 8 second timer fires first. [generateContent] answers with
    [response.text] (a string, or [None] for [undefined]) or rejects. [now] is
    [Date.now()], [prettyJSON] is [JSON.stringify(v, null, 2)]. *)
Class Host := {
  World : Type;
  fetch : World -> Request -> Outcome * World;
  generateContent : World -> GenRequest -> result (option str) * World;
  now : World -> N;
  prettyJSON : value -> str
}.

End Net.

(* ===================================================================== *)
(** ** types.ts and the state of the components *)
(* ===================================================================== *)

Module Types.
Import JS Net.

Record DbConnection := mkDb { db_url : str; connected : bool }.

Inductive NotificationType := success | error | info.

Record Notification := mkNotification {
  n_type : NotificationType;
  n_message : str;
  n_id : N
}.

(** geminiService.ts, [AIResponse]: at run time [message] is whatever the
    generator sent (or the default text) and an action is any JSON value. *)
Record AIResponse := mkAIResponse {
  ai_message : value;
  actions : list value
}.

Inductive ViewMode := tree | raw.

(** The [useState] cells of [App]. *)
Record AppState := mkApp {
  dbInfo : DbConnection;
  urlInput : str;
  data : value;
  loading : bool;
  appError : option str;
  notifications : list Notification;
  viewMode : ViewMode;
  rawJsonInput : str;
  showAiModal : bool;
  aiPrompt : str;
  aiPath : str;
  aiLoading : bool;
  aiResult : option AIResponse
}.

(** The [useState] cells of one [DataNode]. *)
Record NodeState := mkNode {
  expanded : bool;
  isEditing : bool;
  isAdding : bool;
  newKey : str;
  newValue : str;
  editValue : str;
  isHovered : bool;
  nodeLoading : bool;
  copied : bool;
  copiedPath : bool
}.

Section State.
Context {H : Host}.

(** The whole state a handler runs in: the world, the requests sent so
    far (oldest first), the state of [App], the state of the node whose
    handler runs, and the texts shown by [alert]. *)
Record St := mkSt {
  world : World;
  sent : list Request;
  app : AppState;
  node : NodeState;
  alerts : list str
}.

(** An asynchronous computation: it may change the state and either
    returns or throws; the state changes made before a throw stay. *)
Definition M (A : Type) : Type := St -> result A * St.

Definition ret {A} (a : A) : M A := fun s => (OK a, s).

Definition throw {A} (e : JSError) : M A := fun s => (Throw e, s).

Definition mbind {A B} (m : M A) (k : A -> M B) : M B :=
  fun s =>
    match m s with
    | (OK a, s') => k a s'
    | (Throw e, s') => (Throw e, s')
    end.

Definition liftR {A} (r : result A) : M A := fun s => (r, s).

(** [try { m } catch (e) { h e }] *)
Definition tryCatch {A} (m : M A) (h : JSError -> M A) : M A :=
  fun s =>
    match m s with
    | (OK a, s') => (OK a, s')
    | (Throw e, s') => h e s'
    end.

(** [try { m } finally { f }] *)
Definition finally {A} (m : M A) (f : M unit) : M A :=
  fun s =>
    match m s with
    | (r, s') =>
        match f s' with
        | (OK _, s'') => (r, s'')
        | (Throw e, s'') => (Throw e, s'')
        end
    end.

Definition setApp (f : AppState -> AppState) : M unit :=
  fun s => (OK tt, mkSt (world s) (sent s) (f (app s)) (node s) (alerts s)).

Definition setNode (f : NodeState -> NodeState) : M unit :=
  fun s => (OK tt, mkSt (world s) (sent s) (app s) (f (node s)) (alerts s)).

Definition getApp : M AppState := fun s => (OK (app s), s).

Definition getNode : M NodeState := fun s => (OK (node s), s).

(** [alert(msg)] *)
Definition alert (msg : str) : M unit :=
  fun s => (OK tt, mkSt (world s) (sent s) (app s) (node s) (alerts s ++ [msg])).

(** [await fetch(url, init)] *)
Definition doFetch (rq : Request) : M Response :=
  fun s =>
    match fetch (world s) rq with
    | (Resolved res, w) =>
        (OK res, mkSt w (sent s ++ [rq]) (app s) (node s) (alerts s))
    | (Rejected e, w) =>
        (Throw e, mkSt w (sent s ++ [rq]) (app s) (node s) (alerts s))
    end.

(** [await ai.models.generateContent(...)], then [response.text] *)
Definition doGenerate (g : GenRequest) : M (option str) :=
  fun s =>
    match generateContent (world s) g with
    | (r, w) => (r, mkSt w (sent s) (app s) (node s) (alerts s))
    end.

Definition getNow : M N := fun s => (OK (now (world s)), s).

End State.

(** The setters of the [useState] cells. *)
Definition setData (v : value) (a : AppState) : AppState :=
  mkApp (dbInfo a) (urlInput a) v (loading a) (appError a) (notifications a)
    (viewMode a) (rawJsonInput a) (showAiModal a) (aiPrompt a) (aiPath a)
    (aiLoading a) (aiResult a).

Definition setLoading (b : bool) (a : AppState) : AppState :=
  mkApp (dbInfo a) (urlInput a) (data a) b (appError a) (notifications a)
    (viewMode a) (rawJsonInput a) (showAiModal a) (aiPrompt a) (aiPath a)
    (aiLoading a) (aiResult a).

Definition setNotifications (f : list Notification -> list Notification)
  (a : AppState) : AppState :=
  mkApp (dbInfo a) (urlInput a) (data a) (loading a) (appError a)
    (f (notifications a)) (viewMode a) (rawJsonInput a) (showAiModal a)
    (aiPrompt a) (aiPath a) (aiLoading a) (aiResult a).

Definition setRawJsonInput (t : str) (a : AppState) : AppState :=
  mkApp (dbInfo a) (urlInput a) (data a) (loading a) (appError a)
    (notifications a) (viewMode a) t (showAiModal a) (aiPrompt a) (aiPath a)
    (aiLoading a) (aiResult a).

Definition setShowAiModal (b : bool) (a : AppState) : AppState :=
  mkApp (dbInfo a) (urlInput a) (data a) (loading a) (appError a)
    (notifications a) (viewMode a) (rawJsonInput a) b (aiPrompt a) (aiPath a)
    (aiLoading a) (aiResult a).

Definition setAiPrompt (t : str) (a : AppState) : AppState :=
  mkApp (dbInfo a) (urlInput a) (data a) (loading a) (appError a)
    (notifications a) (viewMode a) (rawJsonInput a) (showAiModal a) t
    (aiPath a) (aiLoading a) (aiResult a).

Definition setAiPath (t : str) (a : AppState) : AppState :=
  mkApp (dbInfo a) (urlInput a) (data a) (loading a) (appError a)
    (notifications a) (viewMode a) (rawJsonInput a) (showAiModal a)
    (aiPrompt a) t (aiLoading a) (aiResult a).

Definition setAiResult (r : option AIResponse) (a : AppState) : AppState :=
  mkApp (dbInfo a) (urlInput a) (data a) (loading a) (appError a)
    (notifications a) (viewMode a) (rawJsonInput a) (showAiModal a)
    (aiPrompt a) (aiPath a) (aiLoading a) r.

Definition setExpanded (b : bool) (n : NodeState) : NodeState :=
  mkNode b (isEditing n) (isAdding n) (newKey n) (newValue n) (editValue n)
    (isHovered n) (nodeLoading n) (copied n) (copiedPath n).

Definition setIsEditing (b : bool) (n : NodeState) : NodeState :=
  mkNode (expanded n) b (isAdding n) (newKey n) (newValue n) (editValue n)
    (isHovered n) (nodeLoading n) (copied n) (copiedPath n).

Definition setIsAdding (b : bool) (n : NodeState) : NodeState :=
  mkNode (expanded n) (isEditing n) b (newKey n) (newValue n) (editValue n)
    (isHovered n) (nodeLoading n) (copied n) (copiedPath n).

Definition setNewKey (t : str) (n : NodeState) : NodeState :=
  mkNode (expanded n) (isEditing n) (isAdding n) t (newValue n) (editValue n)
    (isHovered n) (nodeLoading n) (copied n) (copiedPath n).

Definition setNewValue (t : str) (n : NodeState) : NodeState :=
  mkNode (expanded n) (isEditing n) (isAdding n) (newKey n) t (editValue n)
    (isHovered n) (nodeLoading n) (copied n) (copiedPath n).

Definition setNodeLoading (b : bool) (n : NodeState) : NodeState :=
  mkNode (expanded n) (isEditing n) (isAdding n) (newKey n) (newValue n)
    (editValue n) (isHovered n) b (copied n) (copiedPath n).

End Types.

Declare Scope js_scope.
Delimit Scope js_scope with js.
Notation "x <- m ;; k" := (Types.mbind m (fun x => k))
  (at level 61, m at next level, right associativity) : js_scope.
Notation "m ;;; k" := (Types.mbind m (fun _ => k))
  (at level 61, right associativity) : js_scope.

(* ===================================================================== *)
(** ** services/firebaseService.ts, the requests *)
(* ===================================================================== *)

Module firebaseService.
Import JS Net Types.
Export firebaseService_url.
Local Open Scope N_scope.
Local Open Scope js_scope.

Section Service.
Context {H : Host}.

Definition noEntry : str := [9940].
Definition crossMark : str := [10060].
Definition warning : str := [9888; 65039].
Definition stopwatch : str := [9201; 65039].
Definition globe : str := [55356; 57104].

Definition checkConnection (url : str) : M bool :=
  let target := cleanUrl url ++ lit "/.json?shallow=true" in
  tryCatch
    (res <- doFetch (mkRequest target GET None) ;;
     if ok res then ret true
     else if status res =? 401 then
       throw (Error (noEntry ++
         lit " Permission Denied (401): Database rules prevent reading."))
     else if status res =? 404 then
       throw (Error (crossMark ++
         lit " Database Not Found (404): Check your Project ID."))
     else if status res =? 400 then
       throw (Error (warning ++ lit " Bad Request (400): Invalid URL format."))
     else
       throw (Error (warning ++ lit " Connection Error: " ++
                     decimal (status res))))
    (fun error =>
       if str_eqb (name error) (lit "AbortError") then
         throw (Error (stopwatch ++ lit " Timeout: Server took too long."))
       else if startsWith noEntry (message error) ||
               startsWith crossMark (message error) ||
               startsWith warning (message error) then
         throw error
       else
         throw (Error (globe ++ lit " Network Error: " ++ message error))).

Definition readData (baseUrl path : str) : M value :=
  endpoint <- liftR (buildEndpoint baseUrl path) ;;
  tryCatch
    (res <- doFetch (mkRequest endpoint GET None) ;;
     if negb (ok res) then
       if status res =? 401 then throw (Error (lit "Permission Denied (401)"))
       else throw (Error (lit "Failed to read data: " ++ statusText res))
     else liftR (json res))
    (fun error =>
       throw (Error (orElse (message error) (lit "Failed to fetch data")))).

Definition writeData (baseUrl path : str) (data : value) : M unit :=
  endpoint <- liftR (buildEndpoint baseUrl path) ;;
  tryCatch
    (res <- doFetch (mkRequest endpoint PUT (Some data)) ;;
     if negb (ok res) then
       if status res =? 401 then throw (Error (lit "Permission Denied (401)"))
       else throw (Error (lit "Failed to write data: " ++ statusText res))
     else ret tt)
    (fun error =>
       throw (Error (orElse (message error) (lit "Failed to write data")))).

Definition updateData (baseUrl path : str) (data : value) : M unit :=
  endpoint <- liftR (buildEndpoint baseUrl path) ;;
  tryCatch
    (res <- doFetch (mkRequest endpoint PATCH (Some data)) ;;
     if negb (ok res) then
       if status res =? 401 then throw (Error (lit "Permission Denied (401)"))
       else throw (Error (lit "Failed to update data: " ++ statusText res))
     else ret tt)
    (fun error =>
       throw (Error (orElse (message error) (lit "Failed to update data")))).

Definition deleteData (baseUrl path : str) : M unit :=
  endpoint <- liftR (buildEndpoint baseUrl path) ;;
  tryCatch
    (res <- doFetch (mkRequest endpoint DELETE None) ;;
     if negb (ok res) then
       if status res =? 401 then
         throw (Error (lit "Permission Denied (401): Delete blocked."))
       else throw (Error (lit "Failed to delete data: " ++ statusText res))
     else ret tt)
    (fun error =>
       throw (Error (orElse (message error) (lit "Failed to delete data")))).

End Service.
End firebaseService.

(* ===================================================================== *)
(** ** services/geminiService.ts *)
(* ===================================================================== *)

Module geminiService.
Import JS Net Types.
Local Open Scope N_scope.
Local Open Scope js_scope.

(** [hay.includes(needle)] *)
Fixpoint includes (needle hay : str) : bool :=
  startsWith needle hay ||
  match hay with
  | [] => false
  | _ :: rest => includes needle rest
  end.

Section Service.
Context {H : Host}.

Definition generateDataWithAI (prompt : str) (currentData : value)
  (rootKeys : list str) (basePath : str) : M AIResponse :=
  tryCatch
    (text <- doGenerate (mkGenRequest prompt currentData rootKeys basePath) ;;
     match text with
     | None | Some [] => throw (Error (lit "No response from AI"))
     | Some text =>
         tryCatch
           (parsed <- liftR (JSON_parse text) ;;
            m <- liftR (getProp parsed (lit "message")) ;;
            a <- liftR (getProp parsed (lit "actions")) ;;
            ret (mkAIResponse
                   (if truthy m then m else Str (lit "Here is the plan."))
                   (match a with
                    | Arr items => items
                    | _ => []
                    end)))
           (fun e => throw (Error (lit "AI response was not valid JSON.")))
     end)
    (fun error =>
       if includes (lit "404") (message error) ||
          includes (lit "NOT_FOUND") (message error) then
         throw (Error (lit "Model not found. Check API Key."))
       else
         throw (Error (lit "AI Error: " ++
                  orElse (message error) (lit "Failed to process request")))).

End Service.
End geminiService.

(* ===================================================================== *)
(** ** components/DataNode.tsx *)
(* ===================================================================== *)

Module DataNode.
Import JS Net Types firebaseService.
Local Open Scope N_scope.
Local Open Scope js_scope.

(** [value !== null && typeof value === 'object'] *)
Definition isObject (v : value) : bool :=
  match v with
  | Arr _ | Obj _ => true
  | _ => false
  end.

(** [path ? `${path}/${name}` : name] *)
Definition displayPath (path name : str) : str :=
  match path with
  | [] => name
  | _ :: _ => path ++ lit "/" ++ name
  end.

(** The [useState] defaults of a node rendered at [depth]. *)
Definition initialState (depth : nat) : NodeState :=
  mkNode (Nat.ltb depth 1) false false [] [] [] false false false false.

(** What one [DataNode] puts on the screen: its row, whether the row has
    the expand toggle, whether the node is open, and the child nodes it
    renders. *)
Inductive Rendered : Type :=
| RNode (rpath : str) (rname : str) (rvalue : value) (rdepth : nat)
        (toggle : bool) (isOpen : bool) (children : list Rendered).

(** The first render of a node: every cell holds its default. The
    children are the entries of the value in the order the model keeps
    them (array items under their index). *)
Fixpoint DataNode (path name : str) (v : value) (depth : nat) : Rendered :=
  let dp := displayPath path name in
  let st := initialState depth in
  RNode dp name v depth (isObject v) (expanded st)
    (if isObject v && expanded st && truthy v then
       match v with
       | Arr items =>
           (fix each (i : N) (l : list value) : list Rendered :=
              match l with
              | [] => []
              | x :: l' => DataNode dp (decimal i) x (S depth)
                           :: each (N.succ i) l'
              end) 0 items
       | Obj props =>
           (fix each (l : list (str * value)) : list Rendered :=
              match l with
              | [] => []
              | (k, x) :: l' => DataNode dp k x (S depth) :: each l'
              end) props
       | _ => []
       end
     else []).

(** The "Smart parsing" block of [handleSave]: what [parsedValue] holds
    when the block ends, for the text [editValue] of the input. *)
Definition smartParse (editValue : str) : value :=
  if str_eqb editValue (lit "true") then Bool true
  else if str_eqb editValue (lit "false") then Bool false
  else if str_eqb editValue (lit "null") then Null
  else if negb (isNaN (Number editValue)) &&
          negb (str_eqb (trim editValue) [])
       then Num (Number editValue)
  else match JSON_parse editValue with
       | OK v => v
       | Throw _ => Str editValue
       end.

(** The parsing block of [handleAddChild]: what [parsedValue] holds when
    [writeData] is called, for the text [newValue] of the input. *)
Definition childValue (newValue : str) : value :=
  let parsedValue := Str newValue in
  let parsedValue :=
    if str_eqb newValue (lit "true") then Bool true
    else if str_eqb newValue (lit "false") then Bool false
    else if negb (isNaN (Number newValue)) &&
            negb (str_eqb (trim newValue) [])
         then Num (Number newValue)
    else parsedValue in
  if startsWith (lit "{") newValue || startsWith (lit "[") newValue
  then match JSON_parse newValue with
       | OK v => v
       | Throw _ => parsedValue
       end
  else parsedValue.

Section Handlers.
Context {H : Host}.

(** The props of a node; [onRefresh] is the parent's reload. *)
Record NodeProps := mkProps {
  path : str;
  name : str;
  nvalue : value;
  dbUrl : str;
  onRefresh : M unit;
  depth : nat
}.

Definition handleSave (props : NodeProps) : M unit :=
  setNode (setNodeLoading true) ;;;
  finally
    (tryCatch
       (n <- getNode ;;
        let parsedValue := smartParse (editValue n) in
        writeData (dbUrl props) (displayPath (path props) (name props))
                  parsedValue ;;;
        setNode (setIsEditing false) ;;;
        onRefresh props)
       (fun error => alert (lit "Failed to save data. Check your format.")))
    (setNode (setNodeLoading false)).

Definition handleAddChild (props : NodeProps) : M unit :=
  n <- getNode ;;
  let newKey := newKey n in
  let newValue := newValue n in
  match trim newKey with
  | [] => ret tt
  | _ :: _ =>
      setNode (setNodeLoading true) ;;;
      finally
        (tryCatch
           (let dp := displayPath (path props) (name props) in
            let childPath :=
              match dp with
              | [] => newKey
              | _ :: _ => dp ++ lit "/" ++ newKey
              end in
            let parsedValue := childValue newValue in
            writeData (dbUrl props) childPath parsedValue ;;;
            setNode (setIsAdding false) ;;;
            setNode (setNewKey []) ;;;
            setNode (setNewValue []) ;;;
            (if negb (expanded n) then setNode (setExpanded true) else ret tt) ;;;
            onRefresh props)
           (fun error => alert (lit "Failed to add data.")))
        (setNode (setNodeLoading false))
  end.

End Handlers.
End DataNode.

(* ===================================================================== *)
(** ** App.tsx *)
(* ===================================================================== *)

Module App.
Import JS Net Types firebaseService geminiService.
Local Open Scope N_scope.
Local Open Scope js_scope.

(** [Object.entries(v)] of an array or an object. *)
Definition Object_entries (v : value) : list (str * value) :=
  match v with
  | Arr items =>
      (fix each (i : N) (l : list value) : list (str * value) :=
         match l with
         | [] => []
         | x :: l' => (decimal i, x) :: each (N.succ i) l'
         end) 0 items
  | Obj props => props
  | _ => []
  end.

(** The tree view: nothing for falsy data (the empty panel), one node per
    entry of a container, one node named [root] for a scalar. *)
Definition treeView (data : value) : list DataNode.Rendered :=
  if negb (truthy data) then []
  else if DataNode.isObject data then
    map (fun kv => DataNode.DataNode [] (fst kv) (snd kv) 0)
        (Object_entries data)
  else [DataNode.DataNode [] (lit "root") data 0].

Section Handlers.
Context {H : Host}.

(** [notify(msg, type)]; the removal of the toast after 4 seconds is not
    part of the model, so [notifications] is the log of what was shown. *)
Definition notify (msg : str) (type : NotificationType) : M unit :=
  id <- getNow ;;
  setApp (setNotifications (fun prev => prev ++ [mkNotification type msg id])).

(** [fetchRootData(url = dbInfo.url)] *)
Definition fetchRootData (url : option str) : M unit :=
  a <- getApp ;;
  let url := match url with
             | Some u => u
             | None => db_url (dbInfo a)
             end in
  setApp (setLoading true) ;;;
  finally
    (tryCatch
       (result <- readData url [] ;;
        setApp (setData result) ;;;
        match viewMode a with
        | raw => setApp (setRawJsonInput (prettyJSON result))
        | tree => ret tt
        end)
       (fun err =>
          notify (orElse (message err) (lit "Failed to fetch data")) error))
    (setApp (setLoading false)).

(** [v === 'text'] *)
Definition isStr (v : value) (text : str) : bool :=
  match v with
  | Str s => str_eqb s text
  | _ => false
  end.

(** The body of the [for] loop of [handleExecuteAiPlan] for one action. *)
Definition executeAction (url : str) (action : value) : M unit :=
  p <- liftR (getProp action (lit "path")) ;;
  fullPath <-
    match p with
    | Str s => ret (if startsWith (lit "/") s then tl s else s)
    | Undefined | Null => throw (TypeError cannotRead)
    | _ => throw (TypeError notAFunction)
    end ;;
  ty <- liftR (getProp action (lit "type")) ;;
  if isStr ty (lit "DELETE") then deleteData url fullPath
  else if isStr ty (lit "SET") then
    d <- liftR (getProp action (lit "data")) ;;
    writeData url fullPath d
  else if isStr ty (lit "UPDATE") then
    d <- liftR (getProp action (lit "data")) ;;
    updateData url fullPath d
  else ret tt.

(** The [for] loop: [successCount] goes up after each action. *)
Fixpoint runActions (url : str) (todo : list value) (successCount : N)
  : M N :=
  match todo with
  | [] => ret successCount
  | action :: rest =>
      executeAction url action ;;;
      runActions url rest (successCount + 1)
  end.

(** [handleExecuteAiPlan]. The reload it starts at the end is not awaited
    by the source; the model runs it to its end before the handler's
    [finally], which leaves the same final state. *)
Definition handleExecuteAiPlan : M unit :=
  a <- getApp ;;
  match aiResult a with
  | None => ret tt
  | Some plan =>
      match actions plan with
      | [] => ret tt
      | _ :: _ =>
          setApp (setLoading true) ;;;
          finally
            (tryCatch
               (successCount <- runActions (db_url (dbInfo a)) (actions plan) 0 ;;
                notify (lit "Successfully executed " ++ decimal successCount ++
                        lit " actions.") success ;;;
                setApp (setShowAiModal false) ;;;
                setApp (setAiPrompt []) ;;;
                setApp (setAiPath []) ;;;
                setApp (setAiResult None) ;;;
                fetchRootData None)
               (fun e =>
                  notify (lit "Error executing plan: " ++ message e) error))
            (setApp (setLoading false))
      end
  end.

(** The props [App] and every parent node hand to a node: the reload is
    [fetchRootData]. *)
Definition nodeProps (path name : str) (v : value) (dbUrl : str)
  (depth : nat) : DataNode.NodeProps :=
  DataNode.mkProps path name v dbUrl (fetchRootData None) depth.

End Handlers.
End App.

(* ===================================================================== *)
(** ** A scripted host for concrete runs *)
(* ===================================================================== *)

Module Scripted.
Import JS Net Types.
Local Open Scope N_scope.

(** The world is the list of outcomes still to be played, one per
    request, and the reply of the generator; when the list is used up
    every request is answered 200 with a [null] body. *)
Record world := mkWorld {
  replies : list Outcome;
  generated : result (option str)
}.

Definition respond (st : N) (text : str) : Outcome :=
  Resolved (mkResponse st text (OK Null)).

Definition play (w : world) (rq : Request) : Outcome * world :=
  match replies w with
  | [] => (respond 200 (lit "OK"), w)
  | o :: rest => (o, mkWorld rest (generated w))
  end.

#[export] Instance host : Host := {
  World := world;
  fetch := play;
  generateContent := fun w _ => (generated w, w);
  now := fun _ => 0;
  prettyJSON := fun _ => []
}.

Definition app0 : AppState :=
  mkApp (mkDb (lit "https://demo.firebaseio.com") true) [] Null false None []
        tree [] true (lit "tidy up") (lit "users") false None.

Definition withPlan (plan : list value) : AppState :=
  setAiResult (Some (mkAIResponse (Str (lit "plan")) plan)) app0.

Definition node0 : NodeState := DataNode.initialState 0.

(** The start of a run: the outcomes to play, the state of [App], the
    state of the node. *)
Definition start (rs : list Outcome) (a : AppState) (n : NodeState) : St :=
  mkSt (mkWorld rs (OK None) : World) [] a n [].

(** A node in which [text] was typed into the edit box. *)
Definition editing (text : str) : NodeState :=
  mkNode true true false [] [] text false false false false.

(** A node in which [key] and [text] were typed into the add-child form. *)
Definition adding (key text : str) : NodeState :=
  mkNode true false true key text [] false false false false.

(** The start of a run in which the generator answers [text]. *)
Definition answering (text : str) : St :=
  mkSt (mkWorld [] (OK (Some text)) : World) [] app0 node0 [].

(** A text of JSON written with apostrophes for its double quotes. *)
Definition json (s : string) : str :=
  map (fun c => if c =? 39 then 34 else c) (lit s).

Definition action (type path : string) (d : option value) : value :=
  Obj ([(lit "type", Str (lit type)); (lit "path", Str (lit path))] ++
       match d with
       | Some v => [(lit "data", v)]
       | None => []
       end).

End Scripted.

(* ===================================================================== *)
(** ** Notions used to state the properties *)
(* ===================================================================== *)

Module Spec.
Import JS Net Types firebaseService geminiService.
Local Open Scope N_scope.

(** *** URL normalisation *)

Definition lastUnit (s : str) : option N :=
  match rev s with
  | [] => None
  | c :: _ => Some c
  end.

(** A text that ends with neither white space, nor a slash, nor [.json]. *)
Definition settled (y : str) : bool :=
  match lastUnit y with
  | Some c => negb (isWhiteSpace c) && negb (isSlash c)
  | None => true
  end && negb (endsWith (lit ".json") y).


(** *** The status contract of section 6 of the specification *)



(** *** Type inference as section 4.2 of the specification words it *)

(** [true]/[false], then [null], then a finite number, then a structured
    parse, then the raw string. *)
Definition inferredPerSpec (raw : str) : value :=
  if str_eqb raw (lit "true") then Bool true
  else if str_eqb raw (lit "false") then Bool false
  else if str_eqb raw (lit "null") then Null
  else if isFinite (Number raw) && negb (str_eqb (trim raw) [])
       then Num (Number raw)
  else match JSON_parse raw with
       | OK v => v
       | Throw _ => Str raw
       end.


(** *** Rendered trees *)









Section Plans.
Context {H : Host}.

(** The state after [rq] went out. *)
Definition afterFetch (s : St) (rq : Request) : St :=
  mkSt (snd (fetch (world s) rq)) (sent s ++ [rq]) (app s) (node s) (alerts s).

(** What the four calls that address a path have in common: the endpoint
    is built first; one request goes out; 401 and the other failures are
    told apart; a rejection keeps its message. *)
Definition storeCall (m : Method) (body : option value)
  (denied failed fallback : str) (u p : str) (s : St) : result Response * St :=
  match buildEndpoint u p with
  | Throw e => (Throw e, s)
  | OK ep =>
      let rq := mkRequest ep m body in
      (match fst (fetch (world s) rq) with
       | Rejected e => Throw (Error (orElse (message e) fallback))
       | Resolved res =>
           if ok res then OK res
           else if status res =? 401 then Throw (Error denied)
           else Throw (Error (failed ++ statusText res))
       end, afterFetch s rq)
  end.

(** [grows s s' l]: nothing but the world and the log of requests moved,
    and the log gained the requests [l]. *)
Definition grows (s s' : St) (l : list Request) : Prop :=
  app s' = app s /\ node s' = node s /\ alerts s' = alerts s /\
  sent s' = sent s ++ l.

(** [Runs url todo s s']: the actions of [todo], executed one after the
    other in list order from [s], all succeed and leave [s']. *)
Inductive Runs (url : str) : list value -> St -> St -> Prop :=
| Runs_nil : forall s, Runs url [] s s
| Runs_cons : forall a rest s s1 s2,
    App.executeAction url a s = (OK tt, s1) ->
    Runs url rest s1 s2 ->
    Runs url (a :: rest) s s2.

(** The state once [setLoading(true)] has run. *)
Definition busy (s : St) : St :=
  mkSt (world s) (sent s) (setLoading true (app s)) (node s) (alerts s).

(** The state of [App] after a failed plan: one more notification, and
    [loading] back to [false]. *)
Definition afterFailure (a : AppState) (n : Notification) : AppState :=
  setLoading false (setNotifications (fun prev => prev ++ [n]) a).

(** The request of [fetchRootData]. *)
Definition rootRequest (a : AppState) : Request :=
  mkRequest (cleanUrl (db_url (dbInfo a)) ++ lit "/.json") GET None.

(** "The failure report includes the number of actions completed before
    the failure": whenever the first [length pre] actions succeed and the
    next one fails, the handler raises one notification, from which
    [countOf] reads that number. *)
Definition reportsCount (countOf : Notification -> N) : Prop :=
  forall s plan pre a post e s1 s2,
    aiResult (app s) = Some plan ->
    actions plan = pre ++ a :: post ->
    Runs (db_url (dbInfo (app s))) pre (busy s) s1 ->
    App.executeAction (db_url (dbInfo (app s))) a s1 = (Throw e, s2) ->
    exists note,
      notifications (app (snd (App.handleExecuteAiPlan s))) =
      notifications (app s) ++ [note] /\
      countOf note = N.of_nat (List.length pre).


End Plans.

End Spec.

(* ===================================================================== *)
(** ** App.tsx, the other handlers *)
(* ===================================================================== *)

Module AppRest.
Import JS Net Types firebaseService geminiService.
Local Open Scope N_scope.
Local Open Scope js_scope.

Definition setDbInfo (d : DbConnection) (a : AppState) : AppState :=
  mkApp d (urlInput a) (data a) (loading a) (appError a) (notifications a)
    (viewMode a) (rawJsonInput a) (showAiModal a) (aiPrompt a) (aiPath a)
    (aiLoading a) (aiResult a).

(** [setError] *)
Definition setAppError (e : option str) (a : AppState) : AppState :=
  mkApp (dbInfo a) (urlInput a) (data a) (loading a) e (notifications a)
    (viewMode a) (rawJsonInput a) (showAiModal a) (aiPrompt a) (aiPath a)
    (aiLoading a) (aiResult a).

Definition setViewMode (m : ViewMode) (a : AppState) : AppState :=
  mkApp (dbInfo a) (urlInput a) (data a) (loading a) (appError a)
    (notifications a) m (rawJsonInput a) (showAiModal a) (aiPrompt a)
    (aiPath a) (aiLoading a) (aiResult a).

Definition setAiLoading (b : bool) (a : AppState) : AppState :=
  mkApp (dbInfo a) (urlInput a) (data a) (loading a) (appError a)
    (notifications a) (viewMode a) (rawJsonInput a) (showAiModal a)
    (aiPrompt a) (aiPath a) b (aiResult a).

(** [Object.keys(v)] of an array or an object. *)
Definition Object_keys (v : value) : list str :=
  map fst (App.Object_entries v).

Section Handlers.
Context {H : Host}.

(** [handleConnect]. As in [handleExecuteAiPlan], the reload started at
    the end of the [try] block is run to its end before the [finally]. *)
Definition handleConnect : M unit :=
  a <- getApp ;;
  match urlInput a with
  | [] => ret tt
  | _ :: _ =>
      setApp (setLoading true) ;;;
      setApp (setAppError None) ;;;
      let targetUrl := cleanUrl (urlInput a) in
      finally
        (tryCatch
           (checkConnection targetUrl ;;;
            setApp (setDbInfo (mkDb targetUrl true)) ;;;
            App.notify (lit "Connected successfully!") success ;;;
            App.fetchRootData (Some targetUrl))
           (fun err =>
              setApp (setAppError
                        (Some (orElse (message err) (lit "Failed to connect.")))) ;;;
              App.notify (lit "Connection failed") error))
        (setApp (setLoading false))
  end.

(** [handleSaveRaw]: [loading] is reset by the handler only when it
    fails; after a success the reload resets it. *)
Definition handleSaveRaw : M unit :=
  a <- getApp ;;
  setApp (setLoading true) ;;;
  tryCatch
    (parsed <- liftR (JSON_parse (rawJsonInput a)) ;;
     writeData (db_url (dbInfo a)) [] parsed ;;;
     App.notify (lit "Database updated from JSON!") success ;;;
     App.fetchRootData None ;;;
     setApp (setViewMode tree))
    (fun e =>
       App.notify (lit "Invalid JSON format. Please check syntax.") error ;;;
       setApp (setLoading false)).

(** [handleAiGenerate]. The context is the pair of [contextData] and
    [rootKeys] when the generator is called. *)
Definition handleAiGenerate : M unit :=
  a <- getApp ;;
  match trim (aiPrompt a) with
  | [] => ret tt
  | _ :: _ =>
      setApp (setAiLoading true) ;;;
      setApp (setAiResult None) ;;;
      finally
        (tryCatch
           (context <-
              match trim (aiPath a) with
              | _ :: _ =>
                  tryCatch
                    (contextData <- readData (db_url (dbInfo a)) (trim (aiPath a)) ;;
                     ret (contextData, []))
                    (fun e => ret (Null, []))
              | [] =>
                  if truthy (data a) && DataNode.isObject (data a)
                  then ret (Null, Object_keys (data a))
                  else ret (Null, [])
              end ;;
            response <- generateDataWithAI (aiPrompt a) (fst context)
                          (snd context) (trim (aiPath a)) ;;
            setApp (setAiResult (Some response)) ;;;
            match actions response with
            | _ :: _ =>
                App.notify (lit "AI proposed " ++
                            decimal (N.of_nat (List.length (actions response))) ++
                            lit " actions.") success
            | [] => App.notify (lit "AI replied (no actions).") info
            end)
           (fun e => App.notify (message e) error))
        (setApp (setAiLoading false))
  end.

End Handlers.
End AppRest.

(* ===================================================================== *)
(** ** components/DataNode.tsx, the deletion of a node *)
(* ===================================================================== *)

Module DataNodeRest.
Import JS Net Types firebaseService DataNode.
Local Open Scope N_scope.
Local Open Scope js_scope.

Section Handlers.
Context {H : Host}.

(** [handleDelete]; [confirm] is the dialog of the browser, which is
    given the question and answers for the user. *)
Definition handleDelete (props : NodeProps) (confirm : str -> bool) : M unit :=
  if confirm (warning ++ lit " Are you sure you want to delete " ++ [34] ++
              name props ++ [34] ++ lit "? This cannot be undone.")
  then
    setNode (setNodeLoading true) ;;;
    finally
      (tryCatch
         (deleteData (dbUrl props) (displayPath (path props) (name props)) ;;;
          onRefresh props)
         (fun error => alert (lit "Failed to delete node.")))
      (setNode (setNodeLoading false))
  else ret tt.

End Handlers.
End DataNodeRest.

(* ===================================================================== *)
(** ** Further notions used to state properties *)
(* ===================================================================== *)

Module SpecRest.
Import JS Net Types firebaseService.
Local Open Scope N_scope.

(** The units of a JavaScript string are 16-bit. *)
Definition codeUnits (s : str) : bool := forallb (fun c => c <? 65536) s.

(** What can stand in the path of a URL without ending it or being read
    as a delimiter of the query: an unreserved unit, a percent sign, or
    the slash between segments. *)
Definition pathUnit (c : N) : bool :=
  uriUnreserved c || (c =? 37) || (c =? 47).

(** *** Reading an encoded segment back *)



(** A percent-encoded text is read as a row of plain units and of
    octets written [%XX], with the upper-case hexadecimal digits the
    encoding writes. *)
Inductive token : Type :=
| Lit (c : N)
| Oct (b : N).

Definition hexVal (c : N) : option N :=
  if (48 <=? c) && (c <=? 57) then Some (c - 48)
  else if (65 <=? c) && (c <=? 70) then Some (c - 55)
  else None.

Fixpoint tokens (s : str) : option (list token) :=
  match s with
  | [] => Some []
  | c :: r =>
      if c =? 37 then
        match r with
        | h1 :: h2 :: r' =>
            match hexVal h1, hexVal h2, tokens r' with
            | Some a, Some b, Some t => Some (Oct (a * 16 + b) :: t)
            | _, _, _ => None
            end
        | _ => None
        end
      else
        match tokens r with
        | Some t => Some (Lit c :: t)
        | None => None
        end
  end.

(** The UTF-16 units of a code point. *)
Definition unitsOf (cp : N) : str :=
  if cp <? 65536 then [cp]
  else [55296 + (cp - 65536) / 1024; 56320 + (cp - 65536) mod 1024].

(** A continuation octet of UTF-8. *)
Definition isCont (b : N) : bool := (128 <=? b) && (b <? 192).

(** The octets are read as UTF-8, one code point after the other. *)
Fixpoint fromTokens (t : list token) : option str :=
  match t with
  | [] => Some []
  | Lit c :: r => option_map (cons c) (fromTokens r)
  | Oct b0 :: r =>
      if b0 <? 128 then option_map (cons b0) (fromTokens r)
      else if (192 <=? b0) && (b0 <? 224) then
        match r with
        | Oct b1 :: r1 =>
            if isCont b1 then
              option_map (List.app (unitsOf ((b0 - 192) * 64 + (b1 - 128))))
                         (fromTokens r1)
            else None
        | _ => None
        end
      else if (224 <=? b0) && (b0 <? 240) then
        match r with
        | Oct b1 :: Oct b2 :: r2 =>
            if isCont b1 && isCont b2 then
              option_map
                (List.app (unitsOf ((b0 - 224) * 4096 + (b1 - 128) * 64 +
                                    (b2 - 128))))
                (fromTokens r2)
            else None
        | _ => None
        end
      else if (240 <=? b0) && (b0 <? 248) then
        match r with
        | Oct b1 :: Oct b2 :: Oct b3 :: r3 =>
            if isCont b1 && isCont b2 && isCont b3 then
              option_map
                (List.app (unitsOf ((b0 - 240) * 262144 + (b1 - 128) * 4096 +
                                    (b2 - 128) * 64 + (b3 - 128))))
                (fromTokens r3)
            else None
        | _ => None
        end
      else None
  end.

(** What a percent-encoded segment stands for: the text that is read
    when the segment is decoded. *)
Definition pctDecode (s : str) : option str :=
  match tokens s with
  | Some t => fromTokens t
  | None => None
  end.

(** *** The first render, level by level *)



End SpecRest.

Unset Implicit Arguments.

(* ===================================================================== *)
(** ** The JSON parser never runs out of fuel *)
(* ===================================================================== *)

Section ParserFuel.
Import JS.
Local Open Scope N_scope.

Lemma dropWhile_shorter f (s : str) :
  (List.length (dropWhile f s) <= List.length s)%nat.
Proof.
  induction s as [|c s IH]; simpl; [lia|]. destruct (f c); simpl; lia.
Qed.

Lemma skipWs_cons (s : str) (c : N) (t : str) :
  skipWs s = c :: t -> (List.length t < List.length s)%nat.
Proof.
  intros Hs. pose proof (dropWhile_shorter isJsonWs s) as Hl.
  unfold skipWs in Hs. rewrite Hs in Hl. simpl in Hl. lia.
Qed.

Lemma parseStringBody_shorter (s t r : str) :
  parseStringBody s = Some (t, r) -> (List.length r < List.length s)%nat.
Proof.
  remember (List.length s) as n eqn:En.
  revert s t r En. induction n as [n IH] using lt_wf_ind. intros s t r En.
  destruct s as [|c s]; [discriminate|]. cbn [parseStringBody].
  destruct (c =? 34); [intros [= _ <-]; simpl in En; lia|].
  destruct (c =? 92).
  - destruct s as [|e r1]; [discriminate|].
    destruct (e =? 117).
    + destruct r1 as [|a [|b [|c' [|d r2]]]]; try discriminate.
      destruct (hex4 a b c' d); [|discriminate].
      destruct (parseStringBody r2) as [[t' rest]|] eqn:E; [|discriminate].
      intros [= _ <-]. apply (IH (List.length r2)) in E; simpl in *; lia.
    + destruct (simpleEscape e); [|discriminate].
      destruct (parseStringBody r1) as [[t' rest]|] eqn:E; [|discriminate].
      intros [= _ <-]. apply (IH (List.length r1)) in E; simpl in *; lia.
  - destruct (c <? 32); [discriminate|].
    destruct (parseStringBody s) as [[t' rest]|] eqn:E; [|discriminate].
    intros [= _ <-]. apply (IH (List.length s)) in E; simpl in *; lia.
Qed.

Lemma spanDigits_shorter (s ds r : str) :
  spanDigits s = (ds, r) -> (List.length r <= List.length s)%nat.
Proof.
  revert ds r. induction s as [|c s IH]; intros ds r; cbn [spanDigits].
  - intros [= _ <-]. simpl. lia.
  - destruct (isDigit c).
    + destruct (spanDigits s) as [ds' r'] eqn:E. intros [= _ <-].
      specialize (IH _ _ eq_refl). simpl. lia.
    + intros [= _ <-]. lia.
Qed.

Lemma parseJsonNumber_shorter (s : str) (x : number) (r : str) :
  parseJsonNumber s = Some (x, r) -> (List.length r <= List.length s)%nat.
Proof.
  unfold parseJsonNumber.
  set (nu := match s with
             | [] => (false, s)
             | sg :: r0 => if sg =? 45 then (true, r0) else (false, s)
             end).
  assert (Hu : (List.length (snd nu) <= List.length s)%nat).
  { subst nu. destruct s as [|sg r0]; [simpl; lia|].
    destruct (sg =? 45); simpl; lia. }
  destruct nu as [neg u]. cbn [snd] in Hu.
  destruct (spanDigits u) as [di r1] eqn:E1.
  apply spanDigits_shorter in E1.
  match goal with |- context [negb ?b] => destruct (negb b) end; [discriminate|].
  assert (Hfrac : forall df r3,
            match r1 with
            | [] => Some ([], r1)
            | c :: r2 =>
                if c =? 46 then
                  let '(df, r3) := spanDigits r2 in
                  match df with
                  | [] => None
                  | _ :: _ => Some (df, r3)
                  end
                else Some ([], r1)
            end = Some (df, r3) -> (List.length r3 <= List.length r1)%nat).
  { intros df r3. destruct r1 as [|c r2]; [intros [= _ <-]; lia|].
    destruct (c =? 46); [|intros [= _ <-]; lia].
    destruct (spanDigits r2) as [df' r3'] eqn:E2.
    apply spanDigits_shorter in E2.
    destruct df'; [discriminate|]. intros [= _ <-]. simpl. lia. }
  match goal with
  | |- context [match ?frac with Some _ => _ | None => None end] =>
      destruct frac as [[df r3]|] eqn:Ef; [|discriminate]
  end.
  specialize (Hfrac _ _ eq_refl).
  destruct r3 as [|c r4]; [intros [= _ <-]; simpl in *; lia|].
  destruct ((c =? 101) || (c =? 69)); [|intros [= _ <-]; simpl in *; lia].
  set (er := match r4 with
             | [] => (false, r4)
             | sg :: r' =>
                 if sg =? 43 then (false, r')
                 else if sg =? 45 then (true, r') else (false, r4)
             end).
  assert (He : (List.length (snd er) <= List.length r4)%nat).
  { subst er. destruct r4 as [|sg r']; [simpl; lia|].
    destruct (sg =? 43); [simpl; lia|]. destruct (sg =? 45); simpl; lia. }
  destruct er as [eneg r5]. cbn [snd] in He.
  destruct (spanDigits r5) as [ds r6] eqn:E6.
  apply spanDigits_shorter in E6.
  destruct ds; [discriminate|]. intros [= _ <-]. simpl in *. lia.
Qed.

Lemma afterLiteral_shorter (w s r : str) :
  afterLiteral w s = Some r -> (List.length r <= List.length s)%nat.
Proof.
  unfold afterLiteral. destruct (startsWith w s); [|discriminate].
  intros [= <-]. rewrite length_skipn. lia.
Qed.

(** What a parser leaves is no longer than what it was given. *)
Lemma parse_shorter (fuel : nat) :
  (forall s v r, parseValue fuel s = Some (v, r) ->
                 (List.length r <= List.length s)%nat) /\
  (forall acc s v r, parseMembers fuel acc s = Some (v, r) ->
                     (List.length r <= List.length s)%nat) /\
  (forall acc s v r, parseElements fuel acc s = Some (v, r) ->
                     (List.length r <= List.length s)%nat).
Proof.
  induction fuel as [|fuel (IHv & IHm & IHe)].
  - repeat split; intros; discriminate.
  - repeat split.
    + intros s v r. cbn [parseValue].
      destruct (skipWs s) as [|c t] eqn:Es; [discriminate|].
      apply skipWs_cons in Es.
      destruct (c =? 123).
      { destruct (skipWs t) as [|c2 t2] eqn:Et; [discriminate|].
        apply skipWs_cons in Et.
        destruct (c2 =? 125); [intros [= _ <-]; lia|].
        intros Hm. apply IHm in Hm. lia. }
      destruct (c =? 91).
      { destruct (skipWs t) as [|c2 t2] eqn:Et; [discriminate|].
        apply skipWs_cons in Et.
        destruct (c2 =? 93); [intros [= _ <-]; lia|].
        intros Hm. apply IHe in Hm. lia. }
      destruct (c =? 34).
      { destruct (parseStringBody t) as [[x y]|] eqn:Ep; [|discriminate].
        apply parseStringBody_shorter in Ep. intros [= _ <-]. lia. }
      destruct (afterLiteral (lit "true") (c :: t)) eqn:E1.
      { apply afterLiteral_shorter in E1. intros [= _ <-]. simpl in *. lia. }
      destruct (afterLiteral (lit "false") (c :: t)) eqn:E2.
      { apply afterLiteral_shorter in E2. intros [= _ <-]. simpl in *. lia. }
      destruct (afterLiteral (lit "null") (c :: t)) eqn:E3.
      { apply afterLiteral_shorter in E3. intros [= _ <-]. simpl in *. lia. }
      destruct (parseJsonNumber (c :: t)) as [[x y]|] eqn:E4; [|discriminate].
      apply parseJsonNumber_shorter in E4. intros [= _ <-]. simpl in *. lia.
    + intros acc s v r. cbn [parseMembers].
      destruct (skipWs s) as [|q t] eqn:Es; [discriminate|].
      apply skipWs_cons in Es.
      destruct (q =? 34); [|discriminate].
      destruct (parseStringBody t) as [[k r1]|] eqn:Ep; [|discriminate].
      apply parseStringBody_shorter in Ep.
      destruct (skipWs r1) as [|colon r2] eqn:E1; [discriminate|].
      apply skipWs_cons in E1.
      destruct (colon =? 58); [|discriminate].
      destruct (parseValue fuel r2) as [[x r3]|] eqn:Ev; [|discriminate].
      apply IHv in Ev.
      destruct (skipWs r3) as [|c3 r4] eqn:E3; [discriminate|].
      apply skipWs_cons in E3.
      destruct (c3 =? 44); [intros Hm; apply IHm in Hm; lia|].
      destruct (c3 =? 125); [|discriminate].
      intros [= _ <-]. lia.
    + intros acc s v r. cbn [parseElements].
      destruct (parseValue fuel s) as [[x r1]|] eqn:Ev; [|discriminate].
      apply IHv in Ev.
      destruct (skipWs r1) as [|c r2] eqn:E1; [discriminate|].
      apply skipWs_cons in E1.
      destruct (c =? 44); [intros Hm; apply IHe in Hm; lia|].
      destruct (c =? 93); [|discriminate].
      intros [= _ <-]. lia.
Qed.

(** With a fuel above twice the length of the text the answer does not
    depend on the fuel. *)
Lemma parse_fuel (fuel : nat) :
  (forall s fuel',
     (2 * List.length s < fuel)%nat -> (2 * List.length s < fuel')%nat ->
     parseValue fuel s = parseValue fuel' s) /\
  (forall acc s fuel',
     (2 * List.length s < fuel)%nat -> (2 * List.length s < fuel')%nat ->
     parseMembers fuel acc s = parseMembers fuel' acc s) /\
  (forall acc s fuel',
     (2 * List.length s + 1 < fuel)%nat -> (2 * List.length s + 1 < fuel')%nat ->
     parseElements fuel acc s = parseElements fuel' acc s).
Proof.
  induction fuel as [|fuel (IHv & IHm & IHe)].
  - repeat split; intros; lia.
  - repeat split.
    + intros s [|fuel'] Hf Hf'; [lia|]. cbn [parseValue].
      destruct (skipWs s) as [|c t] eqn:Es; [reflexivity|].
      apply skipWs_cons in Es.
      destruct (c =? 123).
      { destruct (skipWs t) as [|c2 t2]; [reflexivity|].
        destruct (c2 =? 125); [reflexivity|]. apply IHm; lia. }
      destruct (c =? 91); [|reflexivity].
      destruct (skipWs t) as [|c2 t2]; [reflexivity|].
      destruct (c2 =? 93); [reflexivity|]. apply IHe; lia.
    + intros acc s [|fuel'] Hf Hf'; [lia|]. cbn [parseMembers].
      destruct (skipWs s) as [|q t] eqn:Es; [reflexivity|].
      apply skipWs_cons in Es.
      destruct (q =? 34); [|reflexivity].
      destruct (parseStringBody t) as [[k r1]|] eqn:Ep; [|reflexivity].
      apply parseStringBody_shorter in Ep.
      destruct (skipWs r1) as [|colon r2] eqn:E1; [reflexivity|].
      apply skipWs_cons in E1.
      destruct (colon =? 58); [|reflexivity].
      rewrite (IHv r2 fuel') by lia.
      destruct (parseValue fuel' r2) as [[x r3]|] eqn:Ev; [|reflexivity].
      apply (proj1 (parse_shorter fuel')) in Ev.
      destruct (skipWs r3) as [|c3 r4] eqn:E3; [reflexivity|].
      apply skipWs_cons in E3.
      destruct (c3 =? 44); [|reflexivity]. apply IHm; lia.
    + intros acc s [|fuel'] Hf Hf'; [lia|]. cbn [parseElements].
      rewrite (IHv s fuel') by lia.
      destruct (parseValue fuel' s) as [[x r1]|] eqn:Ev; [|reflexivity].
      apply (proj1 (parse_shorter fuel')) in Ev.
      destruct (skipWs r1) as [|c r2] eqn:E1; [reflexivity|].
      apply skipWs_cons in E1.
      destruct (c =? 44); [|reflexivity]. apply IHe; lia.
Qed.

(** [JSON_parse] gives the answer of the parser run with any larger fuel:
    an error it reports is an error of syntax. *)
Lemma JSON_parse_fuel (text : str) (fuel : nat) :
  (2 * List.length text + 2 <= fuel)%nat ->
  parseValue fuel text = parseValue (2 * List.length text + 2) text.
Proof.
  intros Hf. apply (proj1 (parse_fuel fuel)); lia.
Qed.

End ParserFuel.

(* ===================================================================== *)
(** ** Strings *)
(* ===================================================================== *)

Section StringFacts.
Import JS.
Local Open Scope N_scope.

Lemma str_eqb_eq (a b : str) : str_eqb a b = true <-> a = b.
Proof.
  unfold str_eqb. destruct (list_eq_dec N.eq_dec a b); split; congruence.
Qed.

Lemma str_eqb_neq (a b : str) : str_eqb a b = false <-> a <> b.
Proof.
  unfold str_eqb. destruct (list_eq_dec N.eq_dec a b); split; congruence.
Qed.

Lemma startsWith_prefix (p s : str) :
  startsWith p s = true <-> exists r, s = p ++ r.
Proof.
  revert s. induction p as [|a p IH]; intros s; simpl.
  - split; eauto.
  - destruct s as [|b s].
    + split; [discriminate | intros [r Hr]; discriminate].
    + rewrite andb_true_iff, N.eqb_eq, IH. split.
      * intros [-> [r ->]]. eauto.
      * intros [r Hr]. injection Hr as -> ->. eauto.
Qed.

Lemma dropWhile_fixed f (s : str) :
  match s with
  | [] => True
  | c :: _ => f c = false
  end -> dropWhile f s = s.
Proof.
  destruct s as [|c s]; simpl; [reflexivity|]. now intros ->.
Qed.

Lemma dropWhileEnd_fixed f (s : str) :
  match rev s with
  | [] => True
  | c :: _ => f c = false
  end -> dropWhileEnd f s = s.
Proof.
  intros Hlast. unfold dropWhileEnd.
  rewrite dropWhile_fixed by exact Hlast. apply rev_involutive.
Qed.

Lemma dropWhile_all f (s : str) : forallb (fun c => negb (f c)) s = true -> dropWhile f s = s.
Proof.
  intros Hs. apply dropWhile_fixed. destruct s as [|c s]; [exact I|].
  simpl in Hs. apply andb_true_iff in Hs as [Hc _]. now apply negb_true_iff.
Qed.

Lemma forallb_rev {A} (f : A -> bool) (l : list A) :
  forallb f (rev l) = forallb f l.
Proof.
  induction l as [|x l IH]; simpl; [reflexivity|].
  rewrite forallb_app, IH. simpl. rewrite andb_true_r. apply andb_comm.
Qed.

Lemma dropWhileEnd_all f (s : str) :
  forallb (fun c => negb (f c)) s = true -> dropWhileEnd f s = s.
Proof.
  intros Hs. unfold dropWhileEnd.
  rewrite dropWhile_all by now rewrite forallb_rev. apply rev_involutive.
Qed.

End StringFacts.

(* ===================================================================== *)
(** ** cleanUrl *)
(* ===================================================================== *)

Section CleanUrl.
Import JS firebaseService_url Spec.
Local Open Scope N_scope.

Lemma projectIdChar_plain (c : N) :
  isProjectIdChar c = true ->
  isWhiteSpace c = false /\ isSlash c = false /\ c <> 46 /\ c <> 58.
Proof.
  unfold isProjectIdChar, isAlpha, isDigit, isWhiteSpace, isSlash.
  rewrite !orb_true_iff, !andb_true_iff, !N.leb_le, N.eqb_eq.
  intros Hc.
  repeat split;
    try (repeat rewrite orb_false_iff; repeat rewrite andb_false_iff;
         repeat rewrite N.eqb_neq; repeat rewrite N.leb_gt;
         repeat split; lia);
    lia.
Qed.

Lemma forallb_impl {A} (f g : A -> bool) (l : list A) :
  (forall x, f x = true -> g x = true) ->
  forallb f l = true -> forallb g l = true.
Proof.
  intros Hfg. rewrite !forallb_forall. auto.
Qed.

(** The three strippings leave a bare identifier as it is. *)
Lemma projectId_untouched (s : str) :
  isProjectId s = true ->
  trim s = s /\ stripTrailingSlashes s = s /\ stripJsonSuffix s = s.
Proof.
  intros Hid. destruct s as [|c0 s0] eqn:Es; [discriminate|].
  rewrite <- Es in *. unfold isProjectId in Hid. rewrite Es in Hid. rewrite <- Es in Hid.
  assert (Hws : forallb (fun c => negb (isWhiteSpace c)) s = true).
  { revert Hid. apply forallb_impl. intros x Hx.
    apply projectIdChar_plain in Hx. now destruct Hx as [-> _]. }
  assert (Hsl : forallb (fun c => negb (isSlash c)) s = true).
  { revert Hid. apply forallb_impl. intros x Hx.
    apply projectIdChar_plain in Hx. now destruct Hx as (_ & -> & _). }
  repeat split.
  - unfold trim. rewrite (dropWhile_all _ _ Hws). now apply dropWhileEnd_all.
  - now apply dropWhileEnd_all.
  - unfold stripJsonSuffix. destruct (endsWith (lit ".json") s) eqn:He; [|reflexivity].
    exfalso. unfold endsWith in He. apply startsWith_prefix in He as [r Hr].
    assert (Hin : In 46 (rev s)).
    { rewrite Hr. apply in_or_app. left. vm_compute. tauto. }
    apply in_rev in Hin. rewrite forallb_forall in Hid.
    apply Hid, projectIdChar_plain in Hin. tauto.
Qed.

Lemma cleanUrl_projectId (id : str) :
  isProjectId id = true ->
  cleanUrl id = lit "https://" ++ id ++ lit ".firebaseio.com".
Proof.
  intros Hid. unfold cleanUrl.
  destruct (projectId_untouched _ Hid) as (-> & -> & ->).
  now rewrite Hid.
Qed.

(** Whatever the input, the result starts with a scheme. *)
Lemma cleanUrl_scheme (x : str) :
  startsWith (lit "http://") (cleanUrl x) = true \/
  startsWith (lit "https://") (cleanUrl x) = true.
Proof.
  unfold cleanUrl.
  set (u := stripJsonSuffix (stripTrailingSlashes (trim x))).
  destruct (isProjectId u).
  - right. apply startsWith_prefix. eauto.
  - destruct (startsWith (lit "http://") u) eqn:E1; cbn [negb andb]; [now left|].
    destruct (startsWith (lit "https://") u) eqn:E2; cbn [negb andb]; [now right|].
    right. apply startsWith_prefix. eauto.
Qed.

Lemma scheme_not_projectId (y : str) :
  startsWith (lit "http://") y = true \/ startsWith (lit "https://") y = true ->
  isProjectId y = false.
Proof.
  intros [Hy | Hy]; apply startsWith_prefix in Hy as [r ->]; reflexivity.
Qed.

Lemma settled_untouched (y : str) :
  startsWith (lit "http://") y = true \/ startsWith (lit "https://") y = true ->
  settled y = true ->
  trim y = y /\ stripTrailingSlashes y = y /\ stripJsonSuffix y = y.
Proof.
  intros Hs Hy. unfold settled, lastUnit in Hy.
  apply andb_true_iff in Hy as [Hlast Hjson].
  apply negb_true_iff in Hjson.
  assert (Hhead : dropWhile isWhiteSpace y = y).
  { destruct Hs as [Hs | Hs]; apply startsWith_prefix in Hs as [r ->]; reflexivity. }
  repeat split.
  - unfold trim. rewrite Hhead. apply dropWhileEnd_fixed.
    destruct (rev y); [exact I|].
    apply andb_true_iff in Hlast as [Hw _]. now apply negb_true_iff.
  - apply dropWhileEnd_fixed. destruct (rev y); [exact I|].
    apply andb_true_iff in Hlast as [_ Hw]. now apply negb_true_iff.
  - unfold stripJsonSuffix. now rewrite Hjson.
Qed.

(** A settled text that starts with a scheme is a fixed point. *)
Lemma cleanUrl_fixed (y : str) :
  startsWith (lit "http://") y = true \/ startsWith (lit "https://") y = true ->
  settled y = true -> cleanUrl y = y.
Proof.
  intros Hs Hy. unfold cleanUrl.
  destruct (settled_untouched _ Hs Hy) as (-> & -> & ->).
  rewrite (scheme_not_projectId _ Hs).
  destruct Hs as [-> | ->]; cbn [negb andb]; [reflexivity|].
  now rewrite andb_false_r.
Qed.

Lemma projectId_form_settled (id : str) :
  settled (lit "https://" ++ id ++ lit ".firebaseio.com") = true.
Proof.
  unfold settled, lastUnit, endsWith.
  rewrite !rev_app_distr. reflexivity.
Qed.

(** *** The converse: a fixed point is settled *)

Lemma dropWhileEnd_length f (s : str) :
  (List.length (dropWhileEnd f s) <= List.length s)%nat.
Proof.
  unfold dropWhileEnd. rewrite length_rev, <- (length_rev s).
  apply dropWhile_shorter.
Qed.

Lemma dropWhileEnd_same_length f (s : str) :
  List.length (dropWhileEnd f s) = List.length s ->
  match rev s with
  | [] => True
  | c :: _ => f c = false
  end.
Proof.
  unfold dropWhileEnd. rewrite length_rev, <- (length_rev s).
  destruct (rev s) as [|c l]; [trivial|]. simpl.
  destruct (f c); [|reflexivity].
  intros Hl. pose proof (dropWhile_shorter f l). lia.
Qed.

Lemma stripJsonSuffix_length (s : str) :
  (List.length (stripJsonSuffix s) <= List.length s)%nat.
Proof.
  unfold stripJsonSuffix. destruct (endsWith (lit ".json") s); [|lia].
  rewrite length_firstn. lia.
Qed.

Lemma stripJsonSuffix_same_length (s : str) :
  List.length (stripJsonSuffix s) = List.length s ->
  endsWith (lit ".json") s = false.
Proof.
  unfold stripJsonSuffix. destruct (endsWith (lit ".json") s) eqn:He; [|reflexivity].
  rewrite length_firstn. intros Hl.
  unfold endsWith in He. apply startsWith_prefix in He as [r Hr].
  apply (f_equal (@List.length N)) in Hr.
  rewrite length_rev, length_app in Hr. simpl in Hr. lia.
Qed.

(** What the three strippings keep is a prefix of the trimmed-left text. *)
Lemma stripped_prefix (y : str) :
  dropWhile isWhiteSpace y = y ->
  let u := stripJsonSuffix (stripTrailingSlashes (trim y)) in
  u = firstn (List.length u) y.
Proof.
  intros Hhead u. subst u. unfold trim. rewrite Hhead.
  assert (Hpre : forall f (s : str),
             dropWhileEnd f s = firstn (List.length (dropWhileEnd f s)) s).
  { intros f s. unfold dropWhileEnd.
    assert (Hsuf : forall l : str, exists k, l = k ++ dropWhile f l).
    { induction l as [|c l [k IH]]; simpl; [now exists []|].
      destruct (f c); [exists (c :: k); simpl; now f_equal | now exists []]. }
    destruct (Hsuf (rev s)) as [k Hk].
    apply (f_equal (@rev N)) in Hk. rewrite rev_involutive, rev_app_distr in Hk.
    remember (rev (dropWhile f (rev s))) as d eqn:Ed. clear Ed.
    rewrite Hk. rewrite firstn_app, Nat.sub_diag, firstn_all. simpl.
    now rewrite app_nil_r. }
  assert (Hjs : forall s : str,
             stripJsonSuffix s = firstn (List.length (stripJsonSuffix s)) s).
  { intros s. unfold stripJsonSuffix.
    destruct (endsWith (lit ".json") s); [|now rewrite firstn_all].
    rewrite length_firstn. f_equal. lia. }
  remember (dropWhileEnd isWhiteSpace y) as a eqn:Ea.
  assert (Ha : a = firstn (List.length a) y) by (subst a; apply Hpre).
  clear Ea.
  remember (stripTrailingSlashes a) as b eqn:Eb.
  assert (Hb : b = firstn (List.length b) y).
  { pose proof (dropWhileEnd_length isSlash a) as La.
    unfold stripTrailingSlashes in Eb. rewrite <- Eb in La.
    rewrite Eb at 1. rewrite (Hpre isSlash a), <- Eb.
    rewrite Ha at 1. rewrite firstn_firstn. f_equal. lia. }
  clear Eb.
  pose proof (stripJsonSuffix_length b) as Lb.
  rewrite (Hjs b) at 1.
  remember (List.length (stripJsonSuffix b)) as n eqn:En. clear En.
  rewrite Hb. rewrite firstn_firstn. f_equal. lia.
Qed.

Lemma cleanUrl_fixed_settled (y : str) :
  startsWith (lit "http://") y = true \/ startsWith (lit "https://") y = true ->
  cleanUrl y = y -> settled y = true.
Proof.
  intros Hs Hfix.
  assert (Hhead : dropWhile isWhiteSpace y = y).
  { destruct Hs as [Hs | Hs]; apply startsWith_prefix in Hs as [r ->]; reflexivity. }
  pose proof (stripped_prefix y Hhead) as Hpre. cbv zeta in Hpre.
  unfold cleanUrl in Hfix.
  remember (stripJsonSuffix (stripTrailingSlashes (trim y))) as u eqn:Eu.
  destruct (isProjectId u).
  { rewrite <- Hfix. apply projectId_form_settled. }
  destruct (negb (startsWith (lit "http://") u) &&
            negb (startsWith (lit "https://") u)) eqn:Hscheme.
  - exfalso.
    apply andb_true_iff in Hscheme as [_ Hno]. apply negb_true_iff in Hno.
    destruct (Nat.le_gt_cases 8 (List.length u)) as [Hlong | Hshort].
    + assert (Hu : startsWith (lit "https://") u = true); [|congruence].
      apply startsWith_prefix. exists (skipn 8 u).
      rewrite <- (firstn_skipn 8 u) at 1. f_equal.
      rewrite Hpre, firstn_firstn, Nat.min_l by lia.
      rewrite <- Hfix. reflexivity.
    + assert (Hu : u = firstn (List.length u) (lit "https://")).
      { rewrite Hpre at 1. rewrite <- Hfix.
        rewrite firstn_app.
        replace (List.length u - List.length (lit "https://"))%nat with 0%nat
          by (simpl; lia).
        simpl firstn at 2. now rewrite app_nil_r. }
      rewrite <- Hfix in Eu.
      remember (List.length u) as k eqn:Ek. clear - Eu Hu Hshort. subst u.
      do 8 (destruct k as [|k]; [vm_compute in Eu; discriminate|]).
      lia.
  - (* the text came back unchanged: no stripping took place *)
    pose proof (stripJsonSuffix_length (stripTrailingSlashes (trim y))) as L1.
    pose proof (dropWhileEnd_length isSlash (trim y)) as L2.
    pose proof (dropWhileEnd_length isWhiteSpace y) as L3.
    rewrite <- Eu in L1. fold (stripTrailingSlashes (trim y)) in L2.
    assert (Ht : trim y = dropWhileEnd isWhiteSpace y)
      by (unfold trim; now rewrite Hhead).
    assert (Hlen : List.length u = List.length y) by now rewrite Hfix.
    assert (E3 : List.length (dropWhileEnd isWhiteSpace y) = List.length y)
      by (rewrite <- Ht in L3 |- *; lia).
    apply dropWhileEnd_same_length in E3.
    assert (Ty : trim y = y) by (rewrite Ht; now apply dropWhileEnd_fixed).
    rewrite Ty in Eu, L1, L2.
    assert (E2 : List.length (stripTrailingSlashes y) = List.length y) by lia.
    apply dropWhileEnd_same_length in E2.
    assert (Sy : stripTrailingSlashes y = y) by now apply dropWhileEnd_fixed.
    rewrite Sy in Eu.
    assert (E1 : endsWith (lit ".json") y = false).
    { apply stripJsonSuffix_same_length. now rewrite <- Eu. }
    unfold settled, lastUnit. rewrite E1.
    destruct (rev y); [reflexivity|].
    now rewrite E2, E3.
Qed.

End CleanUrl.

(* ===================================================================== *)
(** ** encodeURIComponent, split and join *)
(* ===================================================================== *)

Section Endpoints.
Import JS firebaseService_url Spec.
Local Open Scope N_scope.






Lemma mapM_OK {A B} (f : A -> result B) (l : list A) (l' : list B) :
  mapM f l = OK l' -> Forall2 (fun x y => f x = OK y) l l'.
Proof.
  revert l'. induction l as [|x l IH]; simpl; intros l'.
  - intros [= <-]. constructor.
  - destruct (f x) as [y|] eqn:Ey; simpl; [|discriminate].
    destruct (mapM f l) as [ys|]; simpl; [|discriminate].
    intros [= <-]. constructor; auto.
Qed.


Lemma split_nonempty (sep : N) (s : str) : split sep s <> [].
Proof.
  destruct s as [|c s]; simpl; [discriminate|].
  destruct (c =? sep); [discriminate|]. destruct (split sep s); discriminate.
Qed.

(** The segments of a text hold the units of the text. *)
Lemma split_units (sep : N) (s seg : str) (c : N) :
  In seg (split sep s) -> In c seg -> In c s.
Proof.
  revert seg. induction s as [|a s IH]; simpl; intros seg.
  - intros [<- | []] [].
  - destruct (a =? sep).
    + intros [<- | Hin]; [intros [] | right; eauto].
    + destruct (split sep s) as [|seg0 segs] eqn:Es.
      * intros [<- | []]. simpl. tauto.
      * intros [<- | Hin] Hc.
        -- destruct Hc as [-> | Hc]; [now left | right].
           apply (IH seg0); [now left | exact Hc].
        -- right. apply (IH seg); [now right | exact Hc].
Qed.







End Endpoints.

(* ===================================================================== *)
(** ** The store client *)
(* ===================================================================== *)

Section StoreClient.
Import JS Net Types firebaseService Spec.
Local Open Scope N_scope.
Context {H : Host}.

Lemma doFetch_run (rq : Request) (s : St) :
  doFetch rq s =
  (match fst (fetch (world s) rq) with
   | Resolved res => OK res
   | Rejected e => Throw e
   end, afterFetch s rq).
Proof.
  unfold doFetch, afterFetch. destruct (fetch (world s) rq) as [[res|e] w]; reflexivity.
Qed.

Lemma writeData_run (u p : str) (d : value) (s : St) :
  writeData u p d s =
  let '(r, s') := storeCall PUT (Some d) (lit "Permission Denied (401)")
                    (lit "Failed to write data: ") (lit "Failed to write data") u p s in
  (bind r (fun _ => OK tt), s').
Proof.
  unfold writeData, storeCall, mbind, liftR, tryCatch.
  destruct (buildEndpoint u p) as [ep|e]; [|reflexivity].
  rewrite doFetch_run.
  destruct (fst (fetch (world s) _)) as [res|e]; [|reflexivity].
  destruct (ok res); [reflexivity|]. cbn [negb].
  destruct (status res =? 401); reflexivity.
Qed.

Lemma updateData_run (u p : str) (d : value) (s : St) :
  updateData u p d s =
  let '(r, s') := storeCall PATCH (Some d) (lit "Permission Denied (401)")
                    (lit "Failed to update data: ") (lit "Failed to update data") u p s in
  (bind r (fun _ => OK tt), s').
Proof.
  unfold updateData, storeCall, mbind, liftR, tryCatch.
  destruct (buildEndpoint u p) as [ep|e]; [|reflexivity].
  rewrite doFetch_run.
  destruct (fst (fetch (world s) _)) as [res|e]; [|reflexivity].
  destruct (ok res); [reflexivity|]. cbn [negb].
  destruct (status res =? 401); reflexivity.
Qed.

Lemma deleteData_run (u p : str) (s : St) :
  deleteData u p s =
  let '(r, s') := storeCall DELETE None (lit "Permission Denied (401): Delete blocked.")
                    (lit "Failed to delete data: ") (lit "Failed to delete data") u p s in
  (bind r (fun _ => OK tt), s').
Proof.
  unfold deleteData, storeCall, mbind, liftR, tryCatch.
  destruct (buildEndpoint u p) as [ep|e]; [|reflexivity].
  rewrite doFetch_run.
  destruct (fst (fetch (world s) _)) as [res|e]; [|reflexivity].
  destruct (ok res); [reflexivity|]. cbn [negb].
  destruct (status res =? 401); reflexivity.
Qed.

Lemma readData_run (u p : str) (s : St) :
  readData u p s =
  let '(r, s') := storeCall GET None (lit "Permission Denied (401)")
                    (lit "Failed to read data: ") (lit "Failed to fetch data") u p s in
  (bind r (fun res =>
     match json res with
     | OK v => OK v
     | Throw e => Throw (Error (orElse (message e) (lit "Failed to fetch data")))
     end), s').
Proof.
  unfold readData, storeCall, mbind, liftR, tryCatch.
  destruct (buildEndpoint u p) as [ep|e]; [|reflexivity].
  rewrite doFetch_run.
  destruct (fst (fetch (world s) _)) as [res|e]; [|reflexivity].
  destruct (ok res); cbn [negb bind].
  - destruct (json res); reflexivity.
  - destruct (status res =? 401); reflexivity.
Qed.

Lemma grows_refl (s : St) : grows s s [].
Proof. unfold grows. now rewrite app_nil_r. Qed.

Lemma grows_trans (s1 s2 s3 : St) (l1 l2 : list Request) :
  grows s1 s2 l1 -> grows s2 s3 l2 -> grows s1 s3 (l1 ++ l2).
Proof.
  unfold grows. intros (A1 & N1 & L1 & S1) (A2 & N2 & L2 & S2).
  rewrite A2, N2, L2, S2, S1, app_assoc. auto.
Qed.

Lemma storeCall_grows m body denied failed fallback u p s r s' :
  storeCall m body denied failed fallback u p s = (r, s') ->
  exists l, grows s s' l /\ (List.length l <= 1)%nat /\
            Forall (fun rq => method rq = m /\ Net.body rq = body) l.
Proof.
  unfold storeCall. destruct (buildEndpoint u p) as [ep|e].
  - intros [= _ <-]. exists [mkRequest ep m body].
    repeat split; simpl; auto.
  - intros [= _ <-]. exists []. split; [apply grows_refl|]. simpl. auto.
Qed.

End StoreClient.

(* ===================================================================== *)
(** ** The plan executor *)
(* ===================================================================== *)

Section Executor.
Import JS Net Types firebaseService Spec.
Local Open Scope N_scope.
Context {H : Host}.

Lemma writeData_grows u p d s r s' :
  writeData u p d s = (r, s') ->
  exists l, grows s s' l /\ (List.length l <= 1)%nat /\
            Forall (fun rq => method rq = PUT /\ body rq = Some d) l.
Proof.
  rewrite writeData_run.
  destruct (storeCall _ _ _ _ _ _ _ _) as [r0 s0] eqn:E.
  intros [= _ <-]. eapply storeCall_grows; eauto.
Qed.

Lemma updateData_grows u p d s r s' :
  updateData u p d s = (r, s') ->
  exists l, grows s s' l /\ (List.length l <= 1)%nat /\
            Forall (fun rq => method rq = PATCH /\ body rq = Some d) l.
Proof.
  rewrite updateData_run.
  destruct (storeCall _ _ _ _ _ _ _ _) as [r0 s0] eqn:E.
  intros [= _ <-]. eapply storeCall_grows; eauto.
Qed.

Lemma deleteData_grows u p s r s' :
  deleteData u p s = (r, s') ->
  exists l, grows s s' l /\ (List.length l <= 1)%nat /\
            Forall (fun rq => method rq = DELETE /\ body rq = None) l.
Proof.
  rewrite deleteData_run.
  destruct (storeCall _ _ _ _ _ _ _ _) as [r0 s0] eqn:E.
  intros [= _ <-]. eapply storeCall_grows; eauto.
Qed.

Lemma Forall_not_GET (m : Method) (b : option value) (l : list Request) :
  m <> GET ->
  Forall (fun rq => method rq = m /\ body rq = b) l ->
  Forall (fun rq => method rq <> GET) l.
Proof.
  intros Hm. apply Forall_impl. intros rq [-> _]. exact Hm.
Qed.

(** One action sends at most one request, never a GET, and touches
    neither [App] nor the node. *)
Lemma executeAction_grows url a s r s' :
  App.executeAction url a s = (r, s') ->
  exists l, grows s s' l /\ (List.length l <= 1)%nat /\
            Forall (fun rq => method rq <> GET) l.
Proof.
  assert (Hidle : forall r0, (r0, s) = (r, s') ->
            exists l, grows s s' l /\ (List.length l <= 1)%nat /\
                      Forall (fun rq => method rq <> GET) l).
  { intros r0 [= _ <-]. exists []. split; [apply grows_refl|]. simpl. auto. }
  unfold App.executeAction, mbind, liftR, ret, throw.
  destruct (getProp a (lit "path")) as [p|e]; [|apply Hidle].
  destruct p as [| |b|x|path|items|props]; try apply Hidle.
  destruct (getProp a (lit "type")) as [ty|e]; [|apply Hidle].
  destruct (App.isStr ty (lit "DELETE")).
  { intros Hrun. apply deleteData_grows in Hrun as (l & Hg & Hl & Hm).
    exists l. split; [exact Hg|]. split; [exact Hl|].
    eapply Forall_not_GET; eauto. discriminate. }
  destruct (App.isStr ty (lit "SET")).
  { destruct (getProp a (lit "data")) as [d|e]; [|apply Hidle].
    intros Hrun. apply writeData_grows in Hrun as (l & Hg & Hl & Hm).
    exists l. split; [exact Hg|]. split; [exact Hl|].
    eapply Forall_not_GET; eauto. discriminate. }
  destruct (App.isStr ty (lit "UPDATE")).
  { destruct (getProp a (lit "data")) as [d|e]; [|apply Hidle].
    intros Hrun. apply updateData_grows in Hrun as (l & Hg & Hl & Hm).
    exists l. split; [exact Hg|]. split; [exact Hl|].
    eapply Forall_not_GET; eauto. discriminate. }
  apply Hidle.
Qed.

Lemma Runs_grows url todo s s1 :
  Runs url todo s s1 ->
  exists l, grows s s1 l /\ (List.length l <= List.length todo)%nat /\
            Forall (fun rq => method rq <> GET) l.
Proof.
  induction 1 as [s | a rest s s1 s2 Ha _ (l2 & Hg2 & Hl2 & Hm2)].
  - exists []. split; [apply grows_refl|]. simpl. auto.
  - apply executeAction_grows in Ha as (l1 & Hg1 & Hl1 & Hm1).
    exists (l1 ++ l2). split; [eapply grows_trans; eauto|].
    rewrite length_app, Forall_app. simpl. split; [lia | auto].
Qed.

(** The loop on a list whose first actions succeed. *)
Lemma runActions_Runs url pre s s1 :
  Runs url pre s s1 ->
  forall rest n,
    App.runActions url (pre ++ rest) n s =
    App.runActions url rest (n + N.of_nat (List.length pre)) s1.
Proof.
  induction 1 as [s | a pre s s1 s2 Ha _ IH]; intros rest n.
  - simpl. now rewrite N.add_0_r.
  - cbn [List.app App.runActions]. unfold mbind at 1. rewrite Ha, IH.
    f_equal. cbn [List.length]. rewrite Nat2N.inj_succ. lia.
Qed.

(** The loop stops at an action that fails: what follows is not run. *)
Lemma runActions_fail url a post n s e s' :
  App.executeAction url a s = (Throw e, s') ->
  App.runActions url (a :: post) n s = (Throw e, s').
Proof.
  intros Ha. cbn [App.runActions]. unfold mbind. now rewrite Ha.
Qed.

Lemma runActions_stops url pre a post n s s1 e s2 :
  Runs url pre s s1 ->
  App.executeAction url a s1 = (Throw e, s2) ->
  App.runActions url (pre ++ a :: post) n s = (Throw e, s2).
Proof.
  intros Hpre Ha. rewrite (runActions_Runs url pre s s1 Hpre). now apply runActions_fail.
Qed.

Lemma runActions_all url todo n s s1 :
  Runs url todo s s1 ->
  App.runActions url todo n s = (OK (n + N.of_nat (List.length todo)), s1).
Proof.
  intros Hrun. rewrite <- (app_nil_r todo) at 1.
  now rewrite (runActions_Runs url todo s s1 Hrun).
Qed.

(** Every run of the loop is one or the other. *)
Lemma runActions_cases url todo n s :
  (exists s1, Runs url todo s s1 /\
     App.runActions url todo n s = (OK (n + N.of_nat (List.length todo)), s1)) \/
  (exists pre a post e s1 s2,
     todo = pre ++ a :: post /\ Runs url pre s s1 /\
     App.executeAction url a s1 = (Throw e, s2) /\
     App.runActions url todo n s = (Throw e, s2)).
Proof.
  revert n s. induction todo as [|a todo IH]; intros n s.
  - left. exists s. split; [constructor|]. simpl. now rewrite N.add_0_r.
  - destruct (App.executeAction url a s) as [[[]|e] s1] eqn:Ha.
    + destruct (IH (n + 1) s1) as [(s2 & Hrun & Heq) | (pre & b & post & e & s2 & s3 & -> & Hrun & Hb & Heq)].
      * left. exists s2. split; [econstructor; eauto|].
        cbn [App.runActions]. unfold mbind. rewrite Ha, Heq.
        f_equal. f_equal. cbn [List.length]. rewrite Nat2N.inj_succ. lia.
      * right. exists (a :: pre), b, post, e, s2, s3.
        repeat split; auto; [econstructor; eauto|].
        cbn [List.app App.runActions]. unfold mbind. now rewrite Ha.
    + right. exists [], a, todo, e, s, s1.
      repeat split; auto; [constructor|]. now apply runActions_fail.
Qed.

(** *** The reload *)

Lemma buildEndpoint_root (u : str) :
  buildEndpoint u [] = OK (cleanUrl u ++ lit "/.json").
Proof. reflexivity. Qed.

Lemma fetchRootData_run (s : St) :
  exists s',
    App.fetchRootData None s = (OK tt, s') /\
    sent s' = sent s ++ [rootRequest (app s)] /\
    world s' = snd (fetch (world s) (rootRequest (app s))) /\
    node s' = node s /\ alerts s' = alerts s /\
    loading (app s') = false /\
    showAiModal (app s') = showAiModal (app s) /\
    aiPrompt (app s') = aiPrompt (app s) /\
    aiPath (app s') = aiPath (app s) /\
    aiResult (app s') = aiResult (app s) /\
    (notifications (app s') = notifications (app s) \/
     exists n, notifications (app s') = notifications (app s) ++ [n]).
Proof.
  unfold App.fetchRootData, mbind, getApp, setApp, finally, tryCatch.
  rewrite readData_run. unfold storeCall. rewrite buildEndpoint_root.
  unfold rootRequest, afterFetch, App.notify, mbind, getNow, setApp, ret.
  cbn -[cleanUrl fetch lit Error].
  assert (Hend : forall (l : list Notification),
            (l = l \/ exists n, l = l ++ [n])) by (intros; now left).
  destruct (fetch (world s) _) as [[res|e] w]; cbn -[cleanUrl lit Error].
  2: { eexists. split; [reflexivity|]. cbn -[cleanUrl lit].
       repeat split; try reflexivity. right. eexists. reflexivity. }
  destruct (ok res); cbn -[cleanUrl lit Error].
  2: { destruct (status res =? 401); cbn -[cleanUrl lit Error];
       eexists; (split; [reflexivity|]); cbn -[cleanUrl lit];
       repeat split; try reflexivity; right; eexists; reflexivity. }
  destruct (json res) as [v|e]; cbn -[cleanUrl lit Error].
  - destruct (viewMode (app s)); cbn -[cleanUrl lit Error];
      eexists; (split; [reflexivity|]); cbn -[cleanUrl lit];
      repeat split; try reflexivity; now left.
  - eexists. split; [reflexivity|]. cbn -[cleanUrl lit].
    repeat split; try reflexivity. right. eexists. reflexivity.
Qed.

(** *** The handler *)

Lemma handle_idle (s : St) :
  (aiResult (app s) = None \/
   exists plan, aiResult (app s) = Some plan /\ actions plan = []) ->
  App.handleExecuteAiPlan s = (OK tt, s).
Proof.
  unfold App.handleExecuteAiPlan, mbind, getApp, ret.
  intros [-> | (plan & -> & ->)]; reflexivity.
Qed.

Lemma handle_failure (s : St) plan e s1 :
  aiResult (app s) = Some plan ->
  actions plan <> [] ->
  App.runActions (db_url (dbInfo (app s))) (actions plan) 0 (busy s) = (Throw e, s1) ->
  App.handleExecuteAiPlan s =
  (OK tt,
   mkSt (world s1) (sent s1)
        (afterFailure (app s1)
           (mkNotification error (lit "Error executing plan: " ++ message e)
                           (now (world s1))))
        (node s1) (alerts s1)).
Proof.
  intros Hplan Hne Hrun.
  unfold App.handleExecuteAiPlan, mbind at 1, getApp. rewrite Hplan.
  destruct (actions plan) as [|a0 rest] eqn:Ea; [congruence|].
  unfold mbind at 1, setApp at 1, finally, tryCatch, mbind at 1.
  fold (busy s). rewrite Hrun.
  unfold App.notify, mbind, getNow, setApp. reflexivity.
Qed.

Lemma handle_success (s : St) plan n s1 :
  aiResult (app s) = Some plan ->
  actions plan <> [] ->
  App.runActions (db_url (dbInfo (app s))) (actions plan) 0 (busy s) = (OK n, s1) ->
  exists s',
    App.handleExecuteAiPlan s = (OK tt, s') /\
    sent s' = sent s1 ++ [rootRequest (app s1)] /\
    node s' = node s1 /\ alerts s' = alerts s1 /\
    loading (app s') = false /\
    showAiModal (app s') = false /\
    aiPrompt (app s') = [] /\
    aiPath (app s') = [] /\
    aiResult (app s') = None /\
    exists rest,
      notifications (app s') =
      notifications (app s1) ++
      mkNotification success
        (lit "Successfully executed " ++ decimal n ++ lit " actions.")
        (now (world s1)) :: rest.
Proof.
  intros Hplan Hne Hrun.
  unfold App.handleExecuteAiPlan, mbind at 1, getApp. rewrite Hplan.
  destruct (actions plan) as [|a0 rest] eqn:Ea; [congruence|].
  unfold mbind at 1, setApp at 1, finally, tryCatch, mbind at 1.
  fold (busy s). rewrite Hrun.
  unfold App.notify, mbind, getNow, setApp.
  cbn [world sent app node alerts].
  match goal with
  | |- context [App.fetchRootData None ?st] =>
      destruct (fetchRootData_run st)
        as (s' & -> & Hs & Hw & Hn & Hal & Hl & Hm & Hp & Hpa & Hr & Hnote)
  end.
  cbn [world sent app node alerts] in Hs, Hn, Hal, Hm, Hp, Hpa, Hr, Hnote.
  eexists. split; [reflexivity|]. cbn [world sent app node alerts].
  split; [exact Hs|]. split; [exact Hn|]. split; [exact Hal|].
  split; [reflexivity|]. split; [exact Hm|]. split; [exact Hp|].
  split; [exact Hpa|]. split; [exact Hr|].
  unfold setLoading at 1. cbn [notifications].
  destruct Hnote as [Hnote | [extra Hnote]]; rewrite Hnote.
  - exists []. reflexivity.
  - exists [extra]. cbn [notifications setAiResult setAiPath setAiPrompt setShowAiModal setNotifications].
    now rewrite <- app_assoc.
Qed.

End Executor.

(* ===================================================================== *)
(** ** Properties of the plan executor *)
(* ===================================================================== *)

Section PlanProperties.
Import JS Net Types firebaseService Spec.
Local Open Scope N_scope.
Context {H : Host}.

Lemma afterFailure_busy (a : AppState) (n : Notification) :
  afterFailure (setLoading true a) n = afterFailure a n.
Proof. reflexivity. Qed.

(** What a failed run leaves, in terms of the state [s2] in which the
    failing action ended. *)
Lemma handle_stops (s : St) plan pre a post e s1 s2 :
  aiResult (app s) = Some plan ->
  actions plan = pre ++ a :: post ->
  Runs (db_url (dbInfo (app s))) pre (busy s) s1 ->
  App.executeAction (db_url (dbInfo (app s))) a s1 = (Throw e, s2) ->
  App.handleExecuteAiPlan s =
    (OK tt,
     mkSt (world s2) (sent s2)
          (afterFailure (app s)
             (mkNotification error (lit "Error executing plan: " ++ message e)
                             (now (world s2))))
          (node s) (alerts s)) /\
  exists reqs,
    sent s2 = sent s ++ reqs /\
    (List.length reqs <= S (List.length pre))%nat /\
    Forall (fun rq => method rq <> GET) reqs.
Proof.
  intros Hplan Hact Hpre Ha.
  destruct (Runs_grows _ _ _ _ Hpre) as (l1 & (A1 & N1 & L1 & S1) & Hl1 & Hm1).
  destruct (executeAction_grows _ _ _ _ _ Ha) as (l2 & (A2 & N2 & L2 & S2) & Hl2 & Hm2).
  split.
  - erewrite handle_failure; eauto.
    + rewrite A2, A1, N2, N1, L2, L1. reflexivity.
    + rewrite Hact. now destruct pre.
    + rewrite Hact. eapply runActions_stops; eauto.
  - exists (l1 ++ l2). rewrite S2, S1, <- app_assoc, length_app, Forall_app.
    repeat split; auto. simpl. lia.
Qed.

End PlanProperties.

(** C1, as amended. The engine runs the actions of a confirmed plan in
    list order. When the first [length pre] actions succeed and the next
    one throws [e], the handler ends there: the world and the log of
    requests are those the failing action left (no later action is tried,
    no request undoes an earlier one), and one error notification is
    raised whose text is "Error executing plan: " followed by the message
    of [e]. The number of completed actions is not in that report. *)
Theorem plan_halts_at_first_failure :
  forall (H : Net.Host) (s : Types.St) plan pre a post e s1 s2,
    Types.aiResult (Types.app s) = Some plan ->
    Types.actions plan = pre ++ a :: post ->
    Spec.Runs (Types.db_url (Types.dbInfo (Types.app s))) pre (Spec.busy s) s1 ->
    App.executeAction (Types.db_url (Types.dbInfo (Types.app s))) a s1
      = (JS.Throw e, s2) ->
    App.handleExecuteAiPlan s =
      (JS.OK tt,
       Types.mkSt (Types.world s2) (Types.sent s2)
         (Spec.afterFailure (Types.app s)
            (Types.mkNotification Types.error
               (JS.lit "Error executing plan: " ++ JS.message e)
               (Net.now (Types.world s2))))
         (Types.node s) (Types.alerts s)) /\
    exists reqs,
      Types.sent s2 = Types.sent s ++ reqs /\
      (List.length reqs <= S (List.length pre))%nat /\
      Forall (fun rq => Net.method rq <> Net.GET) reqs.
Proof.
  intros. eapply handle_stops; eauto.
Qed.

(** A run of C1: the DELETE of a two-action plan is refused. *)
Lemma plan_halts_at_first_failure_witness :
  let plan := [Scripted.action "DELETE" "users/1" None;
               Scripted.action "SET" "settings/theme" (Some (JS.Str (JS.lit "dark")))] in
  let s := Scripted.start [Scripted.respond 401 (JS.lit "Unauthorized")]
             (Scripted.withPlan plan) Scripted.node0 in
  exists s',
    App.handleExecuteAiPlan s = (JS.OK tt, s') /\
    List.length (Types.sent s') = 1%nat /\
    Types.aiResult (Types.app s') = Types.aiResult (Types.app s).
Proof.
  intros plan s.
  pose (s2 := snd (App.executeAction (H := Scripted.host)
                     (Types.db_url (Types.dbInfo (Types.app s)))
                     (Scripted.action "DELETE" "users/1" None) (Spec.busy s))).
  destruct (plan_halts_at_first_failure Scripted.host s
              (Types.mkAIResponse (JS.Str (JS.lit "plan")) plan) []
              (Scripted.action "DELETE" "users/1" None)
              [Scripted.action "SET" "settings/theme" (Some (JS.Str (JS.lit "dark")))]
              (JS.Error (JS.lit "Permission Denied (401): Delete blocked."))
              (Spec.busy s) s2
              eq_refl eq_refl (Spec.Runs_nil _ _) eq_refl) as [Hrun _].
  eexists. split; [exact Hrun|]. split; reflexivity.
Defined.

(** C1 as stated fails: two runs that end after 0 and after 1 completed
    actions raise the same report, so no count can be read off it. *)
Lemma failure_report_lacks_count :
  ~ exists countOf, Spec.reportsCount (H := Scripted.host) countOf.
Proof.
  intros [countOf Hc].
  pose (d1 := Scripted.action "DELETE" "users/1" None).
  pose (d2 := Scripted.action "DELETE" "users/2" None).
  pose (denied := Scripted.respond 401 (JS.lit "Unauthorized")).
  pose (fine := Scripted.respond 200 (JS.lit "OK")).
  pose (e := JS.Error (JS.lit "Permission Denied (401): Delete blocked.")).
  (* the first action fails *)
  pose (sA := Scripted.start [denied] (Scripted.withPlan [d1; d2]) Scripted.node0).
  destruct (Hc sA (Types.mkAIResponse (JS.Str (JS.lit "plan")) [d1; d2])
               [] d1 [d2] e (Spec.busy sA)
               (snd (App.executeAction (H := Scripted.host)
                       (JS.lit "https://demo.firebaseio.com") d1 (Spec.busy sA)))
               eq_refl eq_refl (Spec.Runs_nil _ _) eq_refl)
    as (noteA & HA & HcA).
  (* the second action fails *)
  pose (sB := Scripted.start [fine; denied] (Scripted.withPlan [d1; d2]) Scripted.node0).
  pose (sB1 := snd (App.executeAction (H := Scripted.host)
                      (JS.lit "https://demo.firebaseio.com") d1 (Spec.busy sB))).
  destruct (Hc sB (Types.mkAIResponse (JS.Str (JS.lit "plan")) [d1; d2])
               [d1] d2 [] e sB1
               (snd (App.executeAction (H := Scripted.host)
                       (JS.lit "https://demo.firebaseio.com") d2 sB1))
               eq_refl eq_refl
               ltac:(econstructor; [reflexivity | constructor])
               eq_refl)
    as (noteB & HB & HcB).
  vm_compute in HA, HB.
  injection HA as <-. injection HB as <-.
  rewrite HcA in HcB. discriminate.
Qed.

(** C10. Whatever the host and the state, [handleExecuteAiPlan] ends in
    one of three ways. With no plan or an empty plan nothing changes.
    When an action fails, the modal, the prompt, the target path, the
    proposed plan and the data shown are what they were, and every
    request sent is a DELETE, PUT or PATCH of an action: the root is not
    read again. The modal is closed, the prompt, path and plan are
    cleared and the root is read again only in the third case, where
    every action of the plan has succeeded. *)
Theorem failed_plan_keeps_proposal :
  forall (H : Net.Host) (s : Types.St),
  exists s',
    App.handleExecuteAiPlan s = (JS.OK tt, s') /\
    (((Types.aiResult (Types.app s) = None \/
       exists plan, Types.aiResult (Types.app s) = Some plan /\
                    Types.actions plan = []) /\ s' = s)
     \/
     (exists plan pre a post e s1 s2 reqs,
        Types.aiResult (Types.app s) = Some plan /\
        Types.actions plan = pre ++ a :: post /\
        Spec.Runs (Types.db_url (Types.dbInfo (Types.app s))) pre (Spec.busy s) s1 /\
        App.executeAction (Types.db_url (Types.dbInfo (Types.app s))) a s1
          = (JS.Throw e, s2) /\
        Types.showAiModal (Types.app s') = Types.showAiModal (Types.app s) /\
        Types.aiPrompt (Types.app s') = Types.aiPrompt (Types.app s) /\
        Types.aiPath (Types.app s') = Types.aiPath (Types.app s) /\
        Types.aiResult (Types.app s') = Types.aiResult (Types.app s) /\
        Types.data (Types.app s') = Types.data (Types.app s) /\
        Types.sent s' = Types.sent s ++ reqs /\
        Forall (fun rq => Net.method rq <> Net.GET) reqs)
     \/
     (exists plan s1,
        Types.aiResult (Types.app s) = Some plan /\
        Types.actions plan <> [] /\
        Spec.Runs (Types.db_url (Types.dbInfo (Types.app s)))
                  (Types.actions plan) (Spec.busy s) s1 /\
        Types.showAiModal (Types.app s') = false /\
        Types.aiPrompt (Types.app s') = [] /\
        Types.aiPath (Types.app s') = [] /\
        Types.aiResult (Types.app s') = None /\
        Types.sent s' = Types.sent s1 ++ [Spec.rootRequest (Types.app s)])).
Proof.
  intros H s.
  destruct (Types.aiResult (Types.app s)) as [plan|] eqn:Hplan.
  2: { exists s. split; [apply handle_idle; now left|]. left. auto. }
  destruct (Types.actions plan) as [|a0 rest] eqn:Hact.
  { exists s. split; [apply handle_idle; right; eauto|]. left. split; eauto. }
  destruct (runActions_cases (Types.db_url (Types.dbInfo (Types.app s)))
              (Types.actions plan) 0%N (Spec.busy s))
    as [(s1 & Hrun & Heq) | (pre & a & post & e & s1 & s2 & Hsplit & Hpre & Ha & _)].
  - destruct (handle_success s plan
                (0 + N.of_nat (List.length (Types.actions plan)))%N s1 Hplan) as (s' & Hs' & Hsent & _ & _ & _ & Hm & Hp & Hpa & Hr & _).
    { rewrite Hact. discriminate. }
    { exact Heq. }
    exists s'. split; [exact Hs'|]. right. right.
    exists plan, s1.
    destruct (Runs_grows _ _ _ _ Hrun) as (l & (A1 & _) & _).
    repeat split; auto.
    + rewrite Hact. discriminate.
    + rewrite Hsent. unfold Spec.rootRequest. now rewrite A1.
  - destruct (handle_stops s plan pre a post e s1 s2 Hplan Hsplit Hpre Ha)
      as (Hs' & reqs & Hsent & _ & Hget).
    eexists. split; [exact Hs'|]. right. left.
    exists plan, pre, a, post, e, s1, s2, reqs.
    repeat split; auto.
Qed.

(* ===================================================================== *)
(** ** Failing responses *)
(* ===================================================================== *)

Section Failures.
Import JS Net Types firebaseService Spec.
Local Open Scope N_scope.
Context {H : Host}.


Lemma fst_let {A B C} (x : A * B) (f : A -> C) :
  fst (let '(r, s') := x in (f r, s')) = f (fst x).
Proof. now destruct x. Qed.


End Failures.




(* ===================================================================== *)
(** ** The plan generator *)
(* ===================================================================== *)

Section Generator.
Import JS Net Types geminiService Spec.
Local Open Scope N_scope.

(** The parser never yields [undefined]. *)
Lemma parse_defined (fuel : nat) :
  (forall s v r, parseValue fuel s = Some (v, r) -> v <> Undefined) /\
  (forall acc s v r, parseMembers fuel acc s = Some (v, r) -> v <> Undefined) /\
  (forall acc s v r, parseElements fuel acc s = Some (v, r) -> v <> Undefined).
Proof.
  induction fuel as [|fuel (IHv & IHm & IHe)].
  - repeat split; intros; discriminate.
  - repeat split.
    + intros s v r. cbn [parseValue].
      destruct (skipWs s) as [|c t]; [discriminate|].
      destruct (c =? 123).
      { destruct (skipWs t) as [|c2 t2]; [discriminate|].
        destruct (c2 =? 125); [intros [= <- _]; discriminate | apply IHm]. }
      destruct (c =? 91).
      { destruct (skipWs t) as [|c2 t2]; [discriminate|].
        destruct (c2 =? 93); [intros [= <- _]; discriminate | apply IHe]. }
      destruct (c =? 34).
      { destruct (parseStringBody t) as [[x y]|]; [|discriminate].
        intros [= <- _]; discriminate. }
      destruct (afterLiteral (lit "true") (c :: t)); [intros [= <- _]; discriminate|].
      destruct (afterLiteral (lit "false") (c :: t)); [intros [= <- _]; discriminate|].
      destruct (afterLiteral (lit "null") (c :: t)); [intros [= <- _]; discriminate|].
      destruct (parseJsonNumber (c :: t)) as [[x y]|]; [|discriminate].
      intros [= <- _]; discriminate.
    + intros acc s v r. cbn [parseMembers].
      destruct (skipWs s) as [|q t]; [discriminate|].
      destruct (q =? 34); [|discriminate].
      destruct (parseStringBody t) as [[k r1]|]; [|discriminate].
      destruct (skipWs r1) as [|colon r2]; [discriminate|].
      destruct (colon =? 58); [|discriminate].
      destruct (parseValue fuel r2) as [[x r3]|]; [|discriminate].
      destruct (skipWs r3) as [|c3 r4]; [discriminate|].
      destruct (c3 =? 44); [apply IHm|].
      destruct (c3 =? 125); [|discriminate].
      intros [= <- _]; discriminate.
    + intros acc s v r. cbn [parseElements].
      destruct (parseValue fuel s) as [[x r1]|]; [|discriminate].
      destruct (skipWs r1) as [|c r2]; [discriminate|].
      destruct (c =? 44); [apply IHe|].
      destruct (c =? 93); [|discriminate].
      intros [= <- _]; discriminate.
Qed.

Lemma JSON_parse_defined (text : str) (v : value) :
  JSON_parse text = OK v -> v <> Undefined.
Proof.
  unfold JSON_parse.
  destruct (parseValue _ text) as [[x r]|] eqn:E; [|discriminate].
  destruct (skipWs r); [|discriminate]. intros [= <-].
  eapply (proj1 (parse_defined _)); eauto.
Qed.

Context {H : Host}.

(** The state once the generator has answered. *)
Lemma generate_parsed prompt cur keys base s text w parsed m a :
  generateContent (world s) (mkGenRequest prompt cur keys base)
    = (OK (Some text), w) ->
  text <> [] ->
  JSON_parse text = OK parsed ->
  getProp parsed (lit "message") = OK m ->
  getProp parsed (lit "actions") = OK a ->
  generateDataWithAI prompt cur keys base s =
  (OK (mkAIResponse
         (if truthy m then m else Str (lit "Here is the plan."))
         (match a with
          | Arr items => items
          | _ => []
          end)),
   mkSt w (sent s) (app s) (node s) (alerts s)).
Proof.
  intros Hgen Htext Hparse Hm Ha.
  unfold generateDataWithAI, tryCatch, mbind at 1, doGenerate.
  rewrite Hgen. destruct text as [|c text]; [congruence|].
  unfold mbind, liftR, ret. rewrite Hparse, Hm, Ha. reflexivity.
Qed.

Lemma getProp_defined (v : value) (k : str) :
  v <> Undefined -> v <> Null -> exists x, getProp v k = OK x.
Proof.
  intros Hu Hn. destruct v; try congruence; simpl; eauto.
  destruct (lookup k props); eauto.
Qed.

End Generator.

(** C8, as amended. When the generator's text parses as a JSON value
    other than [null] whose [actions] field is not an array, the plan
    returned has no action and nothing is thrown. Its message is the
    [message] field of the response when that field is truthy, whatever
    its type, and the text "Here is the plan." otherwise; so it is a
    string whenever the field is a string or is missing. *)
Theorem non_list_actions_default_to_empty :
  forall (H : Net.Host) (s : Types.St) prompt cur keys base text w parsed,
    Net.generateContent (Types.world s) (Net.mkGenRequest prompt cur keys base)
      = (JS.OK (Some text), w) ->
    JS.JSON_parse text = JS.OK parsed ->
    parsed <> JS.Null ->
    (forall items, JS.getProp parsed (JS.lit "actions") <> JS.OK (JS.Arr items)) ->
    exists field,
      JS.getProp parsed (JS.lit "message") = JS.OK field /\
      fst (geminiService.generateDataWithAI prompt cur keys base s) =
        JS.OK (Types.mkAIResponse
                 (if JS.truthy field then field
                  else JS.Str (JS.lit "Here is the plan."))
                 []) /\
      ((field = JS.Undefined \/ exists t, field = JS.Str t) ->
       exists t, (if JS.truthy field then field
                  else JS.Str (JS.lit "Here is the plan.")) = JS.Str t).
Proof.
  intros H s prompt cur keys base text w parsed Hgen Hparse Hnull Hact.
  pose proof (JSON_parse_defined _ _ Hparse) as Hdef.
  destruct (getProp_defined parsed (JS.lit "message") Hdef Hnull) as [field Hf].
  destruct (getProp_defined parsed (JS.lit "actions") Hdef Hnull) as [a Ha].
  exists field. split; [exact Hf|]. split.
  - assert (Htext : text <> []) by (intros ->; discriminate).
    rewrite (generate_parsed prompt cur keys base s text w parsed field a
               Hgen Htext Hparse Hf Ha).
    cbn [fst]. destruct a; try reflexivity. now elim (Hact items).
  - intros [-> | [t ->]]; [eexists; reflexivity|].
    destruct t; eexists; reflexivity.
Qed.

(** A run of C8: [actions] is a string, [message] is missing. *)
Lemma non_list_actions_default_to_empty_witness :
  let s := Scripted.answering (Scripted.json "{'actions':'none'}") in
  fst (geminiService.generateDataWithAI (H := Scripted.host)
         (JS.lit "tidy up") JS.Null [] [] s)
  = JS.OK (Types.mkAIResponse (JS.Str (JS.lit "Here is the plan.")) []).
Proof.
  intros s.
  destruct (non_list_actions_default_to_empty Scripted.host s
              (JS.lit "tidy up") JS.Null [] [] _ _ _ eq_refl eq_refl
              ltac:(discriminate) ltac:(discriminate))
    as (field & Hf & Hrun & _).
  injection Hf as <-. exact Hrun.
Defined.

(** C8 as stated fails twice. The text [null] parses as JSON and has no
    list of actions, yet an error escapes; and a response whose message
    is the number 42 gives a plan whose message is not a string. *)
Lemma null_response_throws :
  let run text := fst (geminiService.generateDataWithAI (H := Scripted.host)
                         (JS.lit "tidy up") JS.Null [] []
                         (Scripted.answering (Scripted.json text))) in
  JS.JSON_parse (JS.lit "null") = JS.OK JS.Null /\
  run "null"%string =
    JS.Throw (JS.Error (JS.lit "AI Error: AI response was not valid JSON.")) /\
  run "{'message':42,'actions':7}"%string =
    JS.OK (Types.mkAIResponse (JS.Num (JS.ofInteger false 42)) []).
Proof.
  vm_compute. repeat split.
Qed.

(** C2, as amended. No step of the pipeline checks the kind of an
    action. An action whose [path] is a string and whose [type] is none
    of ["DELETE"], ["SET"], ["UPDATE"] is not rejected: executing it
    sends nothing, changes nothing and succeeds, and the loop goes on
    with the next action, having counted it. The generator hands over the
    items of the [actions] array of the response as they are. *)
Theorem unknown_kind_runs_as_noop :
  forall (H : Net.Host),
    (forall (url : JS.str) (action : JS.value) (p : JS.str) (ty : JS.value)
            (rest : list JS.value) (n : N) (s : Types.St),
       JS.getProp action (JS.lit "path") = JS.OK (JS.Str p) ->
       JS.getProp action (JS.lit "type") = JS.OK ty ->
       App.isStr ty (JS.lit "DELETE") = false ->
       App.isStr ty (JS.lit "SET") = false ->
       App.isStr ty (JS.lit "UPDATE") = false ->
       App.executeAction url action s = (JS.OK tt, s) /\
       App.runActions url (action :: rest) n s
         = App.runActions url rest (n + 1)%N s) /\
    (forall (s : Types.St) prompt cur keys base text w parsed items,
       Net.generateContent (Types.world s)
         (Net.mkGenRequest prompt cur keys base) = (JS.OK (Some text), w) ->
       JS.JSON_parse text = JS.OK parsed ->
       JS.getProp parsed (JS.lit "actions") = JS.OK (JS.Arr items) ->
       exists m,
         fst (geminiService.generateDataWithAI prompt cur keys base s)
           = JS.OK (Types.mkAIResponse m items)).
Proof.
  intros H. split.
  - intros url action p ty rest n s Hp Hty Hd Hs Hu.
    assert (Hrun : App.executeAction url action s = (JS.OK tt, s)).
    { unfold App.executeAction, Types.mbind, Types.liftR, Types.ret.
      rewrite Hp, Hty, Hd, Hs, Hu. reflexivity. }
    split; [exact Hrun|].
    cbn [App.runActions]. unfold Types.mbind. now rewrite Hrun.
  - intros s prompt cur keys base text w parsed items Hgen Hparse Hact.
    assert (Htext : text <> []) by (intros ->; discriminate).
    assert (Hm : exists field, JS.getProp parsed (JS.lit "message") = JS.OK field).
    { destruct parsed; try discriminate; simpl; eauto.
      destruct (JS.lookup (JS.lit "message") props); eauto. }
    destruct Hm as [field Hm]. eexists.
    rewrite (generate_parsed prompt cur keys base s text w parsed field
               (JS.Arr items) Hgen Htext Hparse Hm Hact).
    reflexivity.
Qed.

(** A run of C2: a MOVE between two known actions. *)
Lemma unknown_kind_runs_as_noop_witness :
  let s := Scripted.start [] Scripted.app0 Scripted.node0 in
  let move := Scripted.action "MOVE" "users/1" None in
  App.executeAction (H := Scripted.host) (JS.lit "demo") move s = (JS.OK tt, s) /\
  App.runActions (JS.lit "demo") [move] 4%N s = (JS.OK 5%N, s).
Proof.
  intros s move.
  exact (proj1 (unknown_kind_runs_as_noop Scripted.host) (JS.lit "demo") move
           (JS.lit "users/1") (JS.Str (JS.lit "MOVE")) [] 4%N s
           eq_refl eq_refl eq_refl eq_refl eq_refl).
Defined.

(** C2 as stated fails: the generator passes a MOVE action on, and the
    plan made of it is reported as successfully executed although the
    only request sent is the reload. *)
Lemma unknown_kind_reported_done :
  let move := Scripted.action "MOVE" "users/1" None in
  let text := Scripted.json
    "{'message':'ok','actions':[{'type':'MOVE','path':'users/1'}]}" in
  let s := Scripted.start [] (Scripted.withPlan [move]) Scripted.node0 in
  let s' := snd (App.handleExecuteAiPlan (H := Scripted.host) s) in
  fst (geminiService.generateDataWithAI (H := Scripted.host)
         (JS.lit "tidy up") JS.Null [] [] (Scripted.answering text))
    = JS.OK (Types.mkAIResponse (JS.Str (JS.lit "ok")) [move]) /\
  fst (App.handleExecuteAiPlan s) = JS.OK tt /\
  Types.notifications (Types.app s') =
    [Types.mkNotification Types.success
       (JS.lit "Successfully executed 1 actions.") 0%N] /\
  Types.sent s' =
    [Net.mkRequest (JS.lit "https://demo.firebaseio.com/.json") Net.GET None].
Proof.
  vm_compute. repeat split.
Qed.

(* ===================================================================== *)
(** ** The handlers of a node *)
(* ===================================================================== *)

Section NodeHandlers.
Import JS Net Types firebaseService Spec.
Local Open Scope N_scope.
Context {H : Host}.

(** A write followed by the reload, as both handlers of a node do it:
    the PUT goes out first, and the handler itself never throws. *)
Lemma write_then (u p : str) (v : value) (ep : str) (s : St)
      (k : M unit) (onError : M unit) :
  buildEndpoint u p = OK ep ->
  (forall st, exists st' l, k st = (OK tt, st') /\ sent st' = sent st ++ l) ->
  (forall st, exists st', onError st = (OK tt, st') /\ sent st' = sent st) ->
  exists rest s',
    tryCatch (mbind (writeData u p v) (fun _ => k)) (fun _ => onError) s
      = (OK tt, s') /\
    sent s' = sent s ++ mkRequest ep PUT (Some v) :: rest.
Proof.
  intros Hep Hk Herr. unfold tryCatch, mbind.
  rewrite writeData_run. unfold storeCall. rewrite Hep. cbv zeta.
  set (rq := mkRequest ep PUT (Some v)).
  destruct (fst (fetch (world s) rq)) as [res|e]; cbn [bind].
  2: { destruct (Herr (afterFetch s rq)) as (st' & -> & Hs).
       exists [], st'. split; [reflexivity|]. now rewrite Hs. }
  destruct (ok res); cbn [bind].
  - destruct (Hk (afterFetch s rq)) as (st' & l & -> & Hs).
    exists l, st'. split; [reflexivity|]. rewrite Hs. cbn [afterFetch sent].
    now rewrite <- app_assoc.
  - destruct (status res =? 401); cbn [bind];
      destruct (Herr (afterFetch s rq)) as (st' & -> & Hs);
      exists [], st'; (split; [reflexivity|]); now rewrite Hs.
Qed.

Lemma finally_OK {A} (m : M A) (f : NodeState -> NodeState) (s : St) r s' :
  m s = (r, s') ->
  finally m (setNode f) s =
  (r, mkSt (world s') (sent s') (app s') (f (node s')) (alerts s')).
Proof. intros Hm. unfold finally, setNode. now rewrite Hm. Qed.

Lemma tryCatch_getNode {A} (F : NodeState -> M A) (h : JSError -> M A) (s : St) :
  tryCatch (mbind getNode F) h s = tryCatch (F (node s)) h s.
Proof. reflexivity. Qed.

Lemma alert_run (msg : str) (st : St) :
  exists st', alert msg st = (OK tt, st') /\ sent st' = sent st.
Proof. eexists. split; reflexivity. Qed.

Lemma setNode_then_refresh (fs : list (NodeState -> NodeState)) (st : St) :
  exists st' l,
    fold_right (fun f k => mbind (setNode f) (fun _ => k))
               (App.fetchRootData None) fs st = (OK tt, st') /\
    sent st' = sent st ++ l.
Proof.
  revert st. induction fs as [|f fs IH]; intros st; cbn [fold_right].
  - destruct (fetchRootData_run st) as (st' & Hrun & Hs & _).
    exists st', [rootRequest (app st)]. auto.
  - unfold mbind at 1, setNode at 1.
    destruct (IH (mkSt (world st) (sent st) (app st) (f (node st)) (alerts st)))
      as (st' & l & Hrun & Hs).
    exists st', l. auto.
Qed.

(** [handleSave] sends the PUT of the inferred value at the node's path,
    and ends without an exception whatever the store answers. *)
Lemma handleSave_run path name v0 dbUrl depth ep (s : St) :
  buildEndpoint dbUrl (DataNode.displayPath path name) = OK ep ->
  exists rest s',
    DataNode.handleSave (App.nodeProps path name v0 dbUrl depth) s = (OK tt, s') /\
    sent s' = sent s ++
      mkRequest ep PUT (Some (DataNode.smartParse (editValue (node s)))) :: rest.
Proof.
  intros Hep. unfold DataNode.handleSave, App.nodeProps.
  cbn [DataNode.dbUrl DataNode.path DataNode.name DataNode.onRefresh].
  unfold mbind at 1, setNode at 1.
  set (s0 := mkSt (world s) (sent s) (app s) (setNodeLoading true (node s)) (alerts s)).
  cbv zeta.
  destruct (write_then dbUrl (DataNode.displayPath path name)
              (DataNode.smartParse (editValue (node s0))) ep s0
              (mbind (setNode (setIsEditing false)) (fun _ => App.fetchRootData None))
              (alert (lit "Failed to save data. Check your format."))
              Hep
              (setNode_then_refresh [setIsEditing false])
              (alert_run _)) as (rest & s' & Hrun & Hs).
  exists rest. eexists. split.
  - apply finally_OK. rewrite tryCatch_getNode. exact Hrun.
  - exact Hs.
Qed.

Lemma dropWhile_snoc f (l : str) (c : N) :
  f c = false -> dropWhile f (l ++ [c]) = dropWhile f l ++ [c].
Proof.
  intros Hc. induction l as [|a l IH]; simpl; [now rewrite Hc|].
  now destruct (f a).
Qed.

Lemma trim_head (c : N) (t : str) :
  isWhiteSpace c = false -> exists t', trim (c :: t) = c :: t'.
Proof.
  intros Hc. unfold trim. cbn [dropWhile]. rewrite Hc.
  unfold dropWhileEnd. cbn [rev]. rewrite dropWhile_snoc by exact Hc.
  rewrite rev_app_distr. simpl. eauto.
Qed.

(** A text that starts with a brace or a bracket is not a number. *)
Lemma Number_bracket (raw : str) :
  startsWith (lit "{") raw || startsWith (lit "[") raw = true ->
  Number raw = S754_nan.
Proof.
  intros Hraw.
  assert (Hc : exists c t, raw = c :: t /\ (c = 123 \/ c = 91)).
  { destruct raw as [|c t]; [discriminate|]. exists c, t. split; [reflexivity|].
    apply orb_true_iff in Hraw as [Hb | Hb];
      apply startsWith_prefix in Hb as [r Hr]; injection Hr as -> _; auto. }
  destruct Hc as (c & t & -> & Hc).
  destruct (trim_head c t) as [t' Ht]; [destruct Hc as [-> | ->]; reflexivity|].
  unfold Number. rewrite Ht.
  destruct Hc as [-> | ->]; destruct t' as [|a [|b t']]; reflexivity.
Qed.

Lemma bracket_not_literal (raw : str) :
  startsWith (lit "{") raw || startsWith (lit "[") raw = true ->
  str_eqb raw (lit "true") = false /\ str_eqb raw (lit "false") = false.
Proof.
  intros Hraw. split; apply str_eqb_neq; intros ->; discriminate.
Qed.


End NodeHandlers.

(** C4. Committing an inline edit never throws and sends one PUT at the
    node's own path. Its value follows the precedence of the claim on
    every text that [Number] turns into a finite number or into NaN:
    [true] and [false] give the booleans; [null] gives null; a text
    that is not blank and is a finite number gives that number; a text
    that is blank or not a number gives its JSON value when it parses
    as JSON and the raw string when it does not. The code departs from
    the claim on the texts that [Number] turns into an infinity: it
    tests that the number is not NaN where the claim asks for a finite
    number, so it commits the infinite number, which [JSON.stringify]
    writes as [null], where the precedence of the claim gives the JSON
    value of the text or the raw string. *)
Theorem edit_precedence_breaks_on_infinity :
  forall (H : Net.Host) (s : Types.St) (path name : JS.str) (v0 : JS.value)
         (dbUrl : JS.str) (depth : nat) (ep : JS.str),
    firebaseService_url.buildEndpoint dbUrl (DataNode.displayPath path name)
      = JS.OK ep ->
    let raw := Types.editValue (Types.node s) in
    let v := DataNode.smartParse raw in
    (exists rest s',
       DataNode.handleSave (App.nodeProps path name v0 dbUrl depth) s
         = (JS.OK tt, s') /\
       Types.sent s' =
         Types.sent s ++ Net.mkRequest ep Net.PUT (Some v) :: rest) /\
    (raw = JS.lit "true" -> v = JS.Bool true) /\
    (raw = JS.lit "false" -> v = JS.Bool false) /\
    (raw = JS.lit "null" -> v = JS.Null) /\
    (raw <> JS.lit "true" -> raw <> JS.lit "false" -> raw <> JS.lit "null" ->
     (JS.isFinite (JS.Number raw) = true -> JS.trim raw <> [] ->
      v = JS.Num (JS.Number raw)) /\
     (JS.isNaN (JS.Number raw) = true \/ JS.trim raw = [] ->
      match JS.JSON_parse raw with
      | JS.OK parsed => v = parsed
      | JS.Throw _ => v = JS.Str raw
      end)) /\
    (JS.isFinite (JS.Number raw) || JS.isNaN (JS.Number raw) = true ->
     v = Spec.inferredPerSpec raw) /\
    (JS.isFinite (JS.Number raw) || JS.isNaN (JS.Number raw) = false ->
     v = JS.Num (JS.Number raw) /\
     JS.stringified v = Some JS.Null /\
     Spec.inferredPerSpec raw =
       match JS.JSON_parse raw with
       | JS.OK parsed => parsed
       | JS.Throw _ => JS.Str raw
       end).
Proof.
  intros H s path name v0 dbUrl depth ep Hep raw v.
  split; [now apply handleSave_run|].
  subst v. unfold DataNode.smartParse, Spec.inferredPerSpec.
  split; [intros ->; reflexivity|].
  split; [intros ->; reflexivity|].
  split; [intros ->; reflexivity|].
  split; [|split].
  - intros Ht Hf Hn.
    apply str_eqb_neq in Ht, Hf, Hn. rewrite Ht, Hf, Hn.
    split.
    + intros Hfin Hblank. apply str_eqb_neq in Hblank. rewrite Hblank.
      destruct (JS.Number raw); try discriminate; reflexivity.
    + intros [Hnan | Hblank].
      * rewrite Hnan. cbn [negb andb]. now destruct (JS.JSON_parse raw).
      * apply str_eqb_eq in Hblank. rewrite Hblank, andb_false_r.
        now destruct (JS.JSON_parse raw).
  - intros Hnum.
    destruct (JS.str_eqb raw (JS.lit "true")); [reflexivity|].
    destruct (JS.str_eqb raw (JS.lit "false")); [reflexivity|].
    destruct (JS.str_eqb raw (JS.lit "null")); [reflexivity|].
    destruct (JS.Number raw); try discriminate; reflexivity.
  - intros Hinf.
    assert (Hlit : forall t, JS.isFinite (JS.Number t) || JS.isNaN (JS.Number t) = true ->
                             JS.str_eqb raw t = false).
    { intros t Ht. apply str_eqb_neq. intros ->. congruence. }
    rewrite (Hlit (JS.lit "true")), (Hlit (JS.lit "false")), (Hlit (JS.lit "null"))
      by (vm_compute; reflexivity).
    assert (Hblank : JS.str_eqb (JS.trim raw) [] = false).
    { apply str_eqb_neq. intros Hb. unfold JS.Number in Hinf. rewrite Hb in Hinf.
      discriminate. }
    rewrite Hblank.
    destruct (JS.Number raw); try discriminate; repeat split.
Qed.

(** A run of C4 at the failing input: the text [Infinity] is committed
    as the infinite number, sent in the PUT at the node's path, and
    written [null], where the precedence of the claim leaves it the
    string it is. *)
Lemma edit_precedence_breaks_on_infinity_witness :
  let raw := JS.lit "Infinity" in
  let s := Scripted.start [] Scripted.app0 (Scripted.editing raw) in
  (exists rest s',
     DataNode.handleSave (H := Scripted.host)
       (App.nodeProps [] (JS.lit "count") JS.Null (JS.lit "demo") 0) s
       = (JS.OK tt, s') /\
     Types.sent s' =
       Net.mkRequest (JS.lit "https://demo.firebaseio.com/count.json") Net.PUT
         (Some (JS.Num (S754_infinity false))) :: rest) /\
  JS.stringified (JS.Num (S754_infinity false)) = Some JS.Null /\
  Spec.inferredPerSpec raw = JS.Str raw.
Proof.
  intros raw s.
  destruct (edit_precedence_breaks_on_infinity Scripted.host s [] (JS.lit "count")
              JS.Null (JS.lit "demo") 0
              (JS.lit "https://demo.firebaseio.com/count.json") eq_refl)
    as (Hrun & _ & _ & _ & _ & _ & Hinf).
  destruct (Hinf ltac:(vm_compute; reflexivity)) as (_ & Hwire & Hspec).
  exact (conj Hrun (conj Hwire Hspec)).
Defined.




(* ===================================================================== *)
(** ** The first render of the tree *)
(* ===================================================================== *)

Section Rendering.
Import JS Types Spec DataNode.
Local Open Scope N_scope.










End Rendering.




(* ===================================================================== *)
(** ** URL normalisation and endpoints *)
(* ===================================================================== *)

(** C3, as amended. Normalising twice gives the same as normalising once
    exactly when the normalised text ends with neither white space, nor
    a slash, nor [.json]; this is the case for every bare identifier of
    letters, digits and hyphens, which normalises to [https://], the
    identifier and [.firebaseio.com]. *)
Theorem cleanUrl_idempotent_when_settled :
  forall x : JS.str,
    (firebaseService_url.cleanUrl (firebaseService_url.cleanUrl x)
       = firebaseService_url.cleanUrl x
     <-> Spec.settled (firebaseService_url.cleanUrl x) = true) /\
    (firebaseService_url.isProjectId x = true ->
     firebaseService_url.cleanUrl x
       = JS.lit "https://" ++ x ++ JS.lit ".firebaseio.com" /\
     firebaseService_url.cleanUrl (firebaseService_url.cleanUrl x)
       = firebaseService_url.cleanUrl x).
Proof.
  intros x. split.
  - split.
    + apply cleanUrl_fixed_settled, cleanUrl_scheme.
    + apply cleanUrl_fixed, cleanUrl_scheme.
  - intros Hid. split; [now apply cleanUrl_projectId|].
    apply cleanUrl_fixed; [apply cleanUrl_scheme|].
    rewrite (cleanUrl_projectId x Hid). apply projectId_form_settled.
Qed.

(** A run of C3: the identifier of the specification. *)
Lemma cleanUrl_idempotent_when_settled_witness :
  firebaseService_url.cleanUrl (JS.lit "my-project")
    = JS.lit "https://my-project.firebaseio.com" /\
  firebaseService_url.cleanUrl
    (firebaseService_url.cleanUrl (JS.lit "my-project"))
    = firebaseService_url.cleanUrl (JS.lit "my-project").
Proof.
  exact (proj2 (cleanUrl_idempotent_when_settled (JS.lit "my-project")) eq_refl).
Defined.

(** C3 as stated fails: the REST address of a database root loses its
    [.json] in the first pass and its slash only in the second. *)
Lemma cleanUrl_not_idempotent :
  let x := JS.lit "https://demo.firebaseio.com/.json" in
  firebaseService_url.cleanUrl x = JS.lit "https://demo.firebaseio.com/" /\
  firebaseService_url.cleanUrl (firebaseService_url.cleanUrl x)
    = JS.lit "https://demo.firebaseio.com" /\
  firebaseService_url.cleanUrl (firebaseService_url.cleanUrl x)
    <> firebaseService_url.cleanUrl x.
Proof.
  vm_compute. repeat split. discriminate.
Qed.

(* ===================================================================== *)
(** ** Concrete runs *)
(* ===================================================================== *)

(** The inputs of property 6 of the specification, through [handleSave]'s
    parsing block. *)
Example smartParse_examples :
  DataNode.smartParse (JS.lit "true") = JS.Bool true /\
  DataNode.smartParse (JS.lit "42") = JS.Num (JS.ofInteger false 42) /\
  DataNode.smartParse (JS.lit "null") = JS.Null /\
  DataNode.smartParse (Scripted.json "{'x':1}")
    = JS.Obj [(JS.lit "x", JS.Num (JS.ofInteger false 1))] /\
  DataNode.smartParse (JS.lit "hello") = JS.Str (JS.lit "hello").
Proof. vm_compute. repeat split. Qed.

Example Number_examples :
  JS.Number (JS.lit "0.1") = S754_finite false 7205759403792794 (-56) /\
  JS.Number (JS.lit "1e3") = JS.ofInteger false 1000 /\
  JS.Number (JS.lit "0x1F") = JS.ofInteger false 31 /\
  JS.Number (JS.lit " 7 ") = JS.ofInteger false 7 /\
  JS.Number (JS.lit " ") = S754_zero false /\
  JS.Number (JS.lit "-0") = S754_zero true /\
  JS.Number (JS.lit "1.7976931348623157e308")
    = S754_finite false 9007199254740991 971 /\
  JS.Number (JS.lit "1.7976931348623159e308") = S754_infinity false /\
  JS.Number (JS.lit "5e-324") = S754_finite false 1 (-1074) /\
  JS.Number (JS.lit "2e-324") = S754_zero false /\
  JS.Number (JS.lit "1e") = S754_nan /\
  JS.Number (JS.lit "12px") = S754_nan.
Proof. vm_compute. repeat split. Qed.

Example JSON_parse_examples :
  JS.JSON_parse (Scripted.json " [1, {'a': [true, null]}, 'x\n'] ")
    = JS.OK (JS.Arr [JS.Num (JS.ofInteger false 1);
                     JS.Obj [(JS.lit "a", JS.Arr [JS.Bool true; JS.Null])];
                     JS.Str (JS.lit "x" ++ [10%N])]) /\
  JS.JSON_parse (Scripted.json "{'a':1,'a':2}")
    = JS.OK (JS.Obj [(JS.lit "a", JS.Num (JS.ofInteger false 2))]) /\
  JS.JSON_parse (JS.lit "[[[[[[[[1]]]]]]]]")
    = JS.OK (JS.Arr [JS.Arr [JS.Arr [JS.Arr [JS.Arr [JS.Arr [JS.Arr
        [JS.Arr [JS.Num (JS.ofInteger false 1)]]]]]]]]) /\
  JS.JSON_parse (JS.lit "01") = JS.Throw (JS.SyntaxError JS.badJSON) /\
  JS.JSON_parse (JS.lit "[1,]") = JS.Throw (JS.SyntaxError JS.badJSON) /\
  JS.JSON_parse (JS.lit "Infinity") = JS.Throw (JS.SyntaxError JS.badJSON) /\
  JS.JSON_parse (JS.lit "") = JS.Throw (JS.SyntaxError JS.badJSON).
Proof. vm_compute. repeat split. Qed.

Example buildEndpoint_examples :
  firebaseService_url.buildEndpoint (JS.lit "demo") []
    = JS.OK (JS.lit "https://demo.firebaseio.com/.json") /\
  firebaseService_url.buildEndpoint (JS.lit " http://localhost:9000/ ")
      (JS.lit "//users/a b/")
    = JS.OK (JS.lit "http://localhost:9000/users/a%20b/.json") /\
  firebaseService_url.buildEndpoint (JS.lit "demo") [233; 55357; 56832]%N
    = JS.OK (JS.lit "https://demo.firebaseio.com/%C3%A9%F0%9F%98%80.json") /\
  firebaseService_url.buildEndpoint (JS.lit "demo") [55357]%N
    = JS.Throw (JS.URIError JS.uriMalformed).
Proof. vm_compute. repeat split. Qed.

(** Property 7 of the specification on the scripted host: both actions
    go out in order, then the reload. *)
Example plan_of_two_actions :
  let plan := [Scripted.action "DELETE" "users/1" None;
               Scripted.action "SET" "/settings/theme"
                 (Some (JS.Str (JS.lit "dark")))] in
  let s' := snd (App.handleExecuteAiPlan (H := Scripted.host)
                   (Scripted.start [] (Scripted.withPlan plan) Scripted.node0)) in
  Types.sent s' =
    [Net.mkRequest (JS.lit "https://demo.firebaseio.com/users/1.json")
       Net.DELETE None;
     Net.mkRequest (JS.lit "https://demo.firebaseio.com/settings/theme.json")
       Net.PUT (Some (JS.Str (JS.lit "dark")));
     Net.mkRequest (JS.lit "https://demo.firebaseio.com/.json") Net.GET None] /\
  Types.notifications (Types.app s') =
    [Types.mkNotification Types.success
       (JS.lit "Successfully executed 2 actions.") 0%N] /\
  Types.showAiModal (Types.app s') = false /\
  Types.aiResult (Types.app s') = None.
Proof. vm_compute. repeat split. Qed.

(* ===================================================================== *)
(** ** More on URL normalisation and endpoints *)
(* ===================================================================== *)

Section MoreStrings.
Import JS firebaseService_url Spec SpecRest.
Local Open Scope N_scope.

Lemma dropWhile_app_all f (a y : str) :
  forallb f a = true -> dropWhile f (a ++ y) = dropWhile f y.
Proof.
  induction a as [|c a IH]; simpl; [reflexivity|].
  intros Ha. apply andb_true_iff in Ha as [-> Ha]. auto.
Qed.

Lemma dropWhile_nil_all f (x : str) :
  dropWhile f x = [] <-> forallb f x = true.
Proof.
  induction x as [|c x IH]; simpl; [tauto|].
  destruct (f c); simpl; [exact IH|]. split; discriminate.
Qed.

Lemma dropWhile_app_keep f (x b : str) :
  dropWhile f x <> [] -> dropWhile f (x ++ b) = dropWhile f x ++ b.
Proof.
  induction x as [|c x IH]; simpl; [congruence|].
  destruct (f c); auto.
Qed.

Lemma dropWhileEnd_app_all f (y b : str) :
  forallb f b = true -> dropWhileEnd f (y ++ b) = dropWhileEnd f y.
Proof.
  intros Hb. unfold dropWhileEnd. rewrite rev_app_distr.
  rewrite dropWhile_app_all by now rewrite forallb_rev. reflexivity.
Qed.

(** White space around a text does not change what [trim] gives. *)
Lemma trim_outer (a x b : str) :
  forallb isWhiteSpace a = true -> forallb isWhiteSpace b = true ->
  trim (a ++ x ++ b) = trim x.
Proof.
  intros Ha Hb. unfold trim. rewrite (dropWhile_app_all _ _ _ Ha).
  destruct (dropWhile isWhiteSpace x) as [|c y] eqn:Ex.
  - apply dropWhile_nil_all in Ex.
    assert (Hall : forallb isWhiteSpace (x ++ b) = true)
      by (rewrite forallb_app, Ex, Hb; reflexivity).
    apply dropWhile_nil_all in Hall. now rewrite Hall.
  - rewrite dropWhile_app_keep by (rewrite Ex; discriminate).
    rewrite Ex. now apply dropWhileEnd_app_all.
Qed.

Lemma dropWhile_twice f (s : str) :
  dropWhile f (dropWhile f s) = dropWhile f s.
Proof.
  induction s as [|c s IH]; simpl; [reflexivity|].
  destruct (f c) eqn:E; [exact IH|]. simpl. now rewrite E.
Qed.

(** The endpoint of a path is that of the path without its leading
    slashes. *)
Lemma buildEndpoint_stripped (b p : str) :
  buildEndpoint b p = buildEndpoint b (stripLeadingSlashes p).
Proof.
  destruct p as [|c p]; [reflexivity|].
  destruct (stripLeadingSlashes (c :: p)) as [|d q] eqn:Es.
  - unfold buildEndpoint, encodeSegments. rewrite Es. reflexivity.
  - unfold buildEndpoint, encodeSegments. rewrite <- Es.
    unfold stripLeadingSlashes. now rewrite dropWhile_twice.
Qed.

Lemma encodeURIComponent_plain (s : str) :
  forallb uriUnreserved s = true -> encodeURIComponent s = OK s.
Proof.
  induction s as [|c s IH]; simpl; [reflexivity|].
  intros Hs. apply andb_true_iff in Hs as [-> Hs]. now rewrite IH.
Qed.

Lemma join_split (sep : N) (s : str) : join [sep] (split sep s) = s.
Proof.
  induction s as [|c s IH]; [reflexivity|]. cbn [split].
  destruct (N.eqb_spec c sep) as [-> | Hc].
  - pose proof (split_nonempty sep s) as Hne.
    destruct (split sep s) as [|seg rest]; [congruence|].
    change (join [sep] ([] :: seg :: rest)) with ([] ++ [sep] ++ join [sep] (seg :: rest)).
    now rewrite IH.
  - destruct (split sep s) as [|seg rest] eqn:Es.
    + now apply split_nonempty in Es.
    + destruct rest as [|seg' rest'].
      * simpl in *. now rewrite IH.
      * change (join [sep] ((c :: seg) :: seg' :: rest'))
          with (c :: (seg ++ [sep] ++ join [sep] (seg' :: rest'))).
        f_equal. exact IH.
Qed.

Lemma split_segments_no_sep (sep : N) (s seg : str) :
  In seg (split sep s) -> ~ In sep seg.
Proof.
  revert seg. induction s as [|c s IH]; simpl; intros seg.
  - intros [<- | []]. tauto.
  - destruct (N.eqb_spec c sep) as [-> | Hc].
    + intros [<- | Hin]; [tauto | auto].
    + destruct (split sep s) as [|seg0 segs] eqn:Es.
      * intros [<- | []]. simpl. intros [? | []]. congruence.
      * intros [<- | Hin].
        -- simpl. intros [? | Hin]; [congruence|]. apply (IH seg0); [now left | exact Hin].
        -- apply IH. now right.
Qed.

Lemma mapM_same {A} (f : A -> result A) (l : list A) :
  (forall x, In x l -> f x = OK x) -> mapM f l = OK l.
Proof.
  induction l as [|x l IH]; intros Hl; simpl; [reflexivity|].
  rewrite (Hl x (or_introl eq_refl)). simpl.
  rewrite IH by (intros; apply Hl; now right). reflexivity.
Qed.

Lemma stripLeadingSlashes_units (p : str) (c : N) :
  In c (stripLeadingSlashes p) -> In c p.
Proof.
  unfold stripLeadingSlashes. induction p as [|a p IH]; simpl; [tauto|].
  destruct (isSlash a); [right; auto | tauto].
Qed.

(** *** What an encoded text is made of *)

Lemma hexDigit_unreserved (n : N) : n < 16 -> uriUnreserved (hexDigit n) = true.
Proof.
  intros Hn. unfold hexDigit. destruct (n <? 10) eqn:E.
  - apply N.ltb_lt in E.
    assert (Hd : isDigit (48 + n) = true)
      by (unfold isDigit; rewrite andb_true_iff, !N.leb_le; lia).
    unfold uriUnreserved. now rewrite Hd, orb_true_r.
  - apply N.ltb_ge in E.
    assert (Ha : isAlpha (55 + n) = true)
      by (unfold isAlpha; rewrite orb_true_iff, !andb_true_iff, !N.leb_le; lia).
    unfold uriUnreserved. now rewrite Ha.
Qed.

Lemma unreserved_pathUnit (c : N) : uriUnreserved c = true -> pathUnit c = true.
Proof. unfold pathUnit. now intros ->. Qed.

Lemma literal_units (P : N -> bool) (l : str) :
  forallb P l = true -> Forall (fun c => P c = true) l.
Proof. intros Hl. apply Forall_forall. now apply forallb_forall. Qed.

Lemma pctOctet_units (b : N) :
  b < 256 -> Forall (fun c => pathUnit c = true) (pctOctet b).
Proof.
  intros Hb. unfold pctOctet.
  assert (H1 : b / 16 < 16) by (apply N.Div0.div_lt_upper_bound; lia).
  assert (H2 : b mod 16 < 16) by (apply N.mod_lt; lia).
  constructor; [reflexivity|].
  constructor; [now apply unreserved_pathUnit, hexDigit_unreserved|].
  constructor; [now apply unreserved_pathUnit, hexDigit_unreserved|]. constructor.
Qed.

Lemma utf8_octets (cp : N) : cp < 1114112 -> Forall (fun b => b < 256) (utf8 cp).
Proof.
  intros Hcp. unfold utf8.
  destruct (cp <? 128) eqn:E1; [apply N.ltb_lt in E1; repeat constructor; lia|].
  destruct (cp <? 2048) eqn:E2.
  { apply N.ltb_lt in E2.
    assert (cp / 64 < 32) by (apply N.Div0.div_lt_upper_bound; lia).
    assert (cp mod 64 < 64) by (apply N.mod_lt; lia).
    repeat constructor; lia. }
  destruct (cp <? 65536) eqn:E3.
  { apply N.ltb_lt in E3.
    assert (cp / 4096 < 16) by (apply N.Div0.div_lt_upper_bound; lia).
    assert ((cp / 64) mod 64 < 64) by (apply N.mod_lt; lia).
    assert (cp mod 64 < 64) by (apply N.mod_lt; lia).
    repeat constructor; lia. }
  assert (cp / 262144 < 5) by (apply N.Div0.div_lt_upper_bound; lia).
  assert ((cp / 4096) mod 64 < 64) by (apply N.mod_lt; lia).
  assert ((cp / 64) mod 64 < 64) by (apply N.mod_lt; lia).
  assert (cp mod 64 < 64) by (apply N.mod_lt; lia).
  repeat constructor; lia.
Qed.

Lemma pctEncode_units (cp : N) :
  cp < 1114112 -> Forall (fun c => pathUnit c = true) (pctEncode cp).
Proof.
  intros Hcp. unfold pctEncode. apply Forall_flat_map.
  eapply Forall_impl; [|apply utf8_octets; exact Hcp].
  intros b Hb. now apply pctOctet_units.
Qed.

Lemma encodeURIComponent_units (s e : str) :
  codeUnits s = true -> encodeURIComponent s = OK e ->
  Forall (fun c => pathUnit c = true) e.
Proof.
  remember (List.length s) as n eqn:En.
  revert s e En. induction n as [n IH] using lt_wf_ind. intros s e En Hs.
  destruct s as [|c rest]; simpl.
  - intros [= <-]. constructor.
  - apply andb_true_iff in Hs as [Hc Hrest]. apply N.ltb_lt in Hc. subst.
    destruct (uriUnreserved c) eqn:Hu.
    + destruct (encodeURIComponent rest) as [r|] eqn:Er; simpl; [|discriminate].
      intros [= <-]. constructor; [now apply unreserved_pathUnit|].
      exact (IH (List.length rest) ltac:(simpl; lia) rest r eq_refl Hrest Er).
    + destruct (isLeadSurrogate c) eqn:Hl.
      * destruct rest as [|d rest']; [discriminate|].
        destruct (isTrailSurrogate d) eqn:Ht; [|discriminate].
        destruct (encodeURIComponent rest') as [r|] eqn:Er; simpl; [|discriminate].
        intros [= <-]. apply Forall_app. split.
        -- apply pctEncode_units.
           unfold isLeadSurrogate in Hl. unfold isTrailSurrogate in Ht.
           rewrite andb_true_iff, !N.leb_le in Hl, Ht. lia.
        -- apply andb_true_iff in Hrest as [Hd Hrest'].
           exact (IH (List.length rest') ltac:(simpl; lia) rest' r eq_refl Hrest' Er).
      * destruct (isTrailSurrogate c); [discriminate|].
        destruct (encodeURIComponent rest) as [r|] eqn:Er; simpl; [|discriminate].
        intros [= <-]. apply Forall_app. split.
        -- apply pctEncode_units. lia.
        -- exact (IH (List.length rest) ltac:(simpl; lia) rest r eq_refl Hrest Er).
Qed.

Lemma join_units (P : N -> Prop) (sep : str) (segs : list str) :
  Forall P sep -> Forall (Forall P) segs -> Forall P (join sep segs).
Proof.
  intros Hsep Hsegs. induction Hsegs as [|x rest Hx Hrest IH]; [constructor|].
  destruct rest as [|y rest']; [exact Hx|].
  change (join sep (x :: y :: rest')) with (x ++ sep ++ join sep (y :: rest')).
  rewrite !Forall_app. auto.
Qed.

End MoreStrings.

(** X1. Whatever the input, the normalised URL starts with [http://] or
    with [https://]; a text that already starts with [http://] once
    trimmed and stripped is returned with that scheme, it is not turned
    into [https://]. *)
Theorem cleanUrl_always_has_scheme :
  forall x : JS.str,
    (JS.startsWith (JS.lit "http://") (firebaseService_url.cleanUrl x) = true \/
     JS.startsWith (JS.lit "https://") (firebaseService_url.cleanUrl x) = true) /\
    (forall rest,
       firebaseService_url.stripJsonSuffix
         (firebaseService_url.stripTrailingSlashes (JS.trim x))
         = JS.lit "http://" ++ rest ->
       firebaseService_url.cleanUrl x = JS.lit "http://" ++ rest).
Proof.
  intros x. split; [apply cleanUrl_scheme|].
  intros rest Hu. unfold firebaseService_url.cleanUrl. rewrite Hu. reflexivity.
Qed.

(** A run of X1: a local emulator address keeps its scheme. *)
Lemma cleanUrl_always_has_scheme_witness :
  firebaseService_url.cleanUrl (JS.lit " http://localhost:9000/.json")
  = JS.lit "http://localhost:9000/".
Proof.
  exact (proj2 (cleanUrl_always_has_scheme (JS.lit " http://localhost:9000/.json"))
           (JS.lit "localhost:9000/") eq_refl).
Defined.

(** X2. White space before and after the text typed does not change the
    normalised URL. *)
Theorem cleanUrl_ignores_outer_space :
  forall a x b : JS.str,
    forallb JS.isWhiteSpace a = true ->
    forallb JS.isWhiteSpace b = true ->
    firebaseService_url.cleanUrl (a ++ x ++ b) = firebaseService_url.cleanUrl x.
Proof.
  intros a x b Ha Hb. unfold firebaseService_url.cleanUrl.
  now rewrite (trim_outer a x b Ha Hb).
Qed.

(** A run of X2: a tab before and a line break after an identifier. *)
Lemma cleanUrl_ignores_outer_space_witness :
  firebaseService_url.cleanUrl ([9; 32] ++ JS.lit "my-project" ++ [13; 10])%N
  = firebaseService_url.cleanUrl (JS.lit "my-project").
Proof.
  exact (cleanUrl_ignores_outer_space [9; 32]%N (JS.lit "my-project") [13; 10]%N
           eq_refl eq_refl).
Defined.

(** X3. Leading slashes of a path do not count: the endpoint of a path
    is the endpoint of the path without them, so a path made of slashes
    only addresses the root like the empty path. *)
Theorem buildEndpoint_ignores_leading_slashes :
  forall (b p : JS.str),
    firebaseService_url.buildEndpoint b (47%N :: p)
      = firebaseService_url.buildEndpoint b p /\
    firebaseService_url.buildEndpoint b p
      = firebaseService_url.buildEndpoint b
          (firebaseService_url.stripLeadingSlashes p) /\
    (firebaseService_url.stripLeadingSlashes p = [] ->
     firebaseService_url.buildEndpoint b p
       = JS.OK (firebaseService_url.cleanUrl b ++ JS.lit "/.json")).
Proof.
  intros b p. repeat split.
  - rewrite (buildEndpoint_stripped b (47%N :: p)), (buildEndpoint_stripped b p).
    reflexivity.
  - apply buildEndpoint_stripped.
  - intros Hp. rewrite buildEndpoint_stripped, Hp. reflexivity.
Qed.

(** A run of X3: three slashes address the root. *)
Lemma buildEndpoint_ignores_leading_slashes_witness :
  firebaseService_url.buildEndpoint (JS.lit "demo") (JS.lit "///")
  = JS.OK (JS.lit "https://demo.firebaseio.com/.json").
Proof.
  exact (proj2 (proj2 (buildEndpoint_ignores_leading_slashes
                         (JS.lit "demo") (JS.lit "///"))) eq_refl).
Defined.

(** X4. A path made of unreserved characters and slashes is sent as it
    is: the endpoint is the normalised base, a slash, the path without
    its leading slashes, and [.json]. *)
Theorem buildEndpoint_plain_path :
  forall (b p : JS.str),
    forallb (fun c => JS.uriUnreserved c || JS.isSlash c) p = true ->
    firebaseService_url.buildEndpoint b p
      = JS.OK (firebaseService_url.cleanUrl b ++ JS.lit "/" ++
               firebaseService_url.stripLeadingSlashes p ++ JS.lit ".json").
Proof.
  intros b p Hp. destruct p as [|c p]; [reflexivity|].
  unfold firebaseService_url.buildEndpoint, firebaseService_url.encodeSegments.
  rewrite mapM_same.
  - cbn [JS.bind]. change (JS.lit "/") with [47%N].
    now rewrite join_split.
  - intros seg Hseg. apply encodeURIComponent_plain.
    apply forallb_forall. intros x Hx.
    assert (Hin : In x (c :: p))
      by (eapply stripLeadingSlashes_units, split_units; eauto).
    rewrite forallb_forall in Hp. specialize (Hp x Hin).
    apply orb_true_iff in Hp as [Hu | Hs]; [exact Hu|].
    exfalso. unfold JS.isSlash in Hs. apply N.eqb_eq in Hs. subst x.
    exact (split_segments_no_sep _ _ _ Hseg Hx).
Qed.

(** A run of X4. *)
Lemma buildEndpoint_plain_path_witness :
  firebaseService_url.buildEndpoint (JS.lit "demo") (JS.lit "/users/ann_1/age")
  = JS.OK (JS.lit "https://demo.firebaseio.com/users/ann_1/age.json").
Proof.
  exact (buildEndpoint_plain_path (JS.lit "demo") (JS.lit "/users/ann_1/age") eq_refl).
Defined.

(** X5. Whatever the keys of a path hold, what the endpoint adds to the
    normalised base is made of unreserved characters, percent signs and
    slashes only: a key cannot bring a question mark, a hash sign or a
    space into the URL. *)
Theorem buildEndpoint_safe_units :
  forall (b p ep : JS.str),
    SpecRest.codeUnits p = true ->
    firebaseService_url.buildEndpoint b p = JS.OK ep ->
    exists rest,
      ep = firebaseService_url.cleanUrl b ++ rest /\
      forallb SpecRest.pathUnit rest = true /\
      ~ In 63%N rest /\ ~ In 35%N rest /\ ~ In 32%N rest.
Proof.
  intros b p ep Hp Hep.
  assert (Hmain : exists rest,
            ep = firebaseService_url.cleanUrl b ++ rest /\
            Forall (fun c => SpecRest.pathUnit c = true) rest).
  { destruct p as [|c p].
    - injection Hep as <-. eexists. split; [reflexivity|].
      now apply literal_units.
    - unfold firebaseService_url.buildEndpoint in Hep.
      destruct (firebaseService_url.encodeSegments (c :: p)) as [segs|e] eqn:Es;
        [|discriminate].
      injection Hep as <-.
      exists ([47%N] ++ JS.join (JS.lit "/") segs ++ JS.lit ".json").
      split; [reflexivity|].
      apply Forall_app. split; [now apply literal_units|].
      apply Forall_app. split; [|now apply literal_units].
      apply join_units; [now apply literal_units|].
      apply mapM_OK in Es. clear - Es Hp.
      assert (Hsegs : Forall (fun seg => SpecRest.codeUnits seg = true)
                (JS.split 47 (firebaseService_url.stripLeadingSlashes (c :: p)))).
      { apply Forall_forall. intros seg Hseg. apply forallb_forall. intros x Hx.
        unfold SpecRest.codeUnits in Hp. rewrite forallb_forall in Hp. apply Hp.
        eapply stripLeadingSlashes_units, split_units; eauto. }
      induction Es as [|raw enc raws encs Henc _ IH]; constructor.
      + inversion Hsegs; subst. eapply encodeURIComponent_units; eauto.
      + inversion Hsegs; subst. auto. }
  destruct Hmain as (rest & Hrest & Hall). exists rest.
  split; [exact Hrest|].
  rewrite Forall_forall in Hall.
  split; [now apply forallb_forall|].
  repeat split; intros Hin; apply Hall in Hin; discriminate.
Qed.

(** A run of X5: a key that holds a question mark and a space. *)
Lemma buildEndpoint_safe_units_witness :
  exists rest,
    JS.lit "https://demo.firebaseio.com/a%3Fshallow%3Dtrue%20b.json"
      = JS.lit "https://demo.firebaseio.com" ++ rest /\
    ~ In 63%N rest.
Proof.
  destruct (buildEndpoint_safe_units (JS.lit "demo") (JS.lit "a?shallow=true b")
              (JS.lit "https://demo.firebaseio.com/a%3Fshallow%3Dtrue%20b.json")
              eq_refl eq_refl)
    as (rest & Hep & _ & Hq & _).
  exists rest. split; [exact Hep | exact Hq].
Defined.

(* ===================================================================== *)
(** ** More on the store client *)
(* ===================================================================== *)

Section MoreStore.
Import JS Net Types firebaseService Spec SpecRest.
Local Open Scope N_scope.
Context {H : Host}.

(** What the probe does, outcome by outcome of its one request. *)
Lemma checkConnection_run (u : str) (s : St) :
  checkConnection u s =
  (match fst (fetch (world s)
                (mkRequest (cleanUrl u ++ lit "/.json?shallow=true") GET None)) with
   | Resolved res =>
       if ok res then OK true
       else Throw (Error
         (if status res =? 401 then
            noEntry ++ lit " Permission Denied (401): Database rules prevent reading."
          else if status res =? 404 then
            crossMark ++ lit " Database Not Found (404): Check your Project ID."
          else if status res =? 400 then
            warning ++ lit " Bad Request (400): Invalid URL format."
          else warning ++ lit " Connection Error: " ++ decimal (status res)))
   | Rejected e =>
       Throw (if str_eqb (name e) (lit "AbortError")
              then Error (stopwatch ++ lit " Timeout: Server took too long.")
              else if startsWith noEntry (message e) ||
                      startsWith crossMark (message e) ||
                      startsWith warning (message e)
              then e
              else Error (globe ++ lit " Network Error: " ++ message e))
   end,
   afterFetch s (mkRequest (cleanUrl u ++ lit "/.json?shallow=true") GET None)).
Proof.
  unfold checkConnection, tryCatch, mbind. rewrite doFetch_run.
  destruct (fst (fetch (world s) _)) as [res|e].
  - destruct (ok res); [reflexivity|].
    destruct (status res =? 401); [reflexivity|].
    destruct (status res =? 404); [reflexivity|].
    destruct (status res =? 400); reflexivity.
  - destruct (str_eqb (name e) (lit "AbortError")); [reflexivity|].
    destruct (startsWith noEntry (message e) || startsWith crossMark (message e)
              || startsWith warning (message e)); reflexivity.
Qed.

Lemma orElse_nonempty (a b : str) : b <> [] -> orElse a b <> [].
Proof. destruct a; simpl; [auto | discriminate]. Qed.

Lemma app_nonempty (a b : str) : a <> [] -> a ++ b <> [].
Proof. destruct a; simpl; [congruence | discriminate]. Qed.

(** The one error [encodeURIComponent] throws. *)
Lemma encodeURIComponent_throws (s : str) (e : JSError) :
  encodeURIComponent s = Throw e -> e = URIError uriMalformed.
Proof.
  remember (List.length s) as n eqn:En.
  revert s En. induction n as [n IH] using lt_wf_ind. intros s En.
  destruct s as [|c rest]; simpl; [discriminate|].
  destruct (uriUnreserved c).
  - destruct (encodeURIComponent rest) as [r|e'] eqn:Er; simpl; [discriminate|].
    intros [= <-]. subst. exact (IH (List.length rest) ltac:(simpl; lia) rest eq_refl Er).
  - destruct (isLeadSurrogate c).
    + destruct rest as [|d rest']; [now intros [= <-]|].
      destruct (isTrailSurrogate d); [|now intros [= <-]].
      destruct (encodeURIComponent rest') as [r|e'] eqn:Er; simpl; [discriminate|].
      intros [= <-]. subst.
      exact (IH (List.length rest') ltac:(simpl; lia) rest' eq_refl Er).
    + destruct (isTrailSurrogate c); [now intros [= <-]|].
      destruct (encodeURIComponent rest) as [r|e'] eqn:Er; simpl; [discriminate|].
      intros [= <-]. subst. exact (IH (List.length rest) ltac:(simpl; lia) rest eq_refl Er).
Qed.

Lemma mapM_throws {A B} (f : A -> result B) (l : list A) (e : JSError) :
  mapM f l = Throw e -> exists x, In x l /\ f x = Throw e.
Proof.
  induction l as [|x l IH]; simpl; [discriminate|].
  destruct (f x) as [y|e'] eqn:Ex; simpl.
  - destruct (mapM f l) as [ys|e'']; simpl; [discriminate|].
    intros [= <-]. destruct (IH eq_refl) as (x' & Hin & Hx'). eauto.
  - intros [= <-]. eauto.
Qed.

Lemma buildEndpoint_throws (u p : str) (e : JSError) :
  buildEndpoint u p = Throw e -> e = URIError uriMalformed.
Proof.
  unfold buildEndpoint, encodeSegments. destruct p as [|c p]; [discriminate|].
  destruct (mapM _ _) as [segs|e'] eqn:Em; simpl; [discriminate|].
  intros [= <-]. apply mapM_throws in Em as (seg & _ & Hseg).
  now apply encodeURIComponent_throws in Hseg.
Qed.

(** An error thrown by a call on a path has a message, and it is an
    [Error] unless the endpoint could not be built. *)
Lemma storeCall_thrown m body denied failed fallback u p s e s' :
  denied <> [] -> failed <> [] -> fallback <> [] ->
  storeCall m body denied failed fallback u p s = (Throw e, s') ->
  message e <> [] /\
  (buildEndpoint u p = Throw e /\ s' = s \/
   name e = lit "Error" /\
   exists ep, buildEndpoint u p = OK ep /\ s' = afterFetch s (mkRequest ep m body)).
Proof.
  intros Hd Hf Hb. unfold storeCall.
  destruct (buildEndpoint u p) as [ep|e0] eqn:Hep.
  - intros [= Hr <-].
    assert (He : message e <> [] /\ name e = lit "Error").
    { destruct (fst (fetch (world s) _)) as [res|e1].
      - destruct (ok res); [discriminate|].
        destruct (status res =? 401); injection Hr as <-; split; auto.
        cbn [message Error]. now apply app_nonempty.
      - injection Hr as <-. split; [|reflexivity].
        cbn [message Error]. now apply orElse_nonempty. }
    destruct He as [He1 He2]. split; [exact He1|]. right. eauto.
  - intros [= <- <-]. split; [|now left].
    apply buildEndpoint_throws in Hep. subst e0. discriminate.
Qed.

(** A trail surrogate that no lead surrogate precedes makes the encoding
    throw. *)
Lemma encodeURIComponent_lone_trail (s : str) (c : N) :
  In c s -> isTrailSurrogate c = true ->
  forallb (fun x => negb (isLeadSurrogate x)) s = true ->
  encodeURIComponent s = Throw (URIError uriMalformed).
Proof.
  intros Hin Hc. induction s as [|x rest IH]; [destruct Hin|].
  intros Hs. cbn [forallb] in Hs. apply andb_true_iff in Hs as [Hx Hrest].
  apply negb_true_iff in Hx. cbn [encodeURIComponent]. rewrite Hx.
  destruct (uriUnreserved x) eqn:Hu.
  - destruct Hin as [-> | Hin].
    + exfalso. unfold uriUnreserved, isAlpha, isDigit in Hu.
      unfold isTrailSurrogate in Hc.
      rewrite andb_true_iff, !N.leb_le in Hc.
      rewrite !orb_true_iff, !andb_true_iff, !N.leb_le, !N.eqb_eq in Hu. lia.
    + now rewrite (IH Hin Hrest).
  - destruct (isTrailSurrogate x) eqn:Ht; [reflexivity|].
    destruct Hin as [-> | Hin]; [congruence|]. now rewrite (IH Hin Hrest).
Qed.

Lemma split_covers (sep : N) (s : str) (c : N) :
  In c s -> c <> sep -> exists seg, In seg (split sep s) /\ In c seg.
Proof.
  induction s as [|x s IH]; [intros []|]. intros Hin Hc. cbn [split].
  destruct (N.eqb_spec x sep) as [-> | Hx].
  - destruct Hin as [-> | Hin]; [congruence|].
    destruct (IH Hin Hc) as (seg & Hseg & Hcs). exists seg. split; [now right | exact Hcs].
  - destruct (split sep s) as [|seg0 segs] eqn:Es; [now apply split_nonempty in Es|].
    destruct Hin as [-> | Hin].
    + exists (c :: seg0). split; [now left | now left].
    + destruct (IH Hin Hc) as (seg & [<- | Hseg] & Hcs).
      * exists (x :: seg0). split; [now left | now right].
      * exists seg. split; [now right | exact Hcs].
Qed.

Lemma mapM_first_throw {A B} (f : A -> result B) (l : list A) (e : JSError) (x : A) :
  In x l -> f x = Throw e ->
  (forall y e', f y = Throw e' -> e' = e) ->
  mapM f l = Throw e.
Proof.
  intros Hin Hx Hall. induction l as [|y l IH]; [destruct Hin|].
  cbn [mapM]. destruct (f y) as [b|e'] eqn:Ey.
  - destruct Hin as [-> | Hin]; [congruence|]. cbn [bind]. now rewrite (IH Hin).
  - cbn [bind]. now rewrite (Hall _ _ Ey).
Qed.

Lemma stripLeadingSlashes_keeps (p : str) (c : N) :
  In c p -> c <> 47 -> In c (stripLeadingSlashes p).
Proof.
  unfold stripLeadingSlashes. induction p as [|x p IH]; [intros []|].
  intros Hin Hc. cbn [dropWhile].
  destruct (isSlash x) eqn:Hx; [|exact Hin].
  apply N.eqb_eq in Hx. subst x.
  destruct Hin as [E | Hin]; [congruence | auto].
Qed.

Lemma buildEndpoint_lone_trail (u p : str) (c : N) :
  In c p -> isTrailSurrogate c = true ->
  forallb (fun x => negb (isLeadSurrogate x)) p = true ->
  buildEndpoint u p = Throw (URIError uriMalformed).
Proof.
  intros Hin Hc Hp.
  assert (Hc47 : c <> 47).
  { intros E. subst c. discriminate. }
  destruct p as [|x p]; [destruct Hin|].
  unfold buildEndpoint, encodeSegments.
  destruct (split_covers 47 _ c (stripLeadingSlashes_keeps _ c Hin Hc47) Hc47)
    as (seg & Hseg & Hcs).
  rewrite (mapM_first_throw encodeURIComponent _ (URIError uriMalformed) seg Hseg).
  - reflexivity.
  - apply (encodeURIComponent_lone_trail seg c Hcs Hc).
    apply forallb_forall. intros y Hy. rewrite forallb_forall in Hp. apply Hp.
    eapply stripLeadingSlashes_units, split_units; eauto.
  - intros y e'. apply encodeURIComponent_throws.
Qed.

End MoreStore.

(** X6. The probe sends exactly one request, whatever comes back: a GET
    without body at the normalised URL followed by [/.json?shallow=true].
    It returns [true] exactly when that request is answered with a
    status in 200..299; it never returns [false], every other outcome
    is an exception; and it touches nothing of the state of the page. *)
Theorem probe_sends_one_read :
  forall (H : Net.Host) (u : JS.str) (s : Types.St),
    let rq := Net.mkRequest
                (firebaseService_url.cleanUrl u ++ JS.lit "/.json?shallow=true")
                Net.GET None in
    snd (firebaseService.checkConnection u s) = Spec.afterFetch s rq /\
    Spec.grows s (snd (firebaseService.checkConnection u s)) [rq] /\
    fst (firebaseService.checkConnection u s) <> JS.OK false /\
    (fst (firebaseService.checkConnection u s) = JS.OK true <->
     exists res, fst (Net.fetch (Types.world s) rq) = Net.Resolved res /\
                 Net.ok res = true).
Proof.
  intros H u s rq. rewrite checkConnection_run. cbn [fst snd]. fold rq.
  split; [reflexivity|]. split; [unfold Spec.grows, Spec.afterFetch; cbn; auto|].
  destruct (fst (Net.fetch (Types.world s) rq)) as [res|e].
  - destruct (Net.ok res) eqn:Hok.
    + split; [discriminate|]. split; [eauto | reflexivity].
    + split; [discriminate|]. split; [discriminate|].
      intros (res' & [= <-] & Hok'). congruence.
  - split; [discriminate|]. split; [discriminate|].
    intros (res' & Hres & _). discriminate.
Qed.

(** A run of X6: the store answers 200. *)
Lemma probe_sends_one_read_witness :
  let s := Scripted.start [] Scripted.app0 Scripted.node0 in
  fst (firebaseService.checkConnection (H := Scripted.host) (JS.lit "demo") s)
  = JS.OK true.
Proof.
  intros s.
  exact (proj2 (proj2 (proj2 (proj2
           (probe_sends_one_read Scripted.host (JS.lit "demo") s))))
           (ex_intro _ (Net.mkResponse 200 (JS.lit "OK") (JS.OK JS.Null))
              (conj eq_refl eq_refl))).
Defined.

(** X7. Every error the probe throws carries a message that starts with
    one of its five signs (no entry, cross mark, warning, stopwatch,
    globe). A rejection named [AbortError] is reported as a timeout
    whatever its message; any other rejection whose message does not
    start with one of the first three signs is reported as a network
    error that ends with that message. *)
Theorem probe_errors_are_marked :
  forall (H : Net.Host) (u : JS.str) (s : Types.St),
    let rq := Net.mkRequest
                (firebaseService_url.cleanUrl u ++ JS.lit "/.json?shallow=true")
                Net.GET None in
    (forall e, fst (firebaseService.checkConnection u s) = JS.Throw e ->
       existsb (fun sign => JS.startsWith sign (JS.message e))
         [firebaseService.noEntry; firebaseService.crossMark;
          firebaseService.warning; firebaseService.stopwatch;
          firebaseService.globe] = true) /\
    (forall e, fst (Net.fetch (Types.world s) rq) = Net.Rejected e ->
       (JS.name e = JS.lit "AbortError" ->
        fst (firebaseService.checkConnection u s) =
          JS.Throw (JS.Error (firebaseService.stopwatch ++
                              JS.lit " Timeout: Server took too long."))) /\
       (JS.name e <> JS.lit "AbortError" ->
        existsb (fun sign => JS.startsWith sign (JS.message e))
          [firebaseService.noEntry; firebaseService.crossMark;
           firebaseService.warning] = false ->
        fst (firebaseService.checkConnection u s) =
          JS.Throw (JS.Error (firebaseService.globe ++
                              JS.lit " Network Error: " ++ JS.message e)))).
Proof.
  intros H u s rq. rewrite checkConnection_run. cbn [fst]. fold rq. split.
  - intros e. destruct (fst (Net.fetch (Types.world s) rq)) as [res|e0].
    + destruct (Net.ok res); [discriminate|].
      destruct (Net.status res =? 401)%N; [now intros [= <-]|].
      destruct (Net.status res =? 404)%N; [now intros [= <-]|].
      destruct (Net.status res =? 400)%N; now intros [= <-].
    + destruct (JS.str_eqb (JS.name e0) (JS.lit "AbortError")); [now intros [= <-]|].
      destruct (JS.startsWith firebaseService.noEntry (JS.message e0) ||
                JS.startsWith firebaseService.crossMark (JS.message e0) ||
                JS.startsWith firebaseService.warning (JS.message e0)) eqn:Hs.
      * intros [= <-]. cbn [existsb].
        rewrite !orb_true_iff in Hs. rewrite !orb_true_iff. tauto.
      * now intros [= <-].
  - intros e ->. split.
    + intros Hn. now rewrite (proj2 (str_eqb_eq _ _) Hn).
    + intros Hn Hs. rewrite (proj2 (str_eqb_neq _ _) Hn).
      cbn [existsb] in Hs. rewrite orb_false_r in Hs.
      rewrite orb_assoc in Hs. now rewrite Hs.
Qed.

(** A run of X7: the timer of the probe fires. *)
Lemma probe_errors_are_marked_witness :
  fst (firebaseService.checkConnection (H := Scripted.host) (JS.lit "demo")
         (Scripted.start
            [Net.Rejected (JS.mkError (JS.lit "AbortError")
                             (JS.lit "The operation was aborted."))]
            Scripted.app0 Scripted.node0))
  = JS.Throw (JS.Error (firebaseService.stopwatch ++
                        JS.lit " Timeout: Server took too long.")).
Proof.
  exact (proj1 (proj2 (probe_errors_are_marked Scripted.host (JS.lit "demo")
           (Scripted.start
              [Net.Rejected (JS.mkError (JS.lit "AbortError")
                               (JS.lit "The operation was aborted."))]
              Scripted.app0 Scripted.node0)) _ eq_refl) eq_refl).
Defined.



(** X9. An error thrown by a read, write, merge or removal always has a
    message that is not empty. Either the endpoint could not be built,
    the error is the [URIError] of the encoding and nothing was sent; or
    one request went out and the error is a plain [Error], whatever was
    caught. *)
Theorem store_errors_have_messages :
  forall (H : Net.Host) (u p : JS.str) (d : JS.value) (s s' : Types.St)
         (e : JS.JSError),
    firebaseService.writeData u p d s = (JS.Throw e, s') \/
    firebaseService.updateData u p d s = (JS.Throw e, s') \/
    firebaseService.deleteData u p s = (JS.Throw e, s') \/
    fst (firebaseService.readData u p s) = JS.Throw e /\
    snd (firebaseService.readData u p s) = s' ->
    JS.message e <> [] /\
    (firebaseService_url.buildEndpoint u p = JS.Throw e /\
     e = JS.URIError JS.uriMalformed /\ s' = s \/
     JS.name e = JS.lit "Error" /\
     exists ep rq,
       firebaseService_url.buildEndpoint u p = JS.OK ep /\
       Net.url rq = ep /\ s' = Spec.afterFetch s rq).
Proof.
  intros H u p d s s' e.
  assert (Hcall : forall m body denied failed fallback r s1,
            denied <> [] -> failed <> [] -> fallback <> [] ->
            Spec.storeCall m body denied failed fallback u p s = (r, s1) ->
            forall (A : Type) (f : Net.Response -> JS.result A),
              (forall res e', f res = JS.Throw e' ->
                 JS.message e' <> [] /\ JS.name e' = JS.lit "Error") ->
              (JS.bind r f, s1) = (JS.Throw e, s') ->
              JS.message e <> [] /\
              (firebaseService_url.buildEndpoint u p = JS.Throw e /\
               e = JS.URIError JS.uriMalformed /\ s' = s \/
               JS.name e = JS.lit "Error" /\
               exists ep rq,
                 firebaseService_url.buildEndpoint u p = JS.OK ep /\
                 Net.url rq = ep /\ s' = Spec.afterFetch s rq)).
  { intros m body denied failed fallback r s1 Hd Hf Hb Hrun A f Hf' Heq.
    destruct r as [res|e0]; cbn [JS.bind] in Heq.
    - injection Heq as Hfr <-. destruct (Hf' _ _ Hfr) as [Hm Hn].
      split; [exact Hm|]. right. split; [exact Hn|].
      unfold Spec.storeCall in Hrun.
      destruct (firebaseService_url.buildEndpoint u p) as [ep|e1]; [|discriminate].
      injection Hrun as _ <-. exists ep, (Net.mkRequest ep m body). auto.
    - injection Heq as <- <-.
      destruct (storeCall_thrown _ _ _ _ _ _ _ _ _ _ Hd Hf Hb Hrun)
        as [Hm [[Hep ->] | [Hn (ep & Hep & ->)]]].
      + split; [exact Hm|]. left. split; [exact Hep|].
        split; [now apply buildEndpoint_throws in Hep | reflexivity].
      + split; [exact Hm|]. right. split; [exact Hn|].
        exists ep, (Net.mkRequest ep m body). auto. }
  intros [Hw | [Hu | [Hd | [Hr1 Hr2]]]].
  - rewrite writeData_run in Hw.
    destruct (Spec.storeCall _ _ _ _ _ u p s) as [r s1] eqn:Hrun.
    eapply (Hcall _ _ _ _ _ _ _ _ _ _ Hrun unit (fun _ => JS.OK tt));
      first [exact Hw | discriminate | intros ? ?; discriminate].
  - rewrite updateData_run in Hu.
    destruct (Spec.storeCall _ _ _ _ _ u p s) as [r s1] eqn:Hrun.
    eapply (Hcall _ _ _ _ _ _ _ _ _ _ Hrun unit (fun _ => JS.OK tt));
      first [exact Hu | discriminate | intros ? ?; discriminate].
  - rewrite deleteData_run in Hd.
    destruct (Spec.storeCall _ _ _ _ _ u p s) as [r s1] eqn:Hrun.
    eapply (Hcall _ _ _ _ _ _ _ _ _ _ Hrun unit (fun _ => JS.OK tt));
      first [exact Hd | discriminate | intros ? ?; discriminate].
  - rewrite readData_run in Hr1, Hr2.
    destruct (Spec.storeCall _ _ _ _ _ u p s) as [r s1] eqn:Hrun.
    cbn [fst snd] in Hr1, Hr2. subst s1.
    eapply (Hcall _ _ _ _ _ _ _ _ _ _ Hrun JS.value); try discriminate;
      [| now rewrite <- Hr1].
    cbv beta. intros res e'. destruct (Net.json res) as [v|e0]; [discriminate|].
    intros [= <-]. split; [|reflexivity].
    cbn [JS.message JS.Error]. now apply orElse_nonempty.
  Unshelve. all: discriminate.
Qed.

(** A run of X9: a rejection without message gets the text of the call. *)
Lemma store_errors_have_messages_witness :
  let s := Scripted.start [Net.Rejected (JS.mkError (JS.lit "TypeError") [])]
             Scripted.app0 Scripted.node0 in
  JS.message (JS.Error (JS.lit "Failed to write data")) <> [].
Proof.
  intros s.
  exact (proj1 (store_errors_have_messages Scripted.host (JS.lit "demo")
                  (JS.lit "users/1") JS.Null s
                  (snd (firebaseService.writeData (JS.lit "demo") (JS.lit "users/1")
                          JS.Null s))
                  (JS.Error (JS.lit "Failed to write data"))
                  (or_introl eq_refl))).
Defined.

(** X10. A path that holds a trail surrogate and no lead surrogate has
    no endpoint: the encoding throws before anything is sent, the four
    calls on a path throw that [URIError] as it is (it is raised outside
    their own handlers) and leave the state as it was. *)
Theorem lone_surrogate_sends_nothing :
  forall (H : Net.Host) (u p : JS.str) (c : N) (d : JS.value) (s : Types.St),
    In c p ->
    JS.isTrailSurrogate c = true ->
    forallb (fun x => negb (JS.isLeadSurrogate x)) p = true ->
    let failed {A} : JS.result A * Types.St :=
      (JS.Throw (JS.URIError JS.uriMalformed), s) in
    firebaseService.readData u p s = failed /\
    firebaseService.writeData u p d s = failed /\
    firebaseService.updateData u p d s = failed /\
    firebaseService.deleteData u p s = failed.
Proof.
  intros H u p c d s Hin Hc Hp failed. subst failed.
  pose proof (buildEndpoint_lone_trail u p c Hin Hc Hp) as Hep.
  rewrite readData_run, writeData_run, updateData_run, deleteData_run.
  unfold Spec.storeCall. rewrite Hep. auto.
Qed.

(** A run of X10: a key that is one trail surrogate. *)
Lemma lone_surrogate_sends_nothing_witness :
  let s := Scripted.start [] Scripted.app0 Scripted.node0 in
  firebaseService.writeData (H := Scripted.host) (JS.lit "demo")
    (JS.lit "users/" ++ [56832%N]) JS.Null s
  = (JS.Throw (JS.URIError JS.uriMalformed), s).
Proof.
  intros s.
  exact (proj1 (proj2
    (lone_surrogate_sends_nothing Scripted.host (JS.lit "demo")
       (JS.lit "users/" ++ [56832%N]) 56832%N JS.Null s
       ltac:(vm_compute; tauto) eq_refl eq_refl))).
Defined.

(* ===================================================================== *)
(** ** More on plans: the executor and the generator *)
(* ===================================================================== *)

Section MorePlans.
Import JS Net Types firebaseService geminiService Spec SpecRest.
Local Open Scope N_scope.
Context {H : Host}.

(** Dropping one leading slash, as the executor does, changes nothing of
    the endpoint. *)
Lemma buildEndpoint_fullPath (url p : str) :
  buildEndpoint url (if startsWith (lit "/") p then tl p else p)
  = buildEndpoint url p.
Proof.
  destruct p as [|c p]; [reflexivity|].
  change (startsWith (lit "/") (c :: p)) with ((47 =? c) && true).
  rewrite andb_true_r. destruct (N.eqb_spec 47 c) as [<- | Hc]; [|reflexivity].
  cbn [tl]. rewrite (buildEndpoint_stripped url (47 :: p)).
  rewrite (buildEndpoint_stripped url p). reflexivity.
Qed.

Lemma writeData_same_endpoint u p p' d s :
  buildEndpoint u p = buildEndpoint u p' -> writeData u p d s = writeData u p' d s.
Proof. intros E. unfold writeData. now rewrite E. Qed.

Lemma updateData_same_endpoint u p p' d s :
  buildEndpoint u p = buildEndpoint u p' -> updateData u p d s = updateData u p' d s.
Proof. intros E. unfold updateData. now rewrite E. Qed.

Lemma deleteData_same_endpoint u p p' s :
  buildEndpoint u p = buildEndpoint u p' -> deleteData u p s = deleteData u p' s.
Proof. intros E. unfold deleteData. now rewrite E. Qed.

Lemma storeCall_sent m body denied failed fallback u p s ep :
  buildEndpoint u p = OK ep ->
  snd (storeCall m body denied failed fallback u p s)
  = afterFetch s (mkRequest ep m body).
Proof. intros E. unfold storeCall. now rewrite E. Qed.

Lemma snd_let {A B C} (x : A * B) (f : A -> C) :
  snd (let '(r, s') := x in (f r, s')) = snd x.
Proof. now destruct x. Qed.

(** The executor on an action whose path is a string. *)
Lemma executeAction_path url action p s :
  getProp action (lit "path") = OK (Str p) ->
  App.executeAction url action s =
  match getProp action (lit "type"), getProp action (lit "data") with
  | OK ty, OK d =>
      if App.isStr ty (lit "DELETE") then deleteData url p s
      else if App.isStr ty (lit "SET") then writeData url p d s
      else if App.isStr ty (lit "UPDATE") then updateData url p d s
      else (OK tt, s)
  | _, _ => (OK tt, s)
  end.
Proof.
  intros Hp. unfold App.executeAction, mbind at 1, liftR. rewrite Hp.
  unfold mbind at 1, ret.
  destruct action; try discriminate.
  all: try (cbn in Hp; discriminate).
  all: cbn [getProp] in *.
  all: unfold mbind, liftR, ret.
  all: repeat match goal with
       | |- context [match lookup ?k ?l with _ => _ end] => destruct (lookup k l)
       end.
  all: repeat match goal with
       | |- context [App.isStr ?v ?t] => destruct (App.isStr v t)
       end.
  all: try reflexivity.
  all: first [ apply deleteData_same_endpoint | apply writeData_same_endpoint
             | apply updateData_same_endpoint ];
       apply buildEndpoint_fullPath.
Qed.

(** What the generator does, answer by answer of the model. *)
Lemma generateDataWithAI_run prompt cur keys base s :
  generateDataWithAI prompt cur keys base s =
  (match fst (generateContent (world s) (mkGenRequest prompt cur keys base)) with
   | Throw e =>
       Throw (if includes (lit "404") (message e) ||
                 includes (lit "NOT_FOUND") (message e)
              then Error (lit "Model not found. Check API Key.")
              else Error (lit "AI Error: " ++
                          orElse (message e) (lit "Failed to process request")))
   | OK None | OK (Some []) => Throw (Error (lit "AI Error: No response from AI"))
   | OK (Some text) =>
       match bind (JSON_parse text) (fun parsed =>
             bind (getProp parsed (lit "message")) (fun m =>
             bind (getProp parsed (lit "actions")) (fun a =>
               OK (mkAIResponse
                     (if truthy m then m else Str (lit "Here is the plan."))
                     (match a with
                      | Arr items => items
                      | _ => []
                      end))))) with
       | OK r => OK r
       | Throw _ => Throw (Error (lit "AI Error: AI response was not valid JSON."))
       end
   end,
   mkSt (snd (generateContent (world s) (mkGenRequest prompt cur keys base)))
        (sent s) (app s) (node s) (alerts s)).
Proof.
  unfold generateDataWithAI, tryCatch, mbind at 1, doGenerate.
  destruct (generateContent (world s) _) as [[[text|]|e] w]; cbn [fst snd].
  - destruct text as [|c text]; [reflexivity|].
    unfold mbind, liftR, ret, throw.
    destruct (JSON_parse (c :: text)) as [parsed|e]; cbn [bind]; [|reflexivity].
    destruct (getProp parsed (lit "message")) as [m|e]; cbn [bind]; [|reflexivity].
    destruct (getProp parsed (lit "actions")) as [a|e]; cbn [bind]; reflexivity.
  - reflexivity.
  - unfold throw.
    destruct (includes (lit "404") (message e) || includes (lit "NOT_FOUND") (message e));
      reflexivity.
Qed.

Lemma startsWith_app (p x : str) : startsWith p (p ++ x) = true.
Proof.
  induction p as [|c p IH]; [reflexivity|]. cbn [List.app startsWith].
  now rewrite N.eqb_refl, IH.
Qed.

End MorePlans.

(** X11. An action whose path is a string is sent to the endpoint of
    that path as it is written, with or without a leading slash: a
    DELETE without body for [DELETE], a PUT of the action's data for
    [SET], a PATCH of it for [UPDATE]; data that is missing goes out as
    [undefined]. *)
Theorem action_request :
  forall (H : Net.Host) (url : JS.str) (action ty : JS.value) (p ep : JS.str)
         (s : Types.St),
    JS.getProp action (JS.lit "path") = JS.OK (JS.Str p) ->
    JS.getProp action (JS.lit "type") = JS.OK ty ->
    firebaseService_url.buildEndpoint url p = JS.OK ep ->
    exists d,
      JS.getProp action (JS.lit "data") = JS.OK d /\
      (forall props, action = JS.Obj props ->
         JS.lookup (JS.lit "data") props = None -> d = JS.Undefined) /\
      (App.isStr ty (JS.lit "DELETE") = true ->
       App.executeAction url action s = firebaseService.deleteData url p s /\
       snd (App.executeAction url action s)
         = Spec.afterFetch s (Net.mkRequest ep Net.DELETE None)) /\
      (App.isStr ty (JS.lit "SET") = true ->
       App.executeAction url action s = firebaseService.writeData url p d s /\
       snd (App.executeAction url action s)
         = Spec.afterFetch s (Net.mkRequest ep Net.PUT (Some d))) /\
      (App.isStr ty (JS.lit "UPDATE") = true ->
       App.executeAction url action s = firebaseService.updateData url p d s /\
       snd (App.executeAction url action s)
         = Spec.afterFetch s (Net.mkRequest ep Net.PATCH (Some d))).
Proof.
  intros H url action ty p ep s Hp Hty Hep.
  assert (Hd : exists d, JS.getProp action (JS.lit "data") = JS.OK d /\
             (forall props, action = JS.Obj props ->
                JS.lookup (JS.lit "data") props = None -> d = JS.Undefined)).
  { destruct action; try discriminate; cbn [JS.getProp].
    destruct (JS.lookup (JS.lit "data") props) as [d|] eqn:E.
    - exists d. split; [reflexivity|]. intros props' [= <-]. congruence.
    - exists JS.Undefined. auto. }
  destruct Hd as (d & Hd & Hmissing). exists d.
  split; [exact Hd|]. split; [exact Hmissing|].
  rewrite (executeAction_path url action p s Hp), Hty, Hd.
  assert (Hne : forall a b, a <> b -> App.isStr ty a = true -> App.isStr ty b = false).
  { intros a b Hab. destruct ty; try discriminate. cbn [App.isStr].
    intros Ha. apply str_eqb_eq in Ha. subst. now apply str_eqb_neq. }
  repeat split.
  - now rewrite H0.
  - rewrite H0, deleteData_run, snd_let. now apply storeCall_sent.
  - rewrite (Hne (JS.lit "SET") (JS.lit "DELETE")), H0 by (discriminate || assumption).
    reflexivity.
  - rewrite (Hne (JS.lit "SET") (JS.lit "DELETE")), H0 by (discriminate || assumption).
    rewrite writeData_run, snd_let. now apply storeCall_sent.
  - rewrite (Hne (JS.lit "UPDATE") (JS.lit "DELETE")),
      (Hne (JS.lit "UPDATE") (JS.lit "SET")), H0 by (discriminate || assumption).
    reflexivity.
  - rewrite (Hne (JS.lit "UPDATE") (JS.lit "DELETE")),
      (Hne (JS.lit "UPDATE") (JS.lit "SET")), H0 by (discriminate || assumption).
    rewrite updateData_run, snd_let. now apply storeCall_sent.
Qed.

(** A run of X11: a [SET] without data on a path with a leading slash. *)
Lemma action_request_witness :
  let s := Scripted.start [] Scripted.app0 Scripted.node0 in
  Types.sent (snd (App.executeAction (H := Scripted.host) (JS.lit "demo")
                     (Scripted.action "SET" "/users/1" None) s))
  = [Net.mkRequest (JS.lit "https://demo.firebaseio.com/users/1.json")
       Net.PUT (Some JS.Undefined)].
Proof.
  intros s.
  destruct (action_request Scripted.host (JS.lit "demo")
              (Scripted.action "SET" "/users/1" None) (JS.Str (JS.lit "SET"))
              (JS.lit "/users/1") (JS.lit "https://demo.firebaseio.com/users/1.json")
              s eq_refl eq_refl eq_refl)
    as (d & Hd & _ & _ & Hset & _).
  injection Hd as <-.
  exact (f_equal Types.sent (proj2 (Hset eq_refl))).
Defined.

(** X12. An action without a string for its path cannot be executed:
    the executor throws a [TypeError] before anything is sent and leaves
    the state as it was, whatever the kind of the action. *)
Theorem action_without_path_throws :
  forall (H : Net.Host) (url : JS.str) (action : JS.value) (s : Types.St),
    (forall p, JS.getProp action (JS.lit "path") <> JS.OK (JS.Str p)) ->
    exists msg,
      App.executeAction url action s = (JS.Throw (JS.TypeError msg), s).
Proof.
  intros H url action s Hp. unfold App.executeAction, Types.mbind at 1, Types.liftR.
  destruct (JS.getProp action (JS.lit "path")) as [v|e] eqn:Ev.
  - unfold Types.mbind at 1.
    destruct v; try (eexists; reflexivity). now elim (Hp s0).
  - destruct action; cbn [JS.getProp] in Ev; try discriminate.
    1,2: injection Ev as <-; eexists; reflexivity.
    destruct (JS.lookup _ _); discriminate.
Qed.

(** A run of X12: a plan step that names its target [target], not [path]. *)
Lemma action_without_path_throws_witness :
  let s := Scripted.start [] Scripted.app0 Scripted.node0 in
  let step := JS.Obj [(JS.lit "type", JS.Str (JS.lit "DELETE"));
                      (JS.lit "target", JS.Str (JS.lit "users/1"))] in
  exists msg,
    App.executeAction (H := Scripted.host) (JS.lit "demo") step s
    = (JS.Throw (JS.TypeError msg), s).
Proof.
  intros s step.
  exact (action_without_path_throws Scripted.host (JS.lit "demo") step s
           ltac:(discriminate)).
Defined.

(** X13. When every action of a plan succeeds, the notification raised
    counts the whole plan, actions of an unknown kind included: its text
    is [Successfully executed n actions.] with [n] the length of the
    plan, while the requests sent for the actions may be fewer than [n];
    the reload of the root follows them. *)
Theorem success_counts_the_plan :
  forall (H : Net.Host) (s s1 : Types.St) (plan : Types.AIResponse),
    Types.aiResult (Types.app s) = Some plan ->
    Types.actions plan <> [] ->
    Spec.Runs (Types.db_url (Types.dbInfo (Types.app s))) (Types.actions plan)
      (Spec.busy s) s1 ->
    exists s' reqs rest,
      App.handleExecuteAiPlan s = (JS.OK tt, s') /\
      Types.notifications (Types.app s') =
        Types.notifications (Types.app s) ++
        Types.mkNotification Types.success
          (JS.lit "Successfully executed " ++
           JS.decimal (N.of_nat (List.length (Types.actions plan))) ++
           JS.lit " actions.")
          (Net.now (Types.world s1)) :: rest /\
      Types.sent s' = Types.sent s ++ reqs ++ [Spec.rootRequest (Types.app s)] /\
      (List.length reqs <= List.length (Types.actions plan))%nat /\
      Forall (fun rq => Net.method rq <> Net.GET) reqs.
Proof.
  intros H s s1 plan Hplan Hne Hruns.
  pose proof (runActions_all _ _ 0%N _ _ Hruns) as Hall.
  destruct (handle_success s plan _ s1 Hplan Hne Hall)
    as (s' & Hrun & Hsent & _ & _ & _ & _ & _ & _ & _ & rest & Hnotes).
  destruct (Runs_grows _ _ _ _ Hruns) as (reqs & (Happ & _ & _ & Hsent1) & Hlen & Hm).
  exists s', reqs, rest. split; [exact Hrun|].
  rewrite Hnotes, Hsent, Hsent1, Happ. cbn.
  rewrite <- app_assoc. auto.
Qed.

(** A run of X13: two steps, the first of a kind the executor does not
    know; one write goes out and two actions are reported. *)
Lemma success_counts_the_plan_witness :
  let s := Scripted.start []
             (Scripted.withPlan [Scripted.action "MOVE" "a" None;
                                 Scripted.action "SET" "b" (Some JS.Null)])
             Scripted.node0 in
  exists s' rest,
    App.handleExecuteAiPlan (H := Scripted.host) s = (JS.OK tt, s') /\
    Types.notifications (Types.app s') =
      Types.mkNotification Types.success
        (JS.lit "Successfully executed 2 actions.") 0%N :: rest.
Proof.
  intros s.
  destruct (success_counts_the_plan Scripted.host s
              (snd (App.runActions (H := Scripted.host)
                      (JS.lit "https://demo.firebaseio.com")
                      [Scripted.action "MOVE" "a" None;
                       Scripted.action "SET" "b" (Some JS.Null)] 0%N (Spec.busy s)))
              (Types.mkAIResponse (JS.Str (JS.lit "plan"))
                 [Scripted.action "MOVE" "a" None;
                  Scripted.action "SET" "b" (Some JS.Null)])
              eq_refl ltac:(discriminate)
              ltac:(econstructor; [reflexivity|];
                    econstructor; [reflexivity|]; constructor))
    as (s' & reqs & rest & Hrun & Hnotes & _).
  exists s', rest. split; [exact Hrun | exact Hnotes].
Defined.

(** X14. The generator only talks to the model: whatever the answer, it
    sends nothing to the store and leaves the page, the node and the
    alerts as they were. Every error it throws is a plain [Error] whose
    message is [Model not found. Check API Key.] or starts with
    [AI Error: ]. *)
Theorem generator_is_contained :
  forall (H : Net.Host) (prompt : JS.str) (cur : JS.value) (keys : list JS.str)
         (base : JS.str) (s : Types.St),
    Spec.grows s (snd (geminiService.generateDataWithAI prompt cur keys base s)) [] /\
    (forall e,
       fst (geminiService.generateDataWithAI prompt cur keys base s) = JS.Throw e ->
       JS.name e = JS.lit "Error" /\
       (JS.message e = JS.lit "Model not found. Check API Key." \/
        JS.startsWith (JS.lit "AI Error: ") (JS.message e) = true)).
Proof.
  intros H prompt cur keys base s. rewrite generateDataWithAI_run. cbn [fst snd].
  split; [unfold Spec.grows; cbn; rewrite app_nil_r; auto|].
  intros e.
  destruct (fst (Net.generateContent (Types.world s) _)) as [[text|]|e0].
  - destruct text as [|c text]; [intros [= <-]; auto|].
    destruct (JS.bind _ _); [discriminate | intros [= <-]; auto].
  - intros [= <-]; auto.
  - destruct (geminiService.includes (JS.lit "404") (JS.message e0) ||
              geminiService.includes (JS.lit "NOT_FOUND") (JS.message e0));
      intros [= <-]; split; auto.
Qed.

(** A run of X14: the model answers with a text that is not JSON. *)
Lemma generator_is_contained_witness :
  let s := Scripted.answering (JS.lit "Sorry, I cannot help with that.") in
  JS.startsWith (JS.lit "AI Error: ")
    (JS.lit "AI Error: AI response was not valid JSON.") = true.
Proof.
  intros s.
  destruct (proj2 (generator_is_contained Scripted.host (JS.lit "tidy up")
                     JS.Null [] [] s)
              (JS.Error (JS.lit "AI Error: AI response was not valid JSON."))
              eq_refl) as [_ [Hm | Hs]].
  - discriminate Hm.
  - exact Hs.
Defined.

(** X15. How the generator fails. No text or an empty text from the
    model gives [AI Error: No response from AI]; any other text that is
    not JSON gives [AI Error: AI response was not valid JSON.]; a rejection whose
    message holds [404] or [NOT_FOUND] anywhere gives [Model not found.
    Check API Key.]; any other rejection gives [AI Error: ] followed by
    its message, or by [Failed to process request] when it has none. *)
Theorem generator_failures :
  forall (H : Net.Host) (prompt : JS.str) (cur : JS.value) (keys : list JS.str)
         (base : JS.str) (s : Types.St),
    let answer := fst (Net.generateContent (Types.world s)
                         (Net.mkGenRequest prompt cur keys base)) in
    let thrown := fun msg =>
      fst (geminiService.generateDataWithAI prompt cur keys base s)
      = JS.Throw (JS.Error msg) in
    (answer = JS.OK None \/ answer = JS.OK (Some []) ->
     thrown (JS.lit "AI Error: No response from AI")) /\
    (forall text e, answer = JS.OK (Some text) -> text <> [] ->
     JS.JSON_parse text = JS.Throw e ->
     thrown (JS.lit "AI Error: AI response was not valid JSON.")) /\
    (forall e, answer = JS.Throw e ->
     (geminiService.includes (JS.lit "404") (JS.message e) ||
      geminiService.includes (JS.lit "NOT_FOUND") (JS.message e) = true ->
      thrown (JS.lit "Model not found. Check API Key.")) /\
     (geminiService.includes (JS.lit "404") (JS.message e) ||
      geminiService.includes (JS.lit "NOT_FOUND") (JS.message e) = false ->
      thrown (JS.lit "AI Error: " ++
              JS.orElse (JS.message e) (JS.lit "Failed to process request")))).
Proof.
  intros H prompt cur keys base s answer thrown. subst answer thrown. cbv beta.
  rewrite generateDataWithAI_run. cbn [fst].
  split; [|split].
  - intros [-> | ->]; reflexivity.
  - intros text e -> Hne He. destruct text as [|c text]; [congruence|].
    now rewrite He.
  - intros e ->. split; intros ->; reflexivity.
Qed.

(** A run of X15: the quota message of a project whose number holds 404. *)
Lemma generator_failures_witness :
  let s := @Types.mkSt Scripted.host
             (Scripted.mkWorld []
                (JS.Throw (JS.Error (JS.lit "Quota exceeded for project 14048"))))
             [] Scripted.app0 Scripted.node0 [] in
  fst (geminiService.generateDataWithAI (H := Scripted.host)
         (JS.lit "tidy up") JS.Null [] [] s)
  = JS.Throw (JS.Error (JS.lit "Model not found. Check API Key.")).
Proof.
  intros s.
  exact (proj1 (proj2 (proj2
           (generator_failures Scripted.host (JS.lit "tidy up") JS.Null [] [] s))
           _ eq_refl) eq_refl).
Defined.

(* ===================================================================== *)
(** ** More on the page: the reload and the handlers of a node *)
(* ===================================================================== *)

Section MoreHandlers.
Import JS Net Types firebaseService geminiService Spec SpecRest.
Local Open Scope N_scope.
Context {H : Host}.

(** A call on a path reads the world and the log only: the cells of the
    page and of the node ride along. *)
Lemma storeCall_frame m body denied failed fallback u p s a n al :
  storeCall m body denied failed fallback u p (mkSt (world s) (sent s) a n al) =
  (fst (storeCall m body denied failed fallback u p s),
   mkSt (world (snd (storeCall m body denied failed fallback u p s)))
        (sent (snd (storeCall m body denied failed fallback u p s))) a n al).
Proof.
  unfold storeCall. destruct (buildEndpoint u p) as [ep|e]; reflexivity.
Qed.

Lemma writeData_frame u p d s a n al :
  writeData u p d (mkSt (world s) (sent s) a n al) =
  (fst (writeData u p d s),
   mkSt (world (snd (writeData u p d s))) (sent (snd (writeData u p d s))) a n al).
Proof.
  rewrite !writeData_run, storeCall_frame.
  now destruct (storeCall _ _ _ _ _ u p s).
Qed.

Lemma deleteData_frame u p s a n al :
  deleteData u p (mkSt (world s) (sent s) a n al) =
  (fst (deleteData u p s),
   mkSt (world (snd (deleteData u p s))) (sent (snd (deleteData u p s))) a n al).
Proof.
  rewrite !deleteData_run, storeCall_frame.
  now destruct (storeCall _ _ _ _ _ u p s).
Qed.

Lemma readData_frame u p s a n al :
  readData u p (mkSt (world s) (sent s) a n al) =
  (fst (readData u p s),
   mkSt (world (snd (readData u p s))) (sent (snd (readData u p s))) a n al).
Proof.
  rewrite !readData_run, storeCall_frame.
  now destruct (storeCall _ _ _ _ _ u p s).
Qed.

(** A read of the root sends its one request whatever comes back. *)
Lemma readData_root_sent u s :
  sent (snd (readData u [] s)) =
    sent s ++ [mkRequest (cleanUrl u ++ lit "/.json") GET None] /\
  world (snd (readData u [] s)) =
    snd (fetch (world s) (mkRequest (cleanUrl u ++ lit "/.json") GET None)).
Proof.
  rewrite readData_run, snd_let. unfold storeCall. rewrite buildEndpoint_root.
  split; reflexivity.
Qed.

Lemma readData_thrown u p s e :
  fst (readData u p s) = Throw e -> message e <> [].
Proof.
  rewrite readData_run, fst_let.
  destruct (storeCall _ _ _ _ _ u p s) as [r s1] eqn:Hrun. cbn [fst].
  destruct r as [res|e0]; cbn [bind].
  - destruct (json res) as [v|e1]; [discriminate|]. intros [= <-].
    cbn [message Error]. now apply orElse_nonempty.
  - intros [= <-].
    eapply storeCall_thrown in Hrun; [now destruct Hrun | discriminate..].
Qed.

Lemma orElse_keeps (a b : str) : a <> [] -> orElse a b = a.
Proof. destruct a; [congruence | reflexivity]. Qed.

(** The reload, outcome by outcome of its read. *)
Lemma fetchRootData_cases (url : option str) (s : St) :
  let u := match url with
           | Some u => u
           | None => db_url (dbInfo (app s))
           end in
  let rq := mkRequest (cleanUrl u ++ lit "/.json") GET None in
  let w := snd (fetch (world s) rq) in
  App.fetchRootData url s =
  (OK tt,
   mkSt w (sent s ++ [rq])
     (match fst (readData u [] s) with
      | OK v =>
          setLoading false
            (match viewMode (app s) with
             | raw => setRawJsonInput (prettyJSON v) (setData v (app s))
             | tree => setData v (app s)
             end)
      | Throw e =>
          setLoading false
            (setNotifications
               (fun prev => prev ++ [mkNotification error (message e) (now w)])
               (app s))
      end)
     (node s) (alerts s)).
Proof.
  intros u rq w. unfold App.fetchRootData, mbind at 1, getApp.
  fold u. unfold mbind at 1, setApp at 1.
  unfold finally, tryCatch, mbind at 1.
  rewrite (readData_frame u [] s).
  destruct (readData_root_sent u s) as [Hsent Hworld]. fold rq in Hsent, Hworld.
  rewrite Hsent, Hworld. fold w.
  destruct (fst (readData u [] s)) as [v|e] eqn:Hr.
  - destruct (viewMode (app s)); reflexivity.
  - apply readData_thrown in Hr.
    unfold App.notify, mbind, getNow, setApp. cbn [world app sent node alerts].
    rewrite (orElse_keeps _ _ Hr). reflexivity.
Qed.

Lemma afterLiteral_head (x : N) (q : str) (c : N) (t : str) :
  x <> c -> afterLiteral (x :: q) (c :: t) = None.
Proof.
  intros Hx. unfold afterLiteral. cbn [startsWith].
  apply N.eqb_neq in Hx. now rewrite Hx.
Qed.

(** An all-white-space text is no JSON text. *)
Lemma JSON_parse_blank (raw : str) :
  trim raw = [] -> exists e, JSON_parse raw = Throw e.
Proof.
  intros Hb.
  assert (Hall : forallb isWhiteSpace raw = true).
  { apply dropWhile_nil_all. unfold trim in Hb.
    destruct (dropWhile isWhiteSpace raw) as [|c t] eqn:Ed; [reflexivity|].
    exfalso. unfold dropWhileEnd in Hb.
    apply (f_equal (@rev N)) in Hb. rewrite rev_involutive in Hb.
    change (rev []) with (@nil N) in Hb.
    apply dropWhile_nil_all in Hb. rewrite forallb_rev in Hb.
    assert (Hc : isWhiteSpace c = false).
    { destruct raw as [|x raw]; [discriminate|].
      clear Hb. revert Ed. generalize (x :: raw). intros l.
      induction l as [|y l IH]; cbn [dropWhile]; [discriminate|].
      destruct (isWhiteSpace y) eqn:Ey; [exact IH|]. now intros [= <- _]. }
    cbn [forallb] in Hb. now rewrite Hc in Hb. }
  unfold JSON_parse.
  destruct (parseValue _ raw) as [[v r]|] eqn:Ep; [|eauto].
  exfalso. destruct (2 * List.length raw + 2)%nat as [|fuel]; [discriminate|].
  cbn [parseValue] in Ep.
  assert (Hskip : forallb isWhiteSpace (skipWs raw) = true).
  { clear Ep Hb. unfold skipWs. induction raw as [|c t IH]; [reflexivity|].
    cbn [dropWhile]. cbn [forallb] in Hall. apply andb_true_iff in Hall as [Hc Ht].
    destruct (isJsonWs c); [now apply IH|]. cbn [forallb]. now rewrite Hc, Ht. }
  destruct (skipWs raw) as [|c t]; [discriminate|].
  cbn [forallb] in Hskip. apply andb_true_iff in Hskip as [Hc _].
  assert (Hcs : c = 9 \/ c = 10 \/ c = 11 \/ c = 12 \/ c = 13 \/ c = 32 \/ 160 <= c).
  { unfold isWhiteSpace in Hc.
    rewrite !orb_true_iff, !andb_true_iff, !N.eqb_eq, !N.leb_le in Hc. lia. }
  assert (H123 : (c =? 123) = false) by (apply N.eqb_neq; lia).
  assert (H91 : (c =? 91) = false) by (apply N.eqb_neq; lia).
  assert (H34 : (c =? 34) = false) by (apply N.eqb_neq; lia).
  rewrite H123, H91, H34 in Ep.
  assert (E1 : afterLiteral (lit "true") (c :: t) = None)
    by (exact (afterLiteral_head 116 (lit "rue") c t ltac:(lia))).
  assert (E2 : afterLiteral (lit "false") (c :: t) = None)
    by (exact (afterLiteral_head 102 (lit "alse") c t ltac:(lia))).
  assert (E3 : afterLiteral (lit "null") (c :: t) = None)
    by (exact (afterLiteral_head 110 (lit "ull") c t ltac:(lia))).
  rewrite E1, E2, E3 in Ep.
  destruct (parseJsonNumber (c :: t)) as [[x y]|] eqn:En; [|discriminate].
  clear Ep. unfold parseJsonNumber in En.
  assert (Hminus : (c =? 45) = false) by (apply N.eqb_neq; lia).
  assert (Hdig : isDigit c = false).
  { unfold isDigit. apply andb_false_iff. rewrite !N.leb_gt. lia. }
  revert En. cbn [parseJsonNumber]. rewrite Hminus.
  cbn [spanDigits]. rewrite Hdig. cbn [negb]. discriminate.
Qed.

(** The reload never throws. *)
Lemma fetchRootData_pair (url : option str) (s : St) :
  App.fetchRootData url s = (OK tt, snd (App.fetchRootData url s)).
Proof. rewrite (fetchRootData_cases url s). reflexivity. Qed.

(** [handleSave], by the outcome of its write. *)
Lemma handleSave_cases path name v0 dbUrl depth (s : St) :
  let w := writeData dbUrl (DataNode.displayPath path name)
             (DataNode.smartParse (editValue (node s))) s in
  DataNode.handleSave (App.nodeProps path name v0 dbUrl depth) s =
  match fst w with
  | OK _ =>
      let s2 := snd (App.fetchRootData None
                  (mkSt (world (snd w)) (sent (snd w)) (app s)
                     (setIsEditing false (setNodeLoading true (node s)))
                     (alerts s))) in
      (OK tt, mkSt (world s2) (sent s2) (app s2)
                (setNodeLoading false (node s2)) (alerts s2))
  | Throw e =>
      (OK tt, mkSt (world (snd w)) (sent (snd w)) (app s)
                (setNodeLoading false (setNodeLoading true (node s)))
                (alerts s ++ [lit "Failed to save data. Check your format."]))
  end.
Proof.
  intros w. unfold DataNode.handleSave, App.nodeProps.
  cbn [DataNode.dbUrl DataNode.path DataNode.name DataNode.onRefresh].
  unfold mbind at 1, setNode at 1.
  unfold finally, tryCatch, mbind at 1, getNode.
  unfold mbind at 1. cbn [node].
  change (editValue (setNodeLoading true (node s))) with (editValue (node s)).
  rewrite writeData_frame. fold w.
  destruct (fst w) as [[]|e].
  - unfold mbind, setNode. cbn [world sent app node alerts].
    rewrite fetchRootData_pair. reflexivity.
  - reflexivity.
Qed.

(** [handleAddChild] with a key that is not blank, by the outcome of its
    write. *)
Lemma handleAddChild_cases path name v0 dbUrl depth (s : St) :
  trim (newKey (node s)) <> [] ->
  let dp := DataNode.displayPath path name in
  let w := writeData dbUrl
             (match dp with
              | [] => newKey (node s)
              | _ :: _ => dp ++ lit "/" ++ newKey (node s)
              end)
             (DataNode.childValue (newValue (node s))) s in
  DataNode.handleAddChild (App.nodeProps path name v0 dbUrl depth) s =
  match fst w with
  | OK _ =>
      let s2 := snd (App.fetchRootData None
                  (mkSt (world (snd w)) (sent (snd w)) (app s)
                     ((if expanded (node s) then fun n => n else setExpanded true)
                        (setNewValue [] (setNewKey [] (setIsAdding false
                           (setNodeLoading true (node s))))))
                     (alerts s))) in
      (OK tt, mkSt (world s2) (sent s2) (app s2)
                (setNodeLoading false (node s2)) (alerts s2))
  | Throw e =>
      (OK tt, mkSt (world (snd w)) (sent (snd w)) (app s)
                (setNodeLoading false (setNodeLoading true (node s)))
                (alerts s ++ [lit "Failed to add data."]))
  end.
Proof.
  intros Hkey dp w. unfold DataNode.handleAddChild, App.nodeProps.
  cbn [DataNode.dbUrl DataNode.path DataNode.name DataNode.onRefresh].
  unfold mbind at 1, getNode.
  destruct (trim (newKey (node s))) as [|k0 k]; [congruence|].
  unfold mbind at 1, setNode at 1.
  unfold finally, tryCatch, mbind at 1.
  fold dp. rewrite writeData_frame. fold w.
  destruct (fst w) as [[]|e].
  - unfold mbind, setNode, ret. cbn [world sent app node alerts].
    destruct (expanded (node s)) eqn:Hexp; cbn [negb world sent app node alerts];
      rewrite fetchRootData_pair; reflexivity.
  - reflexivity.
Qed.

(** [handleDelete] once confirmed, by the outcome of its removal. *)
Lemma handleDelete_cases path name v0 dbUrl depth confirm (s : St) :
  let w := deleteData dbUrl (DataNode.displayPath path name) s in
  DataNodeRest.handleDelete (App.nodeProps path name v0 dbUrl depth) confirm s =
  if confirm (warning ++ lit " Are you sure you want to delete " ++ [34] ++
              name ++ [34] ++ lit "? This cannot be undone.")
  then
    match fst w with
    | OK _ =>
        let s2 := snd (App.fetchRootData None
                    (mkSt (world (snd w)) (sent (snd w)) (app s)
                       (setNodeLoading true (node s)) (alerts s))) in
        (OK tt, mkSt (world s2) (sent s2) (app s2)
                  (setNodeLoading false (node s2)) (alerts s2))
    | Throw e =>
        (OK tt, mkSt (world (snd w)) (sent (snd w)) (app s)
                  (setNodeLoading false (setNodeLoading true (node s)))
                  (alerts s ++ [lit "Failed to delete node."]))
    end
  else (OK tt, s).
Proof.
  intros w. unfold DataNodeRest.handleDelete, App.nodeProps.
  cbn [DataNode.dbUrl DataNode.path DataNode.name DataNode.onRefresh].
  destruct (confirm _); [|reflexivity].
  unfold mbind at 1, setNode at 1.
  unfold finally, tryCatch, mbind at 1.
  rewrite deleteData_frame. fold w.
  destruct (fst w) as [[]|e].
  - unfold mbind, setNode. cbn [world sent app node alerts].
    rewrite fetchRootData_pair. reflexivity.
  - reflexivity.
Qed.

(** What a reload leaves of the node, the alerts and the log. *)
Lemma fetchRootData_leaves (s : St) :
  node (snd (App.fetchRootData None s)) = node s /\
  alerts (snd (App.fetchRootData None s)) = alerts s /\
  sent (snd (App.fetchRootData None s)) = sent s ++ [rootRequest (app s)].
Proof. rewrite fetchRootData_cases. cbn [snd node alerts sent]. auto. Qed.

Lemma smartParse_blank (raw : str) :
  trim raw = [] -> DataNode.smartParse raw = Str raw.
Proof.
  intros Hb. unfold DataNode.smartParse.
  assert (Hne : forall t, trim t <> [] -> str_eqb raw t = false).
  { intros t Ht. apply str_eqb_neq. intros ->. contradiction. }
  rewrite (Hne (lit "true")), (Hne (lit "false")), (Hne (lit "null")) by discriminate.
  rewrite Hb. change (str_eqb [] []) with true. cbn [negb]. rewrite andb_false_r.
  now destruct (JSON_parse_blank raw Hb) as [e ->].
Qed.

Lemma blank_no_bracket (raw : str) :
  trim raw = [] -> startsWith (lit "{") raw || startsWith (lit "[") raw = false.
Proof.
  intros Hb. destruct raw as [|c t]; [reflexivity|].
  destruct (isWhiteSpace c) eqn:Hc.
  - change (startsWith (lit "{") (c :: t)) with ((123 =? c) && true).
    change (startsWith (lit "[") (c :: t)) with ((91 =? c) && true).
    rewrite !andb_true_r.
    destruct (N.eqb_spec 123 c) as [<-|]; [discriminate|].
    destruct (N.eqb_spec 91 c) as [<-|]; [discriminate|]. reflexivity.
  - destruct (trim_head c t Hc) as [t' Ht]. congruence.
Qed.

Lemma childValue_blank (raw : str) :
  trim raw = [] -> DataNode.childValue raw = Str raw.
Proof.
  intros Hb. unfold DataNode.childValue.
  assert (Hne : forall t, trim t <> [] -> str_eqb raw t = false).
  { intros t Ht. apply str_eqb_neq. intros ->. contradiction. }
  rewrite (Hne (lit "true")), (Hne (lit "false")) by discriminate.
  rewrite (blank_no_bracket raw Hb).
  rewrite Hb. change (str_eqb [] []) with true. cbn [negb]. now rewrite andb_false_r.
Qed.

End MoreHandlers.

(** X16. The reload sends one GET for the root and never throws. When
    the read succeeds the data shown is what was read, and the text of
    the raw view follows it only in raw mode; when the read fails the
    data shown and the raw text stay, and one error notification is
    raised with the message of the failure (the fallback text of the
    handler is never used: a failed read always has a message). In both
    cases [loading] ends as [false]. *)
Theorem reload_outcomes :
  forall (H : Net.Host) (url : option JS.str) (s : Types.St),
    let u := match url with
             | Some u => u
             | None => Types.db_url (Types.dbInfo (Types.app s))
             end in
    let rq := Net.mkRequest (firebaseService_url.cleanUrl u ++ JS.lit "/.json")
                Net.GET None in
    exists s',
      App.fetchRootData url s = (JS.OK tt, s') /\
      Types.sent s' = Types.sent s ++ [rq] /\
      Types.loading (Types.app s') = false /\
      Types.node s' = Types.node s /\
      Types.alerts s' = Types.alerts s /\
      match fst (firebaseService.readData u [] s) with
      | JS.OK v =>
          Types.data (Types.app s') = v /\
          Types.notifications (Types.app s') = Types.notifications (Types.app s) /\
          Types.rawJsonInput (Types.app s') =
            match Types.viewMode (Types.app s) with
            | Types.raw => Net.prettyJSON v
            | Types.tree => Types.rawJsonInput (Types.app s)
            end
      | JS.Throw e =>
          Types.data (Types.app s') = Types.data (Types.app s) /\
          Types.rawJsonInput (Types.app s') = Types.rawJsonInput (Types.app s) /\
          JS.message e <> [] /\
          Types.notifications (Types.app s') =
            Types.notifications (Types.app s) ++
            [Types.mkNotification Types.error (JS.message e)
               (Net.now (Types.world s'))]
      end.
Proof.
  intros H url s u rq. eexists. split; [apply fetchRootData_cases|].
  fold u. fold rq. cbn [Types.sent Types.app Types.node Types.alerts Types.world].
  split; [reflexivity|].
  destruct (fst (firebaseService.readData u [] s)) as [v|e] eqn:Hr.
  - split; [reflexivity|]. split; [reflexivity|]. split; [reflexivity|].
    destruct (Types.viewMode (Types.app s)); repeat split; reflexivity.
  - split; [reflexivity|]. split; [reflexivity|]. split; [reflexivity|].
    repeat split; try reflexivity. now apply readData_thrown in Hr.
Qed.

(** X17. Saving an edit never throws and always ends with the node no
    longer loading. When the write succeeds the edit box is closed, no
    alert is shown and the root is read again right after the PUT. When
    it fails, for whatever reason, the edit box stays as it was, the one
    alert [Failed to save data. Check your format.] is shown, nothing
    is read again and the page is left untouched. *)
Theorem save_outcomes :
  forall (H : Net.Host) (s : Types.St) (path name : JS.str) (v0 : JS.value)
         (dbUrl : JS.str) (depth : nat),
    let v := DataNode.smartParse (Types.editValue (Types.node s)) in
    let w := firebaseService.writeData dbUrl (DataNode.displayPath path name) v s in
    exists s' put,
      DataNode.handleSave (App.nodeProps path name v0 dbUrl depth) s = (JS.OK tt, s') /\
      Types.nodeLoading (Types.node s') = false /\
      Types.editValue (Types.node s') = Types.editValue (Types.node s) /\
      (List.length put <= 1)%nat /\
      Forall (fun rq => Net.method rq = Net.PUT /\ Net.body rq = Some v) put /\
      match fst w with
      | JS.OK _ =>
          Types.isEditing (Types.node s') = false /\
          Types.alerts s' = Types.alerts s /\
          Types.sent s' = Types.sent s ++ put ++ [Spec.rootRequest (Types.app s)]
      | JS.Throw e =>
          Types.isEditing (Types.node s') = Types.isEditing (Types.node s) /\
          Types.alerts s' =
            Types.alerts s ++ [JS.lit "Failed to save data. Check your format."] /\
          Types.sent s' = Types.sent s ++ put /\
          Types.app s' = Types.app s
      end.
Proof.
  intros H s path name v0 dbUrl depth v w.
  destruct (writeData_grows dbUrl (DataNode.displayPath path name) v s
              (fst w) (snd w) (surjective_pairing _))
    as (put & (_ & _ & _ & Hsent) & Hlen & Hput).
  pose proof (handleSave_cases path name v0 dbUrl depth s) as Hrun.
  cbv zeta in Hrun. fold v in Hrun. fold w in Hrun.
  destruct (fst w) as [[]|e]; eexists; exists put; (split; [exact Hrun|]).
  - match goal with
    | |- context [App.fetchRootData None ?st] =>
        destruct (fetchRootData_leaves st) as (Hn & Ha & Hs)
    end.
    cbn [Types.node Types.alerts Types.sent Types.app].
    rewrite Hn, Ha, Hs. cbn [Types.node Types.alerts Types.sent Types.app].
    rewrite Hsent, <- app_assoc. repeat split; auto.
  - cbn [Types.node Types.alerts Types.sent Types.app].
    rewrite Hsent. repeat split; auto.
Qed.

(** X18. Adding a child with a blank key does nothing at all. With a
    key, the handler never throws and ends with the node no longer
    loading: after a successful write the form is closed and emptied,
    the node is open and the root is read again; after a failed write
    the form keeps what was typed, the alert [Failed to add data.] is
    shown and nothing is read again. *)
Theorem add_child_outcomes :
  forall (H : Net.Host) (s : Types.St) (path name : JS.str) (v0 : JS.value)
         (dbUrl : JS.str) (depth : nat),
    let props := App.nodeProps path name v0 dbUrl depth in
    let dp := DataNode.displayPath path name in
    let w := firebaseService.writeData dbUrl
               (match dp with
                | [] => Types.newKey (Types.node s)
                | _ :: _ => dp ++ JS.lit "/" ++ Types.newKey (Types.node s)
                end)
               (DataNode.childValue (Types.newValue (Types.node s))) s in
    (JS.trim (Types.newKey (Types.node s)) = [] ->
     DataNode.handleAddChild props s = (JS.OK tt, s)) /\
    (JS.trim (Types.newKey (Types.node s)) <> [] ->
     exists s',
       DataNode.handleAddChild props s = (JS.OK tt, s') /\
       Types.nodeLoading (Types.node s') = false /\
       match fst w with
       | JS.OK _ =>
           Types.isAdding (Types.node s') = false /\
           Types.newKey (Types.node s') = [] /\
           Types.newValue (Types.node s') = [] /\
           Types.expanded (Types.node s') = true /\
           Types.alerts s' = Types.alerts s /\
           Types.sent s' = Types.sent (snd w) ++ [Spec.rootRequest (Types.app s)]
       | JS.Throw e =>
           Types.isAdding (Types.node s') = Types.isAdding (Types.node s) /\
           Types.newKey (Types.node s') = Types.newKey (Types.node s) /\
           Types.newValue (Types.node s') = Types.newValue (Types.node s) /\
           Types.expanded (Types.node s') = Types.expanded (Types.node s) /\
           Types.alerts s' = Types.alerts s ++ [JS.lit "Failed to add data."] /\
           Types.sent s' = Types.sent (snd w) /\
           Types.app s' = Types.app s
       end).
Proof.
  intros H s path name v0 dbUrl depth props dp w. split.
  - intros Hb. unfold props, DataNode.handleAddChild, Types.mbind at 1, Types.getNode.
    now rewrite Hb.
  - intros Hkey.
    pose proof (handleAddChild_cases path name v0 dbUrl depth s Hkey) as Hrun.
    cbv zeta in Hrun. fold dp in Hrun. fold w in Hrun. fold props in Hrun.
    destruct (fst w) as [[]|e]; eexists; (split; [exact Hrun|]).
    + match goal with
      | |- context [App.fetchRootData None ?st] =>
          destruct (fetchRootData_leaves st) as (Hn & Ha & Hs)
      end.
      cbn [Types.node Types.alerts Types.sent Types.app].
      rewrite Hn, Ha, Hs. cbn [Types.node Types.alerts Types.sent Types.app].
      destruct (Types.expanded (Types.node s)) eqn:Hexp; repeat split; auto.
    + cbn [Types.node Types.alerts Types.sent Types.app]. repeat split; auto.
Qed.

(** A run of X18: a key of two spaces. *)
Lemma add_child_outcomes_witness :
  let s := Scripted.start [] Scripted.app0
             (Scripted.adding (JS.lit "  ") (JS.lit "1")) in
  DataNode.handleAddChild (H := Scripted.host)
    (App.nodeProps [] (JS.lit "users") JS.Null (JS.lit "demo") 0) s
  = (JS.OK tt, s).
Proof.
  intros s.
  exact (proj1 (add_child_outcomes Scripted.host s [] (JS.lit "users") JS.Null
                  (JS.lit "demo") 0%nat) eq_refl).
Defined.

(** X19. A removal that is not confirmed does nothing. Once confirmed,
    the handler never throws and ends with the node no longer loading:
    after a successful DELETE at the node's path the root is read again
    and no alert is shown; after a failed one the alert [Failed to
    delete node.] is shown, nothing is read again and the page is left
    untouched. The question put to the user names the node between
    double quotes. *)
Theorem delete_outcomes :
  forall (H : Net.Host) (s : Types.St) (path name : JS.str) (v0 : JS.value)
         (dbUrl : JS.str) (depth : nat) (confirm : JS.str -> bool),
    let props := App.nodeProps path name v0 dbUrl depth in
    let question := firebaseService.warning ++
                    JS.lit " Are you sure you want to delete " ++ [34%N] ++
                    name ++ [34%N] ++ JS.lit "? This cannot be undone." in
    let w := firebaseService.deleteData dbUrl (DataNode.displayPath path name) s in
    (confirm question = false ->
     DataNodeRest.handleDelete props confirm s = (JS.OK tt, s)) /\
    (confirm question = true ->
     exists s' del,
       DataNodeRest.handleDelete props confirm s = (JS.OK tt, s') /\
       Types.nodeLoading (Types.node s') = false /\
       (List.length del <= 1)%nat /\
       Forall (fun rq => Net.method rq = Net.DELETE /\ Net.body rq = None) del /\
       match fst w with
       | JS.OK _ =>
           Types.alerts s' = Types.alerts s /\
           Types.sent s' = Types.sent s ++ del ++ [Spec.rootRequest (Types.app s)]
       | JS.Throw e =>
           Types.alerts s' = Types.alerts s ++ [JS.lit "Failed to delete node."] /\
           Types.sent s' = Types.sent s ++ del /\
           Types.app s' = Types.app s
       end).
Proof.
  intros H s path name v0 dbUrl depth confirm props question w.
  pose proof (handleDelete_cases path name v0 dbUrl depth confirm s) as Hrun.
  cbv zeta in Hrun. fold question in Hrun. fold w in Hrun. fold props in Hrun.
  split; intros Hc; rewrite Hc in Hrun; [exact Hrun|].
  destruct (deleteData_grows dbUrl (DataNode.displayPath path name) s
              (fst w) (snd w) (surjective_pairing _))
    as (del & (_ & _ & _ & Hsent) & Hlen & Hdel).
  destruct (fst w) as [[]|e]; eexists; exists del; (split; [exact Hrun|]).
  - match goal with
    | |- context [App.fetchRootData None ?st] =>
        destruct (fetchRootData_leaves st) as (Hn & Ha & Hs)
    end.
    cbn [Types.node Types.alerts Types.sent Types.app].
    rewrite Ha, Hs. cbn [Types.node Types.alerts Types.sent Types.app].
    rewrite Hsent, <- app_assoc. repeat split; auto.
  - cbn [Types.node Types.alerts Types.sent Types.app].
    rewrite Hsent. repeat split; auto.
Qed.

(** A run of X19: the user declines. *)
Lemma delete_outcomes_witness :
  let s := Scripted.start [] Scripted.app0 Scripted.node0 in
  DataNodeRest.handleDelete (H := Scripted.host)
    (App.nodeProps [] (JS.lit "users") JS.Null (JS.lit "demo") 0)
    (fun _ => false) s
  = (JS.OK tt, s).
Proof.
  intros s.
  exact (proj1 (delete_outcomes Scripted.host s [] (JS.lit "users") JS.Null
                  (JS.lit "demo") 0%nat (fun _ => false)) eq_refl).
Defined.

(** X20. Data that is falsy (null, false, 0, the empty string) shows no
    node. A root that is a truthy scalar is shown as one leaf named
    [root], without toggle or children, whose path is [root]: saving an
    edit of it sends its PUT to [/root.json] under the normalised URL,
    not to the root [/.json] the value was read from. *)
Theorem scalar_root_is_a_child :
  forall (H : Net.Host) (data : JS.value) (dbUrl : JS.str) (s : Types.St),
    DataNode.isObject data = false ->
    (JS.truthy data = false -> App.treeView data = []) /\
    (JS.truthy data = true ->
     App.treeView data =
       [DataNode.RNode (JS.lit "root") (JS.lit "root") data 0 false true []] /\
     exists rest s',
       DataNode.handleSave (App.nodeProps [] (JS.lit "root") data dbUrl 0) s
         = (JS.OK tt, s') /\
       Types.sent s' =
         Types.sent s ++
         Net.mkRequest (firebaseService_url.cleanUrl dbUrl ++ JS.lit "/root.json")
           Net.PUT (Some (DataNode.smartParse (Types.editValue (Types.node s))))
         :: rest).
Proof.
  intros H data dbUrl s Hobj. split.
  - intros Ht. unfold App.treeView. now rewrite Ht.
  - intros Ht. split.
    + unfold App.treeView. rewrite Ht, Hobj. cbn [negb].
      destruct data; try discriminate; reflexivity.
    + apply handleSave_run. reflexivity.
Qed.

(** A run of X20: the root holds the string [hello]. *)
Lemma scalar_root_is_a_child_witness :
  App.treeView (JS.Str (JS.lit "hello")) =
    [DataNode.RNode (JS.lit "root") (JS.lit "root") (JS.Str (JS.lit "hello"))
       0 false true []].
Proof.
  exact (proj1 (proj2 (scalar_root_is_a_child Scripted.host (JS.Str (JS.lit "hello"))
                         (JS.lit "demo")
                         (Scripted.start [] Scripted.app0 Scripted.node0)
                         eq_refl) eq_refl)).
Defined.

(** X21. A text that is empty or made of white space only is stored as
    that very string by both forms: it is never read as the number 0,
    although [Number] of such a text is 0, and never as JSON. *)
Theorem blank_text_stays_a_string :
  forall raw : JS.str,
    JS.trim raw = [] ->
    DataNode.smartParse raw = JS.Str raw /\
    DataNode.childValue raw = JS.Str raw.
Proof.
  intros raw Hb. split; [now apply smartParse_blank | now apply childValue_blank].
Qed.

(** A run of X21: a tab and a no-break space. *)
Lemma blank_text_stays_a_string_witness :
  DataNode.smartParse [9; 160]%N = JS.Str [9; 160]%N /\
  DataNode.childValue [9; 160]%N = JS.Str [9; 160]%N.
Proof. exact (blank_text_stays_a_string [9; 160]%N eq_refl). Defined.

(** X22. The two forms infer the same value from a text, except for
    the literal [null] and for texts that are JSON without starting
    with a brace or a bracket (a quoted string, say): whenever the text
    is not [null] and either starts with a brace or a bracket or is not
    JSON at all, the value of a new child is the value an edit would
    give. *)
Theorem child_value_agrees_with_edit :
  forall raw : JS.str,
    raw <> JS.lit "null" ->
    (JS.startsWith (JS.lit "{") raw || JS.startsWith (JS.lit "[") raw = true \/
     exists e, JS.JSON_parse raw = JS.Throw e) ->
    DataNode.childValue raw = DataNode.smartParse raw.
Proof.
  intros raw Hnull Hcase. unfold DataNode.childValue, DataNode.smartParse.
  rewrite (proj2 (str_eqb_neq raw (JS.lit "null")) Hnull).
  destruct (JS.startsWith (JS.lit "{") raw || JS.startsWith (JS.lit "[") raw) eqn:Hb.
  - destruct (bracket_not_literal raw Hb) as [-> ->].
    rewrite (Number_bracket raw Hb). cbn [JS.isNaN negb andb].
    now destruct (JS.JSON_parse raw).
  - destruct Hcase as [|[e He]]; [discriminate|]. rewrite He.
    destruct (JS.str_eqb raw (JS.lit "true")); [reflexivity|].
    destruct (JS.str_eqb raw (JS.lit "false")); [reflexivity|].
    now destruct (negb (JS.isNaN (JS.Number raw)) && negb (JS.str_eqb (JS.trim raw) [])).
Qed.

(** A run of X22: a bare word. *)
Lemma child_value_agrees_with_edit_witness :
  DataNode.childValue (JS.lit "hello") = DataNode.smartParse (JS.lit "hello").
Proof.
  exact (child_value_agrees_with_edit (JS.lit "hello") ltac:(discriminate)
           (or_intror (ex_intro _ (JS.SyntaxError JS.badJSON) eq_refl))).
Defined.

(** X23. Whatever is typed, the value inferred for an edit or for a new
    child is never [undefined]: the PUT always has a body. *)
Theorem inferred_value_is_defined :
  forall raw : JS.str,
    DataNode.smartParse raw <> JS.Undefined /\
    DataNode.childValue raw <> JS.Undefined.
Proof.
  intros raw. unfold DataNode.smartParse, DataNode.childValue. split.
  - destruct (JS.str_eqb raw (JS.lit "true")); [discriminate|].
    destruct (JS.str_eqb raw (JS.lit "false")); [discriminate|].
    destruct (JS.str_eqb raw (JS.lit "null")); [discriminate|].
    destruct (_ && _); [discriminate|].
    destruct (JS.JSON_parse raw) as [v|e] eqn:Hp; [|discriminate].
    now apply JSON_parse_defined in Hp.
  - destruct (JS.JSON_parse raw) as [v|e] eqn:Hp.
    + apply JSON_parse_defined in Hp.
      destruct (_ || _); [exact Hp|].
      destruct (JS.str_eqb raw (JS.lit "true")); [discriminate|].
      destruct (JS.str_eqb raw (JS.lit "false")); [discriminate|].
      destruct (_ && _); discriminate.
    + destruct (JS.str_eqb raw (JS.lit "true")); [destruct (_ || _); discriminate|].
      destruct (JS.str_eqb raw (JS.lit "false")); [destruct (_ || _); discriminate|].
      destruct (_ && _); destruct (_ || _); discriminate.
Qed.

(* ===================================================================== *)
(** ** More on the page: connecting, the raw view, asking for a plan *)
(* ===================================================================== *)

Section MorePage.
Import JS Net Types firebaseService geminiService Spec SpecRest.
Local Open Scope N_scope.
Context {H : Host}.

Lemma checkConnection_frame u s a n al :
  checkConnection u (mkSt (world s) (sent s) a n al) =
  (fst (checkConnection u s),
   mkSt (world (snd (checkConnection u s))) (sent (snd (checkConnection u s)))
        a n al).
Proof. rewrite !checkConnection_run. reflexivity. Qed.

Lemma checkConnection_sent u s :
  sent (snd (checkConnection u s)) =
  sent s ++ [mkRequest (cleanUrl u ++ lit "/.json?shallow=true") GET None].
Proof. rewrite checkConnection_run. reflexivity. Qed.

(** An error of the probe has a message. *)
Lemma checkConnection_thrown u s e :
  fst (checkConnection u s) = Throw e -> message e <> [].
Proof.
  rewrite checkConnection_run. cbn [fst].
  destruct (fst (fetch (world s) _)) as [res|e0].
  - destruct (ok res); [discriminate|].
    destruct (status res =? 401); [intros [= <-]; discriminate|].
    destruct (status res =? 404); [intros [= <-]; discriminate|].
    destruct (status res =? 400); intros [= <-]; discriminate.
  - destruct (str_eqb (name e0) (lit "AbortError")); [intros [= <-]; discriminate|].
    destruct (startsWith noEntry (message e0) || startsWith crossMark (message e0)
              || startsWith warning (message e0)) eqn:Hs.
    + intros [= <-]. intros Hm. rewrite Hm in Hs. discriminate.
    + intros [= <-]. discriminate.
Qed.

Lemma generateDataWithAI_frame prompt cur keys base s a n al :
  generateDataWithAI prompt cur keys base (mkSt (world s) (sent s) a n al) =
  (fst (generateDataWithAI prompt cur keys base s),
   mkSt (world (snd (generateDataWithAI prompt cur keys base s))) (sent s) a n al).
Proof. rewrite !generateDataWithAI_run. reflexivity. Qed.

(** Connecting, by the outcome of the probe. *)
Lemma handleConnect_cases (s : St) :
  urlInput (app s) <> [] ->
  let target := cleanUrl (urlInput (app s)) in
  let p := checkConnection target s in
  AppRest.handleConnect s =
  match fst p with
  | OK _ =>
      let w1 := world (snd p) in
      let s2 := snd (App.fetchRootData (Some target)
                  (mkSt w1 (sent (snd p))
                     (setNotifications
                        (fun prev => prev ++
                           [mkNotification success (lit "Connected successfully!")
                              (now w1)])
                        (AppRest.setDbInfo (mkDb target true)
                           (AppRest.setAppError None (setLoading true (app s)))))
                     (node s) (alerts s))) in
      (OK tt, mkSt (world s2) (sent s2) (setLoading false (app s2))
                (node s2) (alerts s2))
  | Throw e =>
      let w1 := world (snd p) in
      (OK tt, mkSt w1 (sent (snd p))
                (setLoading false
                   (setNotifications
                      (fun prev => prev ++
                         [mkNotification error (lit "Connection failed") (now w1)])
                      (AppRest.setAppError (Some (message e))
                         (AppRest.setAppError None (setLoading true (app s))))))
                (node s) (alerts s))
  end.
Proof.
  intros Hu target p. unfold AppRest.handleConnect, mbind at 1, getApp.
  destruct (urlInput (app s)) as [|c0 u0] eqn:Hin; [congruence|].
  fold target.
  unfold mbind at 1, setApp at 1. unfold mbind at 1, setApp at 1.
  unfold finally, tryCatch, mbind at 1. cbn [world sent app node alerts].
  rewrite checkConnection_frame. fold p.
  destruct (fst p) as [b|e] eqn:Hp.
  - unfold mbind at 1, setApp at 1. unfold mbind at 1, App.notify at 1.
    unfold mbind at 1, getNow, setApp at 1. cbn [world sent app node alerts].
    rewrite fetchRootData_pair. reflexivity.
  - apply checkConnection_thrown in Hp.
    unfold mbind, setApp, App.notify, getNow, setApp.
    cbn [world sent app node alerts]. rewrite (orElse_keeps _ _ Hp). reflexivity.
Qed.

(** Saving the raw view, by what the text parses to and by the outcome
    of the write. *)
Lemma handleSaveRaw_cases (s : St) :
  let url := db_url (dbInfo (app s)) in
  let failed (w : World) (l : list Request) :=
    (OK tt,
     mkSt w l
       (setLoading false
          (setNotifications
             (fun prev => prev ++
                [mkNotification error
                   (lit "Invalid JSON format. Please check syntax.") (now w)])
             (setLoading true (app s))))
       (node s) (alerts s)) in
  AppRest.handleSaveRaw s =
  match JSON_parse (rawJsonInput (app s)) with
  | Throw _ => failed (world s) (sent s)
  | OK parsed =>
      let p := writeData url [] parsed s in
      match fst p with
      | Throw _ => failed (world (snd p)) (sent (snd p))
      | OK _ =>
          let w1 := world (snd p) in
          let s2 := snd (App.fetchRootData None
                      (mkSt w1 (sent (snd p))
                         (setNotifications
                            (fun prev => prev ++
                               [mkNotification success
                                  (lit "Database updated from JSON!") (now w1)])
                            (setLoading true (app s)))
                         (node s) (alerts s))) in
          (OK tt, mkSt (world s2) (sent s2) (AppRest.setViewMode tree (app s2))
                    (node s2) (alerts s2))
      end
  end.
Proof.
  intros url failed. unfold AppRest.handleSaveRaw, mbind at 1, getApp.
  fold url. unfold mbind at 1, setApp at 1. unfold tryCatch, mbind at 1, liftR.
  destruct (JSON_parse (rawJsonInput (app s))) as [parsed|e].
  - unfold mbind at 1. rewrite writeData_frame.
    destruct (fst (writeData url [] parsed s)) as [[]|e].
    + unfold mbind at 1, App.notify at 1. unfold mbind at 1, getNow, setApp at 1.
      cbn [world sent app node alerts].
      unfold mbind at 1. rewrite fetchRootData_pair. reflexivity.
    + reflexivity.
  - reflexivity.
Qed.

(** Asking for a plan with a prompt that is not blank: the context that
    is handed to the generator, and what the page holds afterwards. *)
Lemma handleAiGenerate_cases (s : St) :
  trim (aiPrompt (app s)) <> [] ->
  let a := app s in
  let p := trim (aiPath a) in
  let r := readData (db_url (dbInfo a)) p s in
  let s1 := match p with
            | [] => s
            | _ :: _ => snd r
            end in
  let cur := match p with
             | [] => Null
             | _ :: _ => match fst r with
                         | OK v => v
                         | Throw _ => Null
                         end
             end in
  let keys := match p with
              | [] => if truthy (data a) && DataNode.isObject (data a)
                      then AppRest.Object_keys (data a) else []
              | _ :: _ => []
              end in
  let g := generateDataWithAI (aiPrompt a) cur keys p s1 in
  let w := world (snd g) in
  AppRest.handleAiGenerate s =
  (OK tt,
   mkSt w (sent s1)
     (AppRest.setAiLoading false
        (setNotifications
           (fun prev => prev ++
              [match fst g with
               | OK response =>
                   match actions response with
                   | _ :: _ =>
                       mkNotification success
                         (lit "AI proposed " ++
                          decimal (N.of_nat (List.length (actions response))) ++
                          lit " actions.") (now w)
                   | [] => mkNotification info (lit "AI replied (no actions).") (now w)
                   end
               | Throw e => mkNotification error (message e) (now w)
               end])
           (setAiResult
              (match fst g with
               | OK response => Some response
               | Throw _ => None
               end)
              (AppRest.setAiLoading true a))))
     (node s) (alerts s)).
Proof.
  intros Hprompt. cbv zeta.
  unfold AppRest.handleAiGenerate, mbind at 1, getApp.
  destruct (trim (aiPrompt (app s))) as [|c0 t0]; [congruence|].
  unfold mbind at 1, setApp at 1. unfold mbind at 1, setApp at 1.
  unfold finally, tryCatch at 1, mbind at 1. cbn [world sent app node alerts].
  destruct (trim (aiPath (app s))) as [|c1 t1].
  - destruct (truthy (data (app s)) && DataNode.isObject (data (app s)));
      unfold ret at 1; unfold mbind at 1; cbn [fst snd];
      rewrite generateDataWithAI_frame;
      (destruct (fst (generateDataWithAI _ _ _ _ s)) as [response|e];
       [ unfold mbind, setApp, App.notify, mbind, getNow, setApp;
         cbn [world sent app node alerts];
         destruct (actions response); reflexivity
       | reflexivity ]).
  - unfold tryCatch at 1, mbind at 1. rewrite readData_frame.
    destruct (fst (readData _ _ s)) as [v|e0];
      unfold ret at 1; unfold mbind at 1; cbn [fst snd world sent app node alerts];
      match goal with
      | |- context [generateDataWithAI ?a ?b ?c ?d (mkSt _ _ ?x ?y ?z)] =>
          rewrite (generateDataWithAI_frame a b c d
                     (snd (readData (db_url (dbInfo (app s))) (c1 :: t1) s)) x y z)
      end;
      (destruct (fst (generateDataWithAI _ _ _ _ _)) as [response|e];
       [ unfold mbind, setApp, App.notify, mbind, getNow, setApp;
         cbn [world sent app node alerts];
         destruct (actions response); reflexivity
       | reflexivity ]).
Qed.

(** What a reload leaves of the page. *)
Lemma fetchRootData_keeps (url : option str) (s : St) :
  let s2 := snd (App.fetchRootData url s) in
  let u := match url with
           | Some u => u
           | None => db_url (dbInfo (app s))
           end in
  dbInfo (app s2) = dbInfo (app s) /\
  appError (app s2) = appError (app s) /\
  viewMode (app s2) = viewMode (app s) /\
  loading (app s2) = false /\
  node s2 = node s /\ alerts s2 = alerts s /\
  sent s2 = sent s ++ [mkRequest (cleanUrl u ++ lit "/.json") GET None] /\
  exists rest, notifications (app s2) = notifications (app s) ++ rest.
Proof.
  intros s2 u. subst s2. rewrite fetchRootData_cases. fold u.
  cbn [snd world sent app node alerts].
  destruct (fst (readData u [] s)) as [v|e].
  - destruct (viewMode (app s)) eqn:Hv; do 2 (split; [reflexivity|]);
      (split; [exact Hv|]); do 4 (split; [reflexivity|]);
      exists []; cbn; now rewrite app_nil_r.
  - do 7 (split; [reflexivity|]). eexists. reflexivity.
Qed.

Lemma writeData_root_sent u d s :
  sent (snd (writeData u [] d s)) =
    sent s ++ [mkRequest (cleanUrl u ++ lit "/.json") PUT (Some d)].
Proof.
  rewrite writeData_run, snd_let. unfold storeCall. rewrite buildEndpoint_root.
  reflexivity.
Qed.

Lemma readData_grows u p s :
  exists l, sent (snd (readData u p s)) = sent s ++ l /\
            (List.length l <= 1)%nat /\
            Forall (fun rq => method rq = GET /\ body rq = None) l.
Proof.
  rewrite readData_run, snd_let.
  destruct (storeCall_grows GET None (lit "Permission Denied (401)")
              (lit "Failed to read data: ") (lit "Failed to fetch data") u p s
              _ _ (surjective_pairing _)) as (l & (_ & _ & _ & Hs) & Hl & Hm).
  exists l. auto.
Qed.

Lemma generateDataWithAI_sent prompt cur keys base s :
  sent (snd (generateDataWithAI prompt cur keys base s)) = sent s.
Proof. rewrite generateDataWithAI_run. reflexivity. Qed.

End MorePage.

(** X24. Connecting with an empty box does nothing. Otherwise the
    handler never throws and ends with [loading] off. The probe goes to
    the URL normalised twice (once by the handler, once by the probe).
    When the probe succeeds the connection is recorded with the URL
    normalised once, the error line is cleared, [Connected
    successfully!] is notified and the root is read from that URL. When
    it fails nothing is recorded and nothing is read: the error line
    holds the message of the probe (the fallback text is never used: an
    error of the probe always has a message) and [Connection failed] is
    notified. *)
Theorem connect_outcomes :
  forall (H : Net.Host) (s : Types.St),
    let target := firebaseService_url.cleanUrl (Types.urlInput (Types.app s)) in
    let p := firebaseService.checkConnection target s in
    let probe := Net.mkRequest
                   (firebaseService_url.cleanUrl target ++
                    JS.lit "/.json?shallow=true") Net.GET None in
    (Types.urlInput (Types.app s) = [] -> AppRest.handleConnect s = (JS.OK tt, s)) /\
    (Types.urlInput (Types.app s) <> [] ->
     exists s',
       AppRest.handleConnect s = (JS.OK tt, s') /\
       Types.loading (Types.app s') = false /\
       Types.node s' = Types.node s /\
       Types.alerts s' = Types.alerts s /\
       match fst p with
       | JS.OK _ =>
           Types.dbInfo (Types.app s') = Types.mkDb target true /\
           Types.appError (Types.app s') = None /\
           Types.sent s' =
             Types.sent s ++
             [probe;
              Net.mkRequest (firebaseService_url.cleanUrl target ++ JS.lit "/.json")
                Net.GET None] /\
           exists rest,
             Types.notifications (Types.app s') =
               Types.notifications (Types.app s) ++
               Types.mkNotification Types.success (JS.lit "Connected successfully!")
                 (Net.now (Types.world (snd p))) :: rest
       | JS.Throw e =>
           Types.dbInfo (Types.app s') = Types.dbInfo (Types.app s) /\
           Types.data (Types.app s') = Types.data (Types.app s) /\
           Types.appError (Types.app s') = Some (JS.message e) /\
           JS.message e <> [] /\
           Types.sent s' = Types.sent s ++ [probe] /\
           Types.notifications (Types.app s') =
             Types.notifications (Types.app s) ++
             [Types.mkNotification Types.error (JS.lit "Connection failed")
                (Net.now (Types.world (snd p)))]
       end).
Proof.
  intros H s target p probe. split.
  - intros Hu. unfold AppRest.handleConnect, Types.mbind at 1, Types.getApp.
    now rewrite Hu.
  - intros Hu. pose proof (handleConnect_cases s Hu) as Hrun.
    cbv zeta in Hrun. fold target in Hrun. fold p in Hrun.
    pose proof (checkConnection_sent target s) as Hsent. fold p in Hsent.
    fold probe in Hsent.
    destruct (fst p) as [b|e] eqn:Hp; eexists; (split; [exact Hrun|]).
    + match goal with
      | |- context [App.fetchRootData (Some target) ?st] =>
          destruct (fetchRootData_keeps (Some target) st)
            as (Hdb & Herr & _ & _ & Hn & Ha & Hs & rest & Hnotes)
      end.
      cbn [Types.node Types.alerts Types.sent Types.app Types.loading
           Types.setLoading Types.dbInfo Types.appError Types.notifications].
      rewrite Hdb, Herr, Hn, Ha, Hs, Hnotes.
      cbn [Types.node Types.alerts Types.sent Types.app Types.loading
           Types.dbInfo Types.appError Types.notifications
           Types.setNotifications AppRest.setDbInfo AppRest.setAppError].
      rewrite Hsent, <- !app_assoc.
      do 6 (split; [reflexivity|]). exists rest. reflexivity.
    + cbn [Types.node Types.alerts Types.sent Types.app Types.loading
           Types.setLoading Types.dbInfo Types.appError Types.notifications
           Types.data Types.setNotifications AppRest.setAppError].
      rewrite Hsent. repeat split; try reflexivity.
      now apply checkConnection_thrown in Hp.
Qed.

(** A run of X24: nothing was typed. *)
Lemma connect_outcomes_witness :
  let s := Scripted.start [] Scripted.app0 Scripted.node0 in
  AppRest.handleConnect (H := Scripted.host) s = (JS.OK tt, s).
Proof.
  intros s. exact (proj1 (connect_outcomes Scripted.host s) eq_refl).
Defined.

(** X25. Saving the raw view never throws and ends with [loading] off.
    A text that is not JSON sends nothing and is reported as [Invalid
    JSON format. Please check syntax.]. A text that is JSON is PUT at
    the root; when the write succeeds [Database updated from JSON!] is
    notified, the root is read again and the view goes back to the
    tree; when the write fails the view stays, and the failure is
    reported with the same [Invalid JSON format. Please check syntax.],
    although the text was valid. *)
Theorem raw_save_outcomes :
  forall (H : Net.Host) (s : Types.St),
    let url := Types.db_url (Types.dbInfo (Types.app s)) in
    let invalid := JS.lit "Invalid JSON format. Please check syntax." in
    exists s',
      AppRest.handleSaveRaw s = (JS.OK tt, s') /\
      Types.loading (Types.app s') = false /\
      match JS.JSON_parse (Types.rawJsonInput (Types.app s)) with
      | JS.Throw _ =>
          Types.sent s' = Types.sent s /\
          Types.viewMode (Types.app s') = Types.viewMode (Types.app s) /\
          Types.data (Types.app s') = Types.data (Types.app s) /\
          Types.notifications (Types.app s') =
            Types.notifications (Types.app s) ++
            [Types.mkNotification Types.error invalid (Net.now (Types.world s'))]
      | JS.OK parsed =>
          let put := Net.mkRequest (firebaseService_url.cleanUrl url ++ JS.lit "/.json")
                       Net.PUT (Some parsed) in
          match fst (firebaseService.writeData url [] parsed s) with
          | JS.OK _ =>
              Types.viewMode (Types.app s') = Types.tree /\
              Types.sent s' = Types.sent s ++ [put; Spec.rootRequest (Types.app s)] /\
              exists rest,
                Types.notifications (Types.app s') =
                  Types.notifications (Types.app s) ++
                  Types.mkNotification Types.success
                    (JS.lit "Database updated from JSON!")
                    (Net.now (Types.world
                       (snd (firebaseService.writeData url [] parsed s)))) :: rest
          | JS.Throw _ =>
              Types.sent s' = Types.sent s ++ [put] /\
              Types.viewMode (Types.app s') = Types.viewMode (Types.app s) /\
              Types.data (Types.app s') = Types.data (Types.app s) /\
              Types.notifications (Types.app s') =
                Types.notifications (Types.app s) ++
                [Types.mkNotification Types.error invalid (Net.now (Types.world s'))]
          end
      end.
Proof.
  intros H s url invalid. pose proof (handleSaveRaw_cases s) as Hrun.
  cbv zeta in Hrun. fold url in Hrun.
  destruct (JS.JSON_parse (Types.rawJsonInput (Types.app s))) as [parsed|e0].
  - pose proof (writeData_root_sent url parsed s) as Hsent.
    destruct (fst (firebaseService.writeData url [] parsed s)) as [[]|e];
      eexists; (split; [exact Hrun|]).
    + match goal with
      | |- context [App.fetchRootData None ?st] =>
          destruct (fetchRootData_keeps None st)
            as (_ & _ & _ & Hl & _ & _ & Hs & rest & Hnotes)
      end.
      cbv zeta.
      cbn [Types.node Types.alerts Types.sent Types.app Types.loading
           Types.viewMode Types.notifications AppRest.setViewMode] in *.
      rewrite Hl, Hs, Hnotes, Hsent, <- !app_assoc.
      cbn [Types.notifications Types.setNotifications Types.dbInfo Types.setLoading].
      do 3 (split; [reflexivity|]).
      rewrite <- app_assoc. exists rest. reflexivity.
    + cbv zeta. cbn [Types.node Types.alerts Types.sent Types.app Types.world].
      rewrite Hsent. repeat split; reflexivity.
  - eexists. split; [exact Hrun|]. repeat split; reflexivity.
Qed.

(** X26. Asking for a plan with a blank prompt does nothing. Otherwise
    the handler never throws and ends with the spinner off; it changes
    nothing in the store: at most one request goes out, a GET for the
    context, and none when no path is given. The generator is asked
    once, with the prompt as typed, the trimmed path, and as context
    what was read at that path ([null] when the read failed or no path
    is given; without a path the keys of the root shown are handed
    over instead). What it answers decides the rest: its plan becomes
    the proposal and one notification gives the number of actions
    proposed, or [AI replied (no actions).] for an empty plan; when it
    throws, no proposal is kept (the previous one is cleared) and one
    error notification carries its message. A failed read of the
    context raises no notification of its own. *)
Theorem plan_request_outcomes :
  forall (H : Net.Host) (s : Types.St),
    let a := Types.app s in
    let p := JS.trim (Types.aiPath a) in
    let r := firebaseService.readData (Types.db_url (Types.dbInfo a)) p s in
    let s1 := match p with
              | [] => s
              | _ :: _ => snd r
              end in
    let cur := match p with
               | [] => JS.Null
               | _ :: _ => match fst r with
                           | JS.OK v => v
                           | JS.Throw _ => JS.Null
                           end
               end in
    let keys := match p with
                | [] => if JS.truthy (Types.data a) && DataNode.isObject (Types.data a)
                        then AppRest.Object_keys (Types.data a) else []
                | _ :: _ => []
                end in
    let g := geminiService.generateDataWithAI (Types.aiPrompt a) cur keys p s1 in
    (JS.trim (Types.aiPrompt a) = [] ->
     AppRest.handleAiGenerate s = (JS.OK tt, s)) /\
    (JS.trim (Types.aiPrompt a) <> [] ->
     exists s' reqs note,
       AppRest.handleAiGenerate s = (JS.OK tt, s') /\
       Types.world s' = Types.world (snd g) /\
       Types.aiLoading (Types.app s') = false /\
       Types.data (Types.app s') = Types.data a /\
       Types.sent s' = Types.sent s ++ reqs /\
       (List.length reqs <= 1)%nat /\
       Forall (fun rq => Net.method rq = Net.GET /\ Net.body rq = None) reqs /\
       (p = [] -> reqs = []) /\
       Types.notifications (Types.app s') = Types.notifications a ++ [note] /\
       Types.n_id note = Net.now (Types.world (snd g)) /\
       match fst g with
       | JS.OK response =>
           Types.aiResult (Types.app s') = Some response /\
           match Types.actions response with
           | [] => Types.n_type note = Types.info /\
                   Types.n_message note = JS.lit "AI replied (no actions)."
           | _ :: _ =>
               Types.n_type note = Types.success /\
               Types.n_message note =
                 JS.lit "AI proposed " ++
                 JS.decimal (N.of_nat (List.length (Types.actions response))) ++
                 JS.lit " actions."
           end
       | JS.Throw e =>
           Types.aiResult (Types.app s') = None /\
           Types.n_type note = Types.error /\
           Types.n_message note = JS.message e
       end).
Proof.
  intros H s a p r s1 cur keys g. split.
  - intros Hb. unfold AppRest.handleAiGenerate, Types.mbind at 1, Types.getApp.
    fold a. now rewrite Hb.
  - intros Hprompt. pose proof (handleAiGenerate_cases s Hprompt) as Hrun.
    cbv zeta in Hrun. fold a in Hrun. fold p in Hrun. fold r in Hrun.
    fold s1 in Hrun. fold cur in Hrun. fold keys in Hrun. fold g in Hrun.
    destruct (readData_grows (Types.db_url (Types.dbInfo a)) p s)
      as (l & Hl & Hlen & Hget). fold r in Hl.
    eexists. exists (match p with [] => [] | _ :: _ => l end).
    eexists. split; [exact Hrun|].
    cbn [Types.app Types.sent Types.world Types.notifications Types.aiLoading
         Types.data Types.aiResult AppRest.setAiLoading Types.setNotifications
         Types.setAiResult].
    split; [reflexivity|]. split; [reflexivity|]. split; [reflexivity|].
    split; [subst s1; destruct p; [now rewrite app_nil_r | exact Hl]|].
    split; [destruct p; [cbn; lia | exact Hlen]|].
    split; [destruct p; [constructor | exact Hget]|].
    split; [now intros ->|].
    split; [reflexivity|].
    destruct (fst g) as [response|e].
    + split; [destruct (Types.actions response); reflexivity|].
      split; [reflexivity|].
      destruct (Types.actions response); split; reflexivity.
    + repeat split; reflexivity.
Qed.

(** A run of X26: a prompt of spaces. *)
Lemma plan_request_outcomes_witness :
  let s := Scripted.start []
             (Types.setAiPrompt (JS.lit "   ") Scripted.app0) Scripted.node0 in
  AppRest.handleAiGenerate (H := Scripted.host) s = (JS.OK tt, s).
Proof.
  intros s. exact (proj1 (plan_request_outcomes Scripted.host s) eq_refl).
Defined.

(* ===================================================================== *)
(** ** Encoded segments read back *)
(* ===================================================================== *)

Ltac dlia := zify; Z.to_euclidean_division_equations; lia.

Section RoundTrip.
Import JS firebaseService_url Spec SpecRest.
Local Open Scope N_scope.

Lemma hexVal_hexDigit (n : N) : n < 16 -> hexVal (hexDigit n) = Some n.
Proof.
  intros Hn. unfold hexDigit, hexVal. destruct (N.ltb_spec n 10).
  - replace ((48 <=? 48 + n) && (48 + n <=? 57)) with true
      by (symmetry; rewrite andb_true_iff, !N.leb_le; lia).
    f_equal. lia.
  - replace ((48 <=? 55 + n) && (55 + n <=? 57)) with false
      by (symmetry; rewrite andb_false_iff, !N.leb_gt; lia).
    replace ((65 <=? 55 + n) && (55 + n <=? 70)) with true
      by (symmetry; rewrite andb_true_iff, !N.leb_le; lia).
    f_equal. lia.
Qed.

Lemma tokens_plain (c : N) (r : str) :
  uriUnreserved c = true ->
  tokens (c :: r) = option_map (cons (Lit c)) (tokens r).
Proof.
  intros Hu. cbn [tokens]. destruct (N.eqb_spec c 37) as [-> | _]; [discriminate|].
  now destruct (tokens r).
Qed.

Lemma tokens_octet (b : N) (r : str) :
  b < 256 -> tokens (pctOctet b ++ r) = option_map (cons (Oct b)) (tokens r).
Proof.
  intros Hb. unfold pctOctet. cbn [List.app tokens]. rewrite N.eqb_refl.
  rewrite !hexVal_hexDigit by dlia.
  replace (b / 16 * 16 + b mod 16) with b by dlia.
  now destruct (tokens r).
Qed.

Lemma tokens_octets (os : list N) (r : str) :
  Forall (fun b => b < 256) os ->
  tokens (flat_map pctOctet os ++ r) = option_map (List.app (map Oct os)) (tokens r).
Proof.
  induction 1 as [|b os Hb _ IH]; cbn [flat_map map List.app].
  - now destruct (tokens r).
  - rewrite <- app_assoc, (tokens_octet b _ Hb), IH. now destruct (tokens r).
Qed.

(** The octets of a code point are read back as its units. *)
Lemma fromTokens_utf8 (cp : N) (t : list token) :
  cp < 1114112 ->
  fromTokens (map Oct (utf8 cp) ++ t) = option_map (List.app (unitsOf cp)) (fromTokens t).
Proof.
  intros Hcp. unfold utf8.
  destruct (N.ltb_spec cp 128) as [H1|H1].
  { cbn [map List.app fromTokens].
    replace (cp <? 128) with true by (symmetry; apply N.ltb_lt; lia).
    unfold unitsOf. replace (cp <? 65536) with true by (symmetry; apply N.ltb_lt; lia).
    reflexivity. }
  destruct (N.ltb_spec cp 2048) as [H2|H2].
  { cbn [map List.app fromTokens].
    replace (192 + cp / 64 <? 128) with false by (symmetry; apply N.ltb_ge; dlia).
    replace ((192 <=? 192 + cp / 64) && (192 + cp / 64 <? 224)) with true
      by (symmetry; rewrite andb_true_iff, N.leb_le, N.ltb_lt; dlia).
    replace (isCont (128 + cp mod 64)) with true
      by (symmetry; unfold isCont; rewrite andb_true_iff, N.leb_le, N.ltb_lt; dlia).
    replace ((192 + cp / 64 - 192) * 64 + (128 + cp mod 64 - 128)) with cp by dlia.
    reflexivity. }
  destruct (N.ltb_spec cp 65536) as [H3|H3].
  { cbn [map List.app fromTokens].
    replace (224 + cp / 4096 <? 128) with false by (symmetry; apply N.ltb_ge; dlia).
    replace ((192 <=? 224 + cp / 4096) && (224 + cp / 4096 <? 224)) with false
      by (symmetry; rewrite andb_false_iff, N.leb_gt, N.ltb_ge; dlia).
    replace ((224 <=? 224 + cp / 4096) && (224 + cp / 4096 <? 240)) with true
      by (symmetry; rewrite andb_true_iff, N.leb_le, N.ltb_lt; dlia).
    replace (isCont (128 + (cp / 64) mod 64)) with true
      by (symmetry; unfold isCont; rewrite andb_true_iff, N.leb_le, N.ltb_lt; dlia).
    replace (isCont (128 + cp mod 64)) with true
      by (symmetry; unfold isCont; rewrite andb_true_iff, N.leb_le, N.ltb_lt; dlia).
    cbn [andb].
    replace ((224 + cp / 4096 - 224) * 4096 + (128 + (cp / 64) mod 64 - 128) * 64 +
             (128 + cp mod 64 - 128)) with cp by dlia.
    reflexivity. }
  cbn [map List.app fromTokens].
  replace (240 + cp / 262144 <? 128) with false by (symmetry; apply N.ltb_ge; dlia).
  replace ((192 <=? 240 + cp / 262144) && (240 + cp / 262144 <? 224)) with false
    by (symmetry; rewrite andb_false_iff, N.leb_gt, N.ltb_ge; dlia).
  replace ((224 <=? 240 + cp / 262144) && (240 + cp / 262144 <? 240)) with false
    by (symmetry; rewrite andb_false_iff, N.leb_gt, N.ltb_ge; dlia).
  replace ((240 <=? 240 + cp / 262144) && (240 + cp / 262144 <? 248)) with true
    by (symmetry; rewrite andb_true_iff, N.leb_le, N.ltb_lt; dlia).
  replace (isCont (128 + (cp / 4096) mod 64)) with true
    by (symmetry; unfold isCont; rewrite andb_true_iff, N.leb_le, N.ltb_lt; dlia).
  replace (isCont (128 + (cp / 64) mod 64)) with true
    by (symmetry; unfold isCont; rewrite andb_true_iff, N.leb_le, N.ltb_lt; dlia).
  replace (isCont (128 + cp mod 64)) with true
    by (symmetry; unfold isCont; rewrite andb_true_iff, N.leb_le, N.ltb_lt; dlia).
  cbn [andb].
  replace ((240 + cp / 262144 - 240) * 262144 + (128 + (cp / 4096) mod 64 - 128) * 4096 +
           (128 + (cp / 64) mod 64 - 128) * 64 + (128 + cp mod 64 - 128)) with cp by dlia.
  reflexivity.
Qed.

Lemma pctDecode_plain (c : N) (e : str) :
  uriUnreserved c = true ->
  pctDecode (c :: e) = option_map (cons c) (pctDecode e).
Proof.
  intros Hu. unfold pctDecode. rewrite (tokens_plain c e Hu).
  now destruct (tokens e).
Qed.

Lemma pctDecode_encoded (cp : N) (e : str) :
  cp < 1114112 ->
  pctDecode (pctEncode cp ++ e) = option_map (List.app (unitsOf cp)) (pctDecode e).
Proof.
  intros Hcp. unfold pctDecode, pctEncode.
  rewrite (tokens_octets _ _ (utf8_octets cp Hcp)).
  destruct (tokens e) as [t|]; [|reflexivity]. cbn [option_map].
  now apply fromTokens_utf8.
Qed.

(** Decoding an encoded text gives the text back. *)
Lemma pctDecode_encodeURIComponent (s e : str) :
  codeUnits s = true -> encodeURIComponent s = OK e -> pctDecode e = Some s.
Proof.
  remember (List.length s) as n eqn:En.
  revert s e En. induction n as [n IH] using lt_wf_ind. intros s e En Hs.
  destruct s as [|c rest]; cbn [encodeURIComponent].
  - now intros [= <-].
  - cbn [codeUnits forallb] in Hs. apply andb_true_iff in Hs as [Hc Hrest].
    apply N.ltb_lt in Hc. subst n.
    destruct (uriUnreserved c) eqn:Hu.
    + destruct (encodeURIComponent rest) as [r|] eqn:Er; cbn [bind]; [|discriminate].
      intros [= <-]. rewrite (pctDecode_plain c r Hu).
      now rewrite (IH (List.length rest) ltac:(simpl; lia) rest r eq_refl Hrest Er).
    + destruct (isLeadSurrogate c) eqn:Hl.
      * destruct rest as [|d rest']; [discriminate|].
        destruct (isTrailSurrogate d) eqn:Ht; [|discriminate].
        destruct (encodeURIComponent rest') as [r|] eqn:Er; cbn [bind]; [|discriminate].
        intros [= <-].
        unfold isLeadSurrogate in Hl. unfold isTrailSurrogate in Ht.
        rewrite andb_true_iff, !N.leb_le in Hl, Ht.
        rewrite pctDecode_encoded by lia.
        cbn [codeUnits forallb] in Hrest. apply andb_true_iff in Hrest as [_ Hrest'].
        rewrite (IH (List.length rest') ltac:(simpl; lia) rest' r eq_refl Hrest' Er).
        cbn [option_map]. f_equal. unfold unitsOf.
        replace ((c - 55296) * 1024 + (d - 56320) + 65536 <? 65536) with false
          by (symmetry; apply N.ltb_ge; lia).
        cbn [List.app]. f_equal; [dlia|]. f_equal. dlia.
      * destruct (isTrailSurrogate c); [discriminate|].
        destruct (encodeURIComponent rest) as [r|] eqn:Er; cbn [bind]; [|discriminate].
        intros [= <-]. rewrite pctDecode_encoded by lia.
        rewrite (IH (List.length rest) ltac:(simpl; lia) rest r eq_refl Hrest Er).
        cbn [option_map]. unfold unitsOf.
        replace (c <? 65536) with true by (symmetry; apply N.ltb_lt; lia).
        reflexivity.
Qed.


(** Two texts with the same encoding are the same text. *)
Lemma encodeURIComponent_injective (s1 s2 e : str) :
  codeUnits s1 = true -> codeUnits s2 = true ->
  encodeURIComponent s1 = OK e -> encodeURIComponent s2 = OK e -> s1 = s2.
Proof.
  intros H1 H2 E1 E2.
  apply (pctDecode_encodeURIComponent s1 e H1) in E1.
  apply (pctDecode_encodeURIComponent s2 e H2) in E2. congruence.
Qed.



End RoundTrip.




